(** * Anubis: the public IDE session views

    A shallow embedding of [api/anubis/views/public/ide.py]: the views
    [public_ide_initialize], [public_ide_stop] and [public_ide_poll], run
    against an explicit store (the [TheiaSession] table, the config table,
    the memoisation cache of [theia_poll_ide], the job queue).

    Conventions.
    - A [datetime] is an integer number of microseconds (the resolution of
      Python's naive datetimes) counted from [datetime.min], the first
      instant of year 1; the last datetime is [datetime_max], the last
      microsecond of year 9999.  A [timedelta] is a difference of two such
      numbers.
    - [total_seconds()] is a float: the binary64 number nearest to the
      microsecond count divided by 10^6.  The views compare this float with
      an integer number of seconds.  For a number of seconds from 0 to 2^34
      this is the comparison of the microsecond count with that number times
      10^6 (lemma [seconds_lt_exact]); beyond, the rounding can lift a
      duration just under the number of seconds up to it.
    - A view either returns a response or raises; both are results of the
      monad [M], which threads the store.
    - A request is served at one instant: [datetime.now()] reads the store's
      clock, which does not advance while a view runs. *)

From Stdlib Require Import ZArith Ascii String List Lia.
From stdpp Require Import base decidable option list strings gmap.

Local Open Scope Z_scope.
Local Open Scope string_scope.

(** ** Data model *)

(** The payload of [TheiaSession.data] and of [theia_poll_ide]: the views
    read its ["state"] entry and pass the rest along untouched. *)
Record SessionData := mkSessionData {
  sd_state : string;
  sd_detail : string;
}.

Module User.
Record t := mk {
  id : string;
  netid : string;
  github_username : option string;
}.
End User.

Module Assignment.
Record t := mk {
  id : string;
  course_id : string;
  ide_enabled : bool;
  release_date : Z;
  due_date : Z;
  github_repo_required : bool;
  theia_image_id : string;
  theia_options : gmap string string;
}.

(** The same assignment with other dates. *)
Definition set_dates (release due : Z) (a : t) : t :=
  mk (id a) (course_id a) (ide_enabled a) release due
     (github_repo_required a) (theia_image_id a) (theia_options a).

(** The same assignment with other options. *)
Definition set_theia_options (options : gmap string string) (a : t) : t :=
  mk (id a) (course_id a) (ide_enabled a) (release_date a) (due_date a)
     (github_repo_required a) (theia_image_id a) options.
End Assignment.

Module AssignmentRepo.
Record t := mk {
  owner_id : string;
  assignment_id : string;
  repo_url : string;
}.
End AssignmentRepo.

Module TheiaSession.
Record t := mk {
  id : string;
  owner_id : string;
  assignment_id : string;
  course_id : string;
  image_id : string;
  repo_url : string;
  playground : bool;
  network_locked : bool;
  network_policy : string;
  persistent_storage : bool;
  autosave : bool;
  resources : string;
  privileged : bool;
  admin : bool;
  credentials : bool;
  active : bool;
  state : string;
  created : Z;
  ended : option Z;
}.

(** The three attribute assignments of [public_ide_stop]. *)
Definition set_active (b : bool) (s : t) : t :=
  mk (id s) (owner_id s) (assignment_id s) (course_id s) (image_id s)
     (repo_url s) (playground s) (network_locked s) (network_policy s)
     (persistent_storage s) (autosave s) (resources s) (privileged s)
     (admin s) (credentials s) b (state s) (created s) (ended s).

Definition set_ended (e : option Z) (s : t) : t :=
  mk (id s) (owner_id s) (assignment_id s) (course_id s) (image_id s)
     (repo_url s) (playground s) (network_locked s) (network_policy s)
     (persistent_storage s) (autosave s) (resources s) (privileged s)
     (admin s) (credentials s) (active s) (state s) (created s) e.

Definition set_state (st : string) (s : t) : t :=
  mk (id s) (owner_id s) (assignment_id s) (course_id s) (image_id s)
     (repo_url s) (playground s) (network_locked s) (network_policy s)
     (persistent_storage s) (autosave s) (resources s) (privileged s)
     (admin s) (credentials s) (active s) st (created s) (ended s).
End TheiaSession.

(** Calls that reach the orchestration backend. *)
Inductive BackendCall :=
| Submit (session_id : string)
| Fetch (session_id user_id : string).

(** The store a request runs against. *)
Record World := mkWorld {
  clock : Z;
  theia_session : list TheiaSession.t;
  assignment_repo : list AssignmentRepo.t;
  config : gmap string Z;
  memoized : gmap (string * string) (option SessionData * Z);
  backend : string → string → option SessionData;
  backend_calls : list BackendCall;
  rpc_queue : list string;
}.

Definition set_theia_session (l : list TheiaSession.t) (w : World) : World :=
  mkWorld (clock w) l (assignment_repo w) (config w) (memoized w)
          (backend w) (backend_calls w) (rpc_queue w).

Definition set_memoized (m : gmap (string * string) (option SessionData * Z))
    (w : World) : World :=
  mkWorld (clock w) (theia_session w) (assignment_repo w) (config w) m
          (backend w) (backend_calls w) (rpc_queue w).

Definition log_backend_call (c : BackendCall) (w : World) : World :=
  mkWorld (clock w) (theia_session w) (assignment_repo w) (config w)
          (memoized w) (backend w) (backend_calls w ++ [c]) (rpc_queue w).

Definition push_rpc (job : string) (w : World) : World :=
  mkWorld (clock w) (theia_session w) (assignment_repo w) (config w)
          (memoized w) (backend w) (backend_calls w) (rpc_queue w ++ [job]).

(** The request: the authenticated user and the query string (a multi-dict:
    [get] takes the first value of a key). *)
Record Request := mkRequest {
  current_user : User.t;
  args : list (string * string);
}.

(** JSON values and dict literals of the responses. *)
Inductive Value :=
| VNone
| VBool (b : bool)
| VStr (s : string)
| VData (d : SessionData).

Definition Dict := list (string * Value).

(** What a view hands back: [success_response(data)] or
    [error_response(message)]. *)
Inductive Response :=
| success_response (data : Dict)
| error_response (message : string).

Inductive Exn :=
| AssertError (message : string)
| TypeError
| AttributeError
| OverflowError.

Inductive Outcome (A : Type) :=
| Return (a : A)
| Raise (e : Exn).
Arguments Return {A} a.
Arguments Raise {A} e.

(** ** The monad of views: store passing with exceptions *)

Definition M (A : Type) : Type := World → Outcome A * World.

Definition ret {A} (a : A) : M A := λ w, (Return a, w).
Definition raise {A} (e : Exn) : M A := λ w, (Raise e, w).
Definition bind {A B} (m : M A) (k : A → M B) : M B :=
  λ w, match m w with
       | (Return a, w') => k a w'
       | (Raise e, w') => (Raise e, w')
       end.
Definition get_world : M World := λ w, (Return w, w).
Definition modify_world (f : World → World) : M unit := λ w, (Return tt, f w).

Declare Scope view_scope.
Delimit Scope view_scope with view.
Notation "'let*' x ':=' m 'in' k" := (bind m (λ x, k))
  (at level 10, x name, m at level 100, k at level 200) : view_scope.
Notation "m '>>' k" := (bind m (λ _, k))
  (at level 100, k at level 200, right associativity) : view_scope.
Local Open Scope view_scope.

(** ** Helpers of the views that live outside this module *)

(** Modelled from the spec: [req_assert] (anubis.utils.data) is defined
    outside the module of the views.  A failed precondition is "a
    request-level assertion failure with a human-readable message": the view
    is abandoned and nothing after the assertion runs. *)
Definition req_assert (expression : bool) (message : string) : M unit :=
  if expression then ret tt else raise (AssertError message).

(** Modelled from the spec: [get_config_int] (anubis.utils.config) is
    defined outside the module of the views.  It reads a named integer from
    the configuration and falls back to the default given by the caller. *)
Definition get_config_int (key : string) (dflt : Z) : M Z :=
  let* w := get_world in ret (default dflt (config w !! key)).

(** [datetime.now()]. *)
Definition datetime_now : M Z :=
  let* w := get_world in ret (clock w).

(** [timedelta(days=d)], in microseconds. *)
Definition timedelta_days (d : Z) : Z := d * 86400 * 1000000.

(** [datetime.max], 9999-12-31 23:59:59.999999: the years 1 to 9999 have
    3652059 days. *)
Definition datetime_max : Z := 3652059 * 86400 * 1000000 - 1.

(** [d + delta] for a datetime [d]: an [OverflowError] when the sum is past
    [datetime.max].  [now] is a reading of the clock, which is a datetime
    itself: a sum that is not past it is in range. *)
Definition datetime_add (now d delta : Z) : M Z :=
  if bool_decide (d + delta ≤ Z.max datetime_max now)%Z then ret (d + delta)
  else raise OverflowError.

(** [now - ended], the timedelta in microseconds.  [ended] is a nullable
    column: subtracting [None] from a datetime is a [TypeError]. *)
Definition elapsed_since (now : Z) (ended : option Z) : M Z :=
  match ended with
  | Some e => ret (now - e)
  | None => raise TypeError
  end.

(** *** Floats

    A float that is not zero is [mantissa * 2 ^ exponent] with a mantissa of
    53 bits.  The quotients below are far from both ends of the range of
    binary64 (a timedelta has at most 999999999 days and a whole number of
    microseconds), so there is neither overflow nor a subnormal result. *)
Record binary64 := mkBinary64 {
  mantissa : Z;
  exponent : Z;
}.

(** [2 ^ k], and 1 for a negative [k]. *)
Definition pow2 (k : Z) : Z := (2 ^ Z.max 0 k)%Z.

(** The integer nearest to [n / d], the even one of two that are equally
    near ([0 ≤ n], [0 < d]). *)
Definition round_half_even (n d : Z) : Z :=
  let q := (n / d)%Z in
  let r := (n mod d)%Z in
  if (2 * r <? d)%Z then q
  else if (d <? 2 * r)%Z then (q + 1)%Z
  else if Z.even q then q else (q + 1)%Z.

(** [n / d] on integers ([0 < d]): the float nearest to the quotient, ties
    to even.  The exponent [e] is the one that puts the quotient scaled by
    [2 ^ - e] between [2 ^ 52] and [2 ^ 53]. *)
Definition true_divide (n d : Z) : binary64 :=
  if (n =? 0)%Z then mkBinary64 0 0
  else
    let a := Z.abs n in
    let e0 := (Z.log2 a - Z.log2 d - 52)%Z in
    let e :=
      if (2 ^ 52 * (d * pow2 e0) <=? a * pow2 (- e0))%Z then e0
      else (e0 - 1)%Z in
    mkBinary64 (Z.sgn n * round_half_even (a * pow2 (- e)) (d * pow2 e)) e.

(** [x < c] for a float [x] and an integer [c]: Python compares the two
    numbers exactly. *)
Definition float_lt_int (x : binary64) (c : Z) : bool :=
  (mantissa x * pow2 (exponent x) <? c * pow2 (- exponent x))%Z.

(** [timedelta.total_seconds()], of a timedelta in microseconds. *)
Definition total_seconds (microseconds : Z) : binary64 :=
  true_divide microseconds (10 ^ 6).

(** [seconds_passed < cooldown_seconds], with the timedelta behind
    [seconds_passed] given in microseconds. *)
Definition seconds_lt (microseconds seconds : Z) : bool :=
  float_lt_int (total_seconds microseconds) seconds.

(** [d.get(key, default)] on a dict of options. *)
Definition options_get (options : gmap string string) (key dflt : string) : string :=
  default dflt (options !! key).

(** The query string is a multi-dict; a lookup takes the first value given
    for the key. *)
Fixpoint args_lookup (l : list (string * string)) (key : string) : option string :=
  match l with
  | [] => None
  | (k, v) :: l' => if String.eqb k key then Some v else args_lookup l' key
  end.

(** [request.args.get(key, default)] *)
Definition args_get (l : list (string * string)) (key dflt : string) : string :=
  default dflt (args_lookup l key).

(** [order_by(TheiaSession.created.desc()).limit(1).first()]: the row with
    the latest [created]; among rows created at the same instant the one the
    table lists first. *)
Fixpoint first_by_created_desc (l : list TheiaSession.t) : option TheiaSession.t :=
  match l with
  | [] => None
  | s :: l' =>
    match first_by_created_desc l' with
    | None => Some s
    | Some m =>
      if bool_decide (TheiaSession.created m ≤ TheiaSession.created s)%Z
      then Some s else Some m
    end
  end.

(** What the views take from the rest of the application and from its
    configuration; none of it is defined in the module of the views. *)
Record External := mkExternal {
  (** [is_course_admin(course_id)] for the user with the given id *)
  is_course_admin : string → string → bool;
  (** the [data] property of a [TheiaSession] row *)
  data : TheiaSession.t → SessionData;
  (** the condition [assert_theia_sessions_enabled] asserts, and the message
      of its failure *)
  theia_starts_enabled : World → bool;
  theia_starts_disabled_message : string;
  (** [THEIA_DEFAULT_OPTIONS['resources']] *)
  default_resources : string;
  (** the id given to a new session, and the phase it starts in *)
  fresh_session_id : list TheiaSession.t → string;
  initial_state : string;
  (** time to live of a memoised [theia_poll_ide] result, in microseconds *)
  poll_timeout : Z;
}.

(** The status line of the cooldown refusal. *)
Definition cooldown_status : string :=
  "Please wait a few more seconds. Your last IDEs home volume is still unmounting.".

Definition grace_message : string :=
  "Assignment due date passed over 3 weeks ago. IDEs are disabled.".

Section Views.
Context (ext : External) (request : Request).

Definition current_user_id : string := User.id (current_user request).

(** Modelled from the spec: [assert_theia_sessions_enabled]
    (anubis.lms.theia) is defined outside the module of the views.  It is
    one of the validation failures ("feature disabled"): a request-level
    assertion on a switch of the deployment. *)
Definition assert_theia_sessions_enabled : M unit :=
  let* w := get_world in
  req_assert (theia_starts_enabled ext w) (theia_starts_disabled_message ext).

(** Modelled from the spec: [initialize_ide] (anubis.lms.theia) is
    defined outside the module of the views.  Section 4.4: it builds the
    configuration snapshot from its arguments, submits a creation request to
    the orchestration backend and persists the resulting record with
    [active = true] and the initial state; one new durable record, one
    outbound call.  The owner of the record is the user of the request. *)
Definition initialize_ide (image_id assignment_id course_id repo_url : string)
    (playground network_locked : bool) (network_policy : string)
    (persistent_storage autosave : bool) (resources : string)
    (privileged admin credentials : bool) : M TheiaSession.t :=
  let* w := get_world in
  let session :=
    TheiaSession.mk (fresh_session_id ext (theia_session w)) current_user_id
      assignment_id course_id image_id repo_url playground network_locked
      network_policy persistent_storage autosave resources privileged admin
      credentials true (initial_state ext) (clock w) None in
  modify_world (λ w, log_backend_call (Submit (TheiaSession.id session))
                       (set_theia_session (theia_session w ++ [session]) w)) >>
  ret session.

(** Modelled from the spec: [theia_poll_ide] (anubis.lms.theia) and its
    memoisation are defined outside the module of the views.  Section 4.5: a
    backend status fetch wrapped in a memoisation with a short time to live,
    keyed on the pair of session id and user id; section 5: an entry older
    than the time to live is a miss on the next read. *)
Definition theia_poll_ide (theia_session_id user_id : string)
    : M (option SessionData) :=
  let* w := get_world in
  let fresh :=
    let session_data := backend w theia_session_id user_id in
    modify_world (λ w,
      log_backend_call (Fetch theia_session_id user_id)
        (set_memoized
           (<[(theia_session_id, user_id) :=
                (session_data, clock w + poll_timeout ext)]> (memoized w)) w)) >>
    ret session_data in
  match memoized w !! (theia_session_id, user_id) with
  | Some (session_data, expiry) =>
    if bool_decide (clock w < expiry)%Z then ret session_data else fresh
  | None => fresh
  end.

(** Modelled from the spec: [cache.delete_memoized(theia_poll_ide, ...)] is
    the point invalidation of section 4.5 / 9, [invalidate(key)]. *)
Definition cache_delete_memoized (theia_session_id user_id : string) : M unit :=
  modify_world (λ w,
    set_memoized (delete (theia_session_id, user_id) (memoized w)) w).

(** Modelled from the spec: [enqueue_ide_stop] (anubis.utils.rpc) is
    defined outside the module of the views; section 4.6: it enqueues an
    asynchronous teardown job and does not wait for it. *)
Definition enqueue_ide_stop (theia_session_id : string) : M unit :=
  modify_world (push_rpc theia_session_id).

(** ** The queries of the views *)

(** [filter(owner_id == user, assignment_id == assignment.id, active)
    .first()].  The join with [Assignment] keeps the rows whose assignment
    exists, which the rows of the loaded assignment do. *)
Definition active_session_of (assignment_id : string) (w : World)
    : option (nat * TheiaSession.t) :=
  list_find
    (λ s, TheiaSession.owner_id s = current_user_id
          ∧ TheiaSession.assignment_id s = assignment_id
          ∧ TheiaSession.active s = true)
    (theia_session w).

Definition query_active_session (assignment_id : string)
    : M (option TheiaSession.t) :=
  let* w := get_world in ret (snd <$> active_session_of assignment_id w).

(** [filter(owner_id == user, active == False)
    .order_by(created.desc()).limit(1).first()] *)
Definition last_session_of (w : World) : option TheiaSession.t :=
  first_by_created_desc
    (filter (λ s, TheiaSession.owner_id s = current_user_id
                  ∧ TheiaSession.active s = false)
            (theia_session w)).

Definition query_last_session : M (option TheiaSession.t) :=
  let* w := get_world in ret (last_session_of w).

(** [AssignmentRepo.query.filter(owner_id == user,
    assignment_id == assignment.id).first()] *)
Definition repo_of (assignment_id : string) (w : World)
    : option AssignmentRepo.t :=
  snd <$> list_find
    (λ r, AssignmentRepo.owner_id r = current_user_id
          ∧ AssignmentRepo.assignment_id r = assignment_id)
    (assignment_repo w).

Definition query_repo (assignment_id : string) : M (option AssignmentRepo.t) :=
  let* w := get_world in ret (repo_of assignment_id w).

(** [TheiaSession.query.filter(id == theia_session_id,
    owner_id == user).first()], with the position of the row: the loaded
    object stands for that row until the commit. *)
Definition owned_session_of (theia_session_id : string) (w : World)
    : option (nat * TheiaSession.t) :=
  list_find
    (λ s, TheiaSession.id s = theia_session_id
          ∧ TheiaSession.owner_id s = current_user_id)
    (theia_session w).

Definition query_owned_session (theia_session_id : string)
    : M (option (nat * TheiaSession.t)) :=
  let* w := get_world in ret (owned_session_of theia_session_id w).

(** [db.session.commit()] with one modified object: its row is written. *)
Definition db_session_commit (row : nat) (s : TheiaSession.t) : M unit :=
  modify_world (λ w, set_theia_session (<[row := s]> (theia_session w)) w).

(** ** [public_ide_initialize] *)

(** The cooldown check on the last session (the "Check last session"
    block): whether the view answers with the warning. *)
Definition within_cooldown (last_session : option TheiaSession.t) : M bool :=
  match last_session with
  | Some ls =>
    if TheiaSession.persistent_storage ls then
      let* now := datetime_now in
      let* seconds_passed := elapsed_since now (TheiaSession.ended ls) in
      let* cooldown_seconds :=
        get_config_int "THEIA_VOLUME_COOLDOWN_SECONDS" 1 in
      ret (seconds_lt seconds_passed cooldown_seconds)
    else ret false
  | None => ret false
  end.

(** The checks made for a student only (the [if not is_admin] block):
    the release assertion, then whether the grace window has passed.  The
    end of the grace window is a datetime sum, which can overflow. *)
Definition student_checks (assignment : Assignment.t) : M bool :=
  let* now := datetime_now in
  req_assert (bool_decide (Assignment.release_date assignment < now)%Z)
             "Assignment has not been released" >>
  let* now' := datetime_now in
  let* grace_end :=
    datetime_add now' (Assignment.due_date assignment) (timedelta_days (3 * 7)) in
  ret (bool_decide (grace_end ≤ now')%Z).

(** The repository url (the [if assignment.github_repo_required] block). *)
Definition resolve_repo_url (assignment : Assignment.t) : M string :=
  if Assignment.github_repo_required assignment then
    req_assert
      (bool_decide (User.github_username (current_user request) ≠ None))
      "Please link your github account github account on profile page." >>
    let* repo := query_repo (Assignment.id assignment) in
    req_assert
      (bool_decide (repo ≠ None))
      "Anubis can not find your assignment repo. Please make sure your github username is set and is correct." >>
    match repo with
    | Some r => ret (AssignmentRepo.repo_url r)
    | None => raise AttributeError
    end
  else ret "".

Definition public_ide_initialize (assignment : Assignment.t) : M Response :=
  req_assert (Assignment.ide_enabled assignment)
             "IDEs are not enabled for this assignment" >>
  let* active_session := query_active_session (Assignment.id assignment) in
  match active_session with
  | Some active_session =>
    ret (success_response
           [("active", VBool (TheiaSession.active active_session));
            ("session", VData (data ext active_session))])
  | None =>
    let* last_session := query_last_session in
    let* wait := within_cooldown last_session in
    if wait then
      ret (success_response
             [("status", VStr cooldown_status); ("variant", VStr "warning")])
    else
      assert_theia_sessions_enabled >>
      let is_admin :=
        is_course_admin ext (Assignment.course_id assignment) current_user_id in
      let* expired :=
        if negb is_admin then student_checks assignment else ret false in
      if expired then ret (error_response grace_message)
      else
        let* repo_url := resolve_repo_url assignment in
        let options := Assignment.theia_options assignment in
        let autosave :=
          String.eqb (args_get (args request) "autosave" "true") "true" in
        let persistent_storage :=
          String.eqb (args_get (args request) "persistent_storage" "true") "true" in
        let network_policy := options_get options "network_policy" "os-student" in
        let resources := options_get options "resources" (default_resources ext) in
        let network_policy := if is_admin then "admin" else network_policy in
        let* session :=
          initialize_ide (Assignment.theia_image_id assignment)
            (Assignment.id assignment) (Assignment.course_id assignment)
            repo_url false (negb is_admin) network_policy persistent_storage
            autosave resources false is_admin is_admin in
        ret (success_response
               [("active", VBool (TheiaSession.active session));
                ("session", VData (data ext session));
                ("status", VStr "Session created")])
  end.

(** ** [public_ide_stop] *)

Definition public_ide_stop (theia_session_id : string) : M Response :=
  let* theia_session := query_owned_session theia_session_id in
  req_assert (bool_decide (theia_session ≠ None)) "session does not exist" >>
  match theia_session with
  | None => raise AttributeError
  | Some (row, theia_session) =>
    let* now := datetime_now in
    let theia_session :=
      TheiaSession.set_state "Ended"
        (TheiaSession.set_ended (Some now)
           (TheiaSession.set_active false theia_session)) in
    db_session_commit row theia_session >>
    enqueue_ide_stop (TheiaSession.id theia_session) >>
    cache_delete_memoized theia_session_id current_user_id >>
    ret (success_response
           [("status", VStr "Session stopped."); ("variant", VStr "warning")])
  end.

(** ** [public_ide_poll] *)

(** [session_state not in {"Running", "Ended", "Failed"}] *)
Definition loading_of (session_state : string) : bool :=
  negb (bool_decide (session_state ∈ ["Running"; "Ended"; "Failed"])).

(** The dict of status messages and its [get] with default
    [(None, None)]. *)
Definition status_messages : list (string * (Value * Value)) :=
  [("Running", (VStr "Session is now ready.", VStr "success"));
   ("Failed", (VStr "Session failed to start. Please try again.", VStr "error"))].

Fixpoint status_get (d : list (string * (Value * Value))) (key : string)
    (dflt : Value * Value) : Value * Value :=
  match d with
  | [] => dflt
  | (k, v) :: d' => if String.eqb k key then v else status_get d' key dflt
  end.

Definition public_ide_poll (theia_session_id : string) : M Response :=
  let* session_data := theia_poll_ide theia_session_id current_user_id in
  req_assert (bool_decide (session_data ≠ None)) "session does not exist" >>
  match session_data with
  | None => raise TypeError
  | Some session_data =>
    let session_state := sd_state session_data in
    let loading := loading_of session_state in
    let '(status, variant) :=
      status_get status_messages session_state (VNone, VNone) in
    ret (success_response
           [("loading", VBool loading);
            ("session", VData session_data);
            ("status", status);
            ("variant", variant)])
  end.

End Views.

(** ** The other views of the module *)

Section OtherViews.
Context (ext : External) (request : Request).

(** [filter(active, owner_id == user, assignment_id == assignment_id)
    .first()] of [public_ide_active]; the assignment id is the string of the
    url. *)
Definition active_session_for (assignment_id : string) (w : World)
    : option (nat * TheiaSession.t) :=
  list_find
    (λ s, TheiaSession.active s = true
          ∧ TheiaSession.owner_id s = current_user_id request
          ∧ TheiaSession.assignment_id s = assignment_id)
    (theia_session w).

Definition public_ide_active (assignment_id : string) : M Response :=
  let* w := get_world in
  let session := snd <$> active_session_for assignment_id w in
  match session with
  | None => ret (success_response [("active", VBool false)])
  | Some session =>
    ret (success_response
           [("active", VBool true); ("session", VData (data ext session))])
  end.

(** [get_n_available_sessions] (anubis.lms.theia) is taken as given: it
    reads the pair of the number of active sessions and the maximum. *)
Definition public_ide_available (get_n_available_sessions : World → Z * Z)
    : M Response :=
  let* w := get_world in
  let '(active_count, max_count) := get_n_available_sessions w in
  let session_available := bool_decide (active_count < max_count)%Z in
  ret (success_response [("session_available", VBool session_available)]).

(** [theia_redirect_url] (anubis.lms.theia) is taken as given: it builds the
    url from the id of the session and the netid of the user. *)
Definition public_ide_redirect_url (theia_redirect_url : string → string → string)
    (theia_session_id : string) : M Response :=
  let* theia_session := query_owned_session request theia_session_id in
  req_assert (bool_decide (theia_session ≠ None)) "session does not exist" >>
  match theia_session with
  | None => raise AttributeError
  | Some (_, theia_session) =>
    ret (success_response
           [("redirect",
             VStr (theia_redirect_url (TheiaSession.id theia_session)
                                      (User.netid (current_user request))))])
  end.

End OtherViews.

(** * The exercise loader of the autograder

    [theia/autograde/anubis_autograde/exercise/init.py]: [init_exercises]
    imports the module of exercises named on the command line, hands its
    exercises to [set_exercises] and, when asked to resume at an exercise,
    marks the exercises up to that one as complete. *)

Module Autograde.

(** *** Strings and paths, as Python and [posixpath] have them *)

(** [s[:n]] and [s[n:]] for [0 <= n]. *)
Fixpoint string_take (n : nat) (s : string) : string :=
  match n, s with
  | S n', String c s' => String c (string_take n' s')
  | _, _ => ""
  end.

Fixpoint string_drop (n : nat) (s : string) : string :=
  match n, s with
  | S n', String _ s' => string_drop n' s'
  | _, _ => s
  end.

(** [s.endswith(suffix)] *)
Definition endswith (s suffix : string) : bool :=
  (String.length suffix <=? String.length s)%nat
  && String.eqb (string_drop (String.length s - String.length suffix) s) suffix.

(** [s[:-n]] for [0 < n]. *)
Definition drop_last (n : nat) (s : string) : string :=
  string_take (String.length s - n) s.

Definition is_sep (c : Ascii.ascii) : bool := Ascii.eqb c "/"%char.

(** [p.rfind('/') + 1]: the position after the last separator, [0] when
    there is none. *)
Fixpoint after_last_sep (p : string) : nat :=
  match p with
  | "" => 0
  | String c p' =>
    match after_last_sep p' with
    | O => if is_sep c then 1 else 0
    | S i => S (S i)
    end
  end.

(** [head == '/' * len(head)] *)
Fixpoint all_sep (s : string) : bool :=
  match s with
  | "" => true
  | String c s' => is_sep c && all_sep s'
  end.

(** [head.rstrip('/')] *)
Fixpoint rstrip_sep (s : string) : string :=
  match s with
  | "" => ""
  | String c s' =>
    match rstrip_sep s' with
    | "" => if is_sep c then "" else String c ""
    | r => String c r
    end
  end.

(** [os.path.basename] *)
Definition basename (p : string) : string :=
  string_drop (after_last_sep p) p.

(** [os.path.dirname] *)
Definition dirname (p : string) : string :=
  let head := string_take (after_last_sep p) p in
  if negb (String.eqb head "") && negb (all_sep head)
  then rstrip_sep head else head.

(** *** Exercises, arguments and the log *)

(** An exercise: the loader reads [name] and writes [complete]; the rest of
    the object is carried along.  [ref] is the identity of the object: two
    entries of a list with the same [ref] are one object listed twice. *)
Record Exercise := mkExercise {
  ref : nat;
  name : string;
  complete : bool;
  detail : string;
}.

(** The object with [complete] set. *)
Definition set_complete (e : Exercise) : Exercise :=
  mkExercise (ref e) (name e) true (detail e).

(** [exercise.complete = True] on the object [r], seen from a list: the
    object is updated in place, so every entry that is this object shows
    it. *)
Definition complete_object (r : nat) (l : list Exercise) : list Exercise :=
  (λ x, if bool_decide (ref x = r) then set_complete x else x) <$> l.

(** The parsed command line: [args.exercise_module] and [args.resume]. *)
Record Args := mkArgs {
  exercise_module : string;
  resume : option string;
}.

Inductive Message :=
| Traceback
| FailedImport
| LoadedExercises (exercises : list Exercise)
| StartMessage (start_message : string)
| EndMessage (end_message : string)
| Resume (resume : string)
| MissingResume (resume : string).

Inductive LogLine :=
| log_error (m : Message)
| log_warning (m : Message)
| log_info (m : Message)
| log_debug (m : Message).

(** What the loader takes from outside: [__import__] under a search path
    ([None] when it raises), and the reading of the three attributes of the
    module followed by [set_exercises] ([None] when either raises). *)
Record Env := mkEnv {
  import_ : list string → string → option string;
  set_exercises : string → option (list Exercise * string * string);
}.

(** How a run ends: [exit(1)] or a plain return, with the search path, the
    exercises and the log it leaves. *)
Record Outcome := mkOutcome {
  exit_code : option Z;
  sys_path : list string;
  exercises : list Exercise;
  log : list LogLine;
}.

(** The truth value of [args.resume]. *)
Definition truthy (resume : option string) : bool :=
  match resume with
  | Some (String _ _) => true
  | _ => false
  end.

(** [any(exercise.name == resume for exercise in exercises)] *)
Definition contains_resume (resume : string) (l : list Exercise) : bool :=
  existsb (λ e, String.eqb (name e) resume) l.

(** The loop [for exercise in exercises: exercise.complete = True; if
    exercise.name == resume: break]: [todo] is what the iteration has yet to
    visit, [l] the list as its objects stand. *)
Fixpoint complete_until (resume : string) (todo l : list Exercise)
    : list Exercise :=
  match todo with
  | [] => l
  | exercise :: todo' =>
    let l := complete_object (ref exercise) l in
    if String.eqb (name exercise) resume then l
    else complete_until resume todo' l
  end.

(** The module path, the directory put on the search path and the name
    imported. *)
Definition module_path (args : Args) : string :=
  if endswith (exercise_module args) ".py"
  then drop_last 3 (exercise_module args)
  else exercise_module args.

Definition module_directory (args : Args) : string := dirname (module_path args).
Definition module_name (args : Args) : string := basename (module_path args).

Definition init_exercises (env : Env) (args : Args) (path : list string)
    : Outcome :=
  let path := (path ++ [module_directory args])%list in
  match import_ env path (module_name args) with
  | None =>
    mkOutcome (Some 1%Z) path [] [log_error Traceback; log_error FailedImport]
  | Some exercise_module =>
    match set_exercises env exercise_module with
    | None =>
      mkOutcome (Some 1%Z) path [] [log_error Traceback; log_error FailedImport]
    | Some (exercises, start_message, end_message) =>
      let lines :=
        [log_info (LoadedExercises exercises);
         log_debug (StartMessage start_message);
         log_debug (EndMessage end_message)] in
      if truthy (resume args) then
        let resume := default "" (resume args) in
        let lines := (lines ++ [log_info (Resume resume)])%list in
        if negb (contains_resume resume exercises) then
          mkOutcome None path exercises
            (lines ++ [log_warning (MissingResume resume)])%list
        else
          mkOutcome None path (complete_until resume exercises exercises) lines
      else mkOutcome None path exercises lines
    end
  end.

End Autograde.

(** * The migration 7ffbd4403838

    [api/migrations/versions/7ffbd4403838_add_icon_title_and_descrition_to_image.py]
    replaces the column [label] of the table [theia_image] by [title],
    [description] and [icon], and back.

    A table is its columns (type and nullability by name) and its rows (a
    value, or NULL, by column name).  A statement either goes through or
    fails ([None]), as the MySQL server behind the migration has it: adding
    a column that exists, dropping or reading one that does not, and
    writing NULL to a NOT NULL column (strict mode) are errors; the rows
    that exist get NULL in a new nullable column and the empty string in a
    new NOT NULL string column. *)

Module Migration.

(** [sa.String(length)], [sa.Text()] and [mysql.VARCHAR(collation, length)] *)
Inductive SqlType :=
| String_ (length : nat)
| Text
| VARCHAR (collation : string) (length : nat).

(** [sa.Column(name, type, nullable=...)]; a column is nullable unless told
    otherwise. *)
Record Column := mkColumn {
  name : string;
  type_ : SqlType;
  nullable : bool;
}.

Record Table := mkTable {
  columns : gmap string (SqlType * bool);
  rows : list (gmap string (option string));
}.

(** [op.add_column(table_name, column)] *)
Definition add_column (table_name : string) (column : Column)
    (db : gmap string Table) : option (gmap string Table) :=
  t ← db !! table_name;
  match columns t !! name column with
  | Some _ => None
  | None =>
    let fill := if nullable column then None else Some "" in
    Some (<[table_name :=
              mkTable (<[name column := (type_ column, nullable column)]>
                         (columns t))
                      ((λ r, <[name column := fill]> r) <$> rows t)]> db)
  end.

(** [op.drop_column(table_name, column_name)] *)
Definition drop_column (table_name column_name : string)
    (db : gmap string Table) : option (gmap string Table) :=
  t ← db !! table_name;
  match columns t !! column_name with
  | None => None
  | Some _ =>
    Some (<[table_name :=
              mkTable (delete column_name (columns t))
                      (delete column_name <$> rows t)]> db)
  end.

(** The value a row has in a column (NULL when the row has none). *)
Definition cell (r : gmap string (option string)) (column_name : string)
    : option string :=
  default None (r !! column_name).

(** [conn.execute('UPDATE table_name SET `target` = `source`;')] *)
Definition update_set (table_name target source : string)
    (db : gmap string Table) : option (gmap string Table) :=
  t ← db !! table_name;
  '(_, target_nullable) ← columns t !! target;
  _ ← columns t !! source;
  if negb target_nullable
     && existsb (λ r, bool_decide (cell r source = None)) (rows t)
  then None
  else
    Some (<[table_name :=
              mkTable (columns t)
                      ((λ r, <[target := cell r source]> r) <$> rows t)]> db).

Definition upgrade (db : gmap string Table) : option (gmap string Table) :=
  db ← add_column "theia_image" (mkColumn "title" (String_ 1024) true) db;
  db ← add_column "theia_image" (mkColumn "description" Text true) db;
  db ← add_column "theia_image" (mkColumn "icon" (String_ 1024) true) db;
  db ← update_set "theia_image" "title" "label" db;
  db ← update_set "theia_image" "description" "label" db;
  drop_column "theia_image" "label" db.

Definition downgrade (db : gmap string Table) : option (gmap string Table) :=
  db ← add_column "theia_image"
         (mkColumn "label" (VARCHAR "utf8mb4_unicode_ci" 1024) false) db;
  db ← update_set "theia_image" "label" "title" db;
  db ← drop_column "theia_image" "icon" db;
  db ← drop_column "theia_image" "description" db;
  drop_column "theia_image" "title" db.

End Migration.

(** ** Vocabulary of the statements *)

(** The row [public_ide_stop] leaves behind. *)
Definition stopped (now : Z) (s : TheiaSession.t) : TheiaSession.t :=
  TheiaSession.set_state "Ended"
    (TheiaSession.set_ended (Some now) (TheiaSession.set_active false s)).

(** [id] is the primary key of the [TheiaSession] table. *)
Definition primary_key (table : list TheiaSession.t) : Prop :=
  NoDup (TheiaSession.id <$> table).

(** The answer of [public_ide_poll] for the session data it found. *)
Definition poll_response (session_data : SessionData) : Response :=
  success_response
    [("loading", VBool (loading_of (sd_state session_data)));
     ("session", VData session_data);
     ("status", fst (status_get status_messages (sd_state session_data) (VNone, VNone)));
     ("variant", snd (status_get status_messages (sd_state session_data) (VNone, VNone)))].

(** The row [public_ide_initialize] asks [initialize_ide] for, given the
    repository url it resolved. *)
Definition new_session (ext : External) (request : Request)
    (assignment : Assignment.t) (w : World) (repo_url : string)
    : TheiaSession.t :=
  let is_admin :=
    is_course_admin ext (Assignment.course_id assignment)
                    (current_user_id request) in
  TheiaSession.mk
    (fresh_session_id ext (theia_session w))
    (current_user_id request)
    (Assignment.id assignment)
    (Assignment.course_id assignment)
    (Assignment.theia_image_id assignment)
    repo_url
    false
    (negb is_admin)
    (if is_admin then "admin"
     else options_get (Assignment.theia_options assignment)
                      "network_policy" "os-student")
    (String.eqb (args_get (args request) "persistent_storage" "true") "true")
    (String.eqb (args_get (args request) "autosave" "true") "true")
    (options_get (Assignment.theia_options assignment) "resources"
                 (default_resources ext))
    false is_admin is_admin
    true (initial_state ext) (clock w) None.

(** The store after [initialize_ide] persisted a row and submitted it. *)
Definition with_new_session (s : TheiaSession.t) (w : World) : World :=
  log_backend_call (Submit (TheiaSession.id s))
    (set_theia_session (theia_session w ++ [s]) w).

(** The three answers of [public_ide_initialize] that are not errors. *)
Definition active_response (ext : External) (s : TheiaSession.t) : Response :=
  success_response
    [("active", VBool (TheiaSession.active s)); ("session", VData (data ext s))].

Definition cooldown_response : Response :=
  success_response
    [("status", VStr cooldown_status); ("variant", VStr "warning")].

Definition created_response (ext : External) (s : TheiaSession.t) : Response :=
  success_response
    [("active", VBool (TheiaSession.active s));
     ("session", VData (data ext s));
     ("status", VStr "Session created")].

(** [get_config_int('THEIA_VOLUME_COOLDOWN_SECONDS', 1)] on a store. *)
Definition cooldown_seconds (w : World) : Z :=
  default 1%Z (config w !! "THEIA_VOLUME_COOLDOWN_SECONDS").

(** The user of the request has no active session for the assignment. *)
Definition no_active_session (request : Request) (assignment_id : string)
    (w : World) : Prop :=
  ∀ s, s ∈ theia_session w →
       TheiaSession.owner_id s = current_user_id request →
       TheiaSession.assignment_id s = assignment_id →
       TheiaSession.active s = false.

(** What is left to check once the active session and the cooldown are out of
    the way: starts are enabled, the caller is a course admin or the
    assignment is released and within three weeks of its due date (the end
    of the three weeks being a datetime), and the repository is there when
    one is required. *)
Definition eligible (ext : External) (request : Request)
    (assignment : Assignment.t) (w : World) : Prop :=
  theia_starts_enabled ext w = true
  ∧ (is_course_admin ext (Assignment.course_id assignment)
                     (current_user_id request) = true
     ∨ ((Assignment.release_date assignment < clock w)%Z
        ∧ (clock w < Assignment.due_date assignment + timedelta_days 21)%Z
        ∧ (Assignment.due_date assignment + timedelta_days 21 ≤ datetime_max)%Z))
  ∧ (Assignment.github_repo_required assignment = true →
     User.github_username (current_user request) ≠ None
     ∧ repo_of request (Assignment.id assignment) w ≠ None).

(** The store at a later (or any other) time. *)
Definition set_clock (now : Z) (w : World) : World :=
  mkWorld now (theia_session w) (assignment_repo w) (config w) (memoized w)
          (backend w) (backend_calls w) (rpc_queue w).

(** At most one active session for a user and an assignment. *)
Definition unique_active (table : list TheiaSession.t) : Prop :=
  ∀ i j s t,
    table !! i = Some s → table !! j = Some t →
    TheiaSession.active s = true → TheiaSession.active t = true →
    TheiaSession.owner_id s = TheiaSession.owner_id t →
    TheiaSession.assignment_id s = TheiaSession.assignment_id t →
    i = j.

(** The checks of [public_ide_initialize] that come before the role of the
    caller is looked at. *)
Definition passes_common_checks (ext : External) (request : Request)
    (assignment : Assignment.t) (w : World) : Prop :=
  Assignment.ide_enabled assignment = true
  ∧ no_active_session request (Assignment.id assignment) w
  ∧ fst (within_cooldown (last_session_of request w) w) = Return false
  ∧ theia_starts_enabled ext w = true.

(** The caller is a course admin, or the assignment is released and within
    three weeks of its due date, the end of the three weeks being a
    datetime. *)
Definition passes_role_checks (ext : External) (request : Request)
    (assignment : Assignment.t) (w : World) : Prop :=
  is_course_admin ext (Assignment.course_id assignment)
                  (current_user_id request) = true
  ∨ ((Assignment.release_date assignment < clock w)%Z
     ∧ (clock w < Assignment.due_date assignment + timedelta_days 21)%Z
     ∧ (Assignment.due_date assignment + timedelta_days 21 ≤ datetime_max)%Z).

(** An entry [x] of the list of exercises once the loop of the loader has
    visited the objects [visited]: complete when it is one of them, as it
    was otherwise. *)
Definition after_visit (visited : list Autograde.Exercise)
    (x : Autograde.Exercise) : Autograde.Exercise :=
  if bool_decide (Autograde.ref x ∈ Autograde.ref <$> visited)
  then Autograde.set_complete x else x.

(** The statements of the migration act on one table; these are their
    effects on that table. *)
Definition on_table (table_name : string)
    (f : Migration.Table → option Migration.Table)
    (db : gmap string Migration.Table) : option (gmap string Migration.Table) :=
  t ← db !! table_name; t' ← f t; Some (<[table_name := t']> db).

Definition add_column_to (column : Migration.Column) (t : Migration.Table)
    : option Migration.Table :=
  match Migration.columns t !! Migration.name column with
  | Some _ => None
  | None =>
    Some (Migration.mkTable
            (<[Migration.name column :=
                 (Migration.type_ column, Migration.nullable column)]>
               (Migration.columns t))
            ((λ r, <[Migration.name column :=
                       if Migration.nullable column then None else Some ""]> r)
               <$> Migration.rows t))
  end.

Definition drop_column_from (column_name : string) (t : Migration.Table)
    : option Migration.Table :=
  match Migration.columns t !! column_name with
  | None => None
  | Some _ =>
    Some (Migration.mkTable (delete column_name (Migration.columns t))
                            (delete column_name <$> Migration.rows t))
  end.

Definition update_table (target source : string) (t : Migration.Table)
    : option Migration.Table :=
  '(_, target_nullable) ← Migration.columns t !! target;
  _ ← Migration.columns t !! source;
  if negb target_nullable
     && existsb (λ r, bool_decide (Migration.cell r source = None))
                (Migration.rows t)
  then None
  else
    Some (Migration.mkTable (Migration.columns t)
            ((λ r, <[target := Migration.cell r source]> r)
               <$> Migration.rows t)).

Definition upgrade_table (t : Migration.Table) : option Migration.Table :=
  t ← add_column_to (Migration.mkColumn "title" (Migration.String_ 1024) true) t;
  t ← add_column_to (Migration.mkColumn "description" Migration.Text true) t;
  t ← add_column_to (Migration.mkColumn "icon" (Migration.String_ 1024) true) t;
  t ← update_table "title" "label" t;
  t ← update_table "description" "label" t;
  drop_column_from "label" t.

Definition downgrade_table (t : Migration.Table) : option Migration.Table :=
  t ← add_column_to
        (Migration.mkColumn "label"
           (Migration.VARCHAR "utf8mb4_unicode_ci" 1024) false) t;
  t ← update_table "label" "title" t;
  t ← drop_column_from "icon" t;
  t ← drop_column_from "description" t;
  drop_column_from "title" t.

(** A table whose rows have exactly its columns, with a value in every
    column that is NOT NULL. *)
Definition consistent (t : Migration.Table) : Prop :=
  ∀ r, r ∈ Migration.rows t →
    (∀ c, is_Some (r !! c) ↔ is_Some (Migration.columns t !! c))
    ∧ (∀ c ty, Migration.columns t !! c = Some (ty, false) →
               Migration.cell r c ≠ None).

(** What the upgrade makes of the columns and of a row, and the downgrade
    likewise. *)
Definition upgrade_columns (columns : gmap string (Migration.SqlType * bool))
    : gmap string (Migration.SqlType * bool) :=
  delete "label"
    (<["icon" := (Migration.String_ 1024, true)]>
       (<["description" := (Migration.Text, true)]>
          (<["title" := (Migration.String_ 1024, true)]> columns))).

Definition upgrade_row (r : gmap string (option string))
    : gmap string (option string) :=
  delete "label"
    (<["description" := Migration.cell r "label"]>
       (<["title" := Migration.cell r "label"]> (<["icon" := None]> r))).

Definition downgrade_columns (columns : gmap string (Migration.SqlType * bool))
    : gmap string (Migration.SqlType * bool) :=
  delete "title"
    (delete "description"
       (delete "icon"
          (<["label" := (Migration.VARCHAR "utf8mb4_unicode_ci" 1024, false)]>
             columns))).

Definition downgrade_row (r : gmap string (option string))
    : gmap string (option string) :=
  delete "title"
    (delete "description"
       (delete "icon" (<["label" := Migration.cell r "title"]> r))).

(** ** Sample stores

    Concrete users, rows and stores on which the statements below are run. *)

Module Sample.

Definition ext : External :=
  mkExternal
    (λ course_id user_id, String.eqb user_id "ta")
    (λ s, mkSessionData (TheiaSession.state s) (TheiaSession.id s))
    (λ _, true)
    "Starting new IDEs is currently disabled."
    "default-resources"
    (λ table, "s-new")
    "Initializing"
    1000000.

Definition student : User.t := User.mk "u1" "jd1" None.
Definition other_student : User.t := User.mk "u2" "jd2" None.
Definition ta : User.t := User.mk "ta" "ta1" None.

Definition as_student : Request := mkRequest student [].
Definition as_other_student : Request := mkRequest other_student [].
Definition as_ta : Request := mkRequest ta [].

(** A running session of [student] for assignment [a1]. *)
Definition running : TheiaSession.t :=
  TheiaSession.mk "s1" "u1" "a1" "c1" "image" "" false true "os-student"
    true true "default-resources" false false false
    true "Running" 1000000 None.

(** A session of [student] that ended at 4s and kept a volume. *)
Definition ended_at_4s : TheiaSession.t :=
  TheiaSession.mk "s0" "u1" "a0" "c1" "image" "" false true "os-student"
    true true "default-resources" false false false
    false "Ended" 500000 (Some 4000000).

Definition running_data : SessionData := mkSessionData "Running" "s1".

Definition store (now : Z) (table : list TheiaSession.t)
    (cache : gmap (string * string) (option SessionData * Z)) : World :=
  mkWorld now table [] ∅ cache (λ _ _, None) [] [].

(** At 5s: one running session, whose poll result is cached until 5.5s. *)
Definition one_running : World :=
  store 5000000 [running] {[ ("s1", "u1") := (Some running_data, 5500000%Z) ]}.

(** At 5s: the session that ended at 4s, and nothing else. *)
Definition one_ended : World := store 5000000 [ended_at_4s] ∅.

(** At 4.5s: the session that ended at 4s, and nothing else. *)
Definition cooling : World := store 4500000 [ended_at_4s] ∅.

(** At 4.5s: the session that ended at 4s and the running one. *)
Definition cooling_with_running : World :=
  store 4500000 [ended_at_4s; running] ∅.

(** Some 34 days later. *)
Definition much_later : World := store 3000000000000 [ended_at_4s] ∅.

(** The same with the switch of IDE starts turned off. *)
Definition ext_starts_disabled : External :=
  mkExternal (is_course_admin ext) (data ext) (λ _, false)
    (theia_starts_disabled_message ext) (default_resources ext)
    (fresh_session_id ext) (initial_state ext) (poll_timeout ext).

(** Assignment [a1]: released at the epoch, due after 30 days. *)
Definition a1 : Assignment.t :=
  Assignment.mk "a1" "c1" true 0 2592000000000 false "image"
    {[ "network_policy" := "os-student" ]}.

(** [a1] with IDEs switched off. *)
Definition a1_ide_disabled : Assignment.t :=
  Assignment.mk "a1" "c1" false 0 2592000000000 false "image"
    {[ "network_policy" := "os-student" ]}.

(** Assignment [a2]: released at the epoch, due after one second. *)
Definition a2 : Assignment.t :=
  Assignment.mk "a2" "c1" true 0 1000000 false "image" ∅.

(** [a2] with IDEs switched off. *)
Definition a2_ide_disabled : Assignment.t :=
  Assignment.mk "a2" "c1" false 0 1000000 false "image" ∅.

(** Assignment [a3]: due after one second, released only after 40 days. *)
Definition a3 : Assignment.t :=
  Assignment.mk "a3" "c1" true 3456000000000 1000000 false "image"
    {[ "network_policy" := "os-student" ]}.

End Sample.

(** ** More sample stores *)

Module Scenario.

(** Assignment [a4] of course [c1]: released, due after 30 days, with a
    repository required. *)
Definition a4 : Assignment.t :=
  Assignment.mk "a4" "c1" true 0 2592000000000 true "image"
    {[ "network_policy" := "os-web"; "resources" := "big" ]}.

(** Assignment [a5]: released only after 40 days. *)
Definition a5 : Assignment.t :=
  Assignment.mk "a5" "c1" true 3456000000000 4000000000000 false "image" ∅.

(** [u1] with a linked github account. *)
Definition student_linked : User.t := User.mk "u1" "jd1" (Some "jd1-gh").
Definition as_student_linked : Request := mkRequest student_linked [].

(** The repository of [u1] for [a4]. *)
Definition repo_u1_a4 : AssignmentRepo.t :=
  AssignmentRepo.mk "u1" "a4" "https://github.com/org/a4-jd1".

(** At 5s: the session that ended at 4s, and the repository. *)
Definition with_repo : World :=
  mkWorld 5000000 [Sample.ended_at_4s] [repo_u1_a4] ∅ ∅ (λ _ _, None) [] [].

(** An inactive session of [u1] that kept a volume and has no [ended]
    stamp. *)
Definition inactive_without_end : TheiaSession.t :=
  TheiaSession.mk "s2" "u1" "a0" "c1" "image" "" false true "os-student"
    true true "default-resources" false false false
    false "Failed" 600000 None.

Definition one_without_end : World :=
  Sample.store 5000000 [inactive_without_end] ∅.

(** Assignment [a6]: released, due in the year 9507. *)
Definition a6 : Assignment.t :=
  Assignment.mk "a6" "c1" true 0 300000000000000000 false "image" ∅.

(** Assignment [a7]: released, due on the last day of the year 9999. *)
Definition a7 : Assignment.t :=
  Assignment.mk "a7" "c1" true 0 315537811200000000 false "image" ∅.

(** A cooldown of 2 * 10^10 seconds, and the session that ended at 4s: the
    clock reads one microsecond before the cooldown is over. *)
Definition long_cooldown : World :=
  mkWorld 20000000003999999 [Sample.ended_at_4s] []
    {[ "THEIA_VOLUME_COOLDOWN_SECONDS" := 20000000000%Z ]} ∅ (λ _ _, None)
    [] [].

(** [u1] asking with both flags given, [autosave] twice. *)
Definition as_student_flags : Request :=
  mkRequest Sample.student
    [("persistent_storage", "false"); ("autosave", "true"); ("autosave", "no")].

(** [u1] asking with both flags switched off. *)
Definition as_student_no_flags : Request :=
  mkRequest Sample.student
    [("persistent_storage", "false"); ("autosave", "false")].

End Scenario.

(** More sample inputs: a module of three exercises. *)
Module Lesson.

(** The objects of the lesson, one for each name. *)
Definition ref_of (n : string) : nat :=
  if String.eqb n "hello" then 0
  else if String.eqb n "pipes" then 1
  else if String.eqb n "grep" then 2
  else 3.

Definition ex (n : string) (done : bool) : Autograde.Exercise :=
  Autograde.mkExercise (ref_of n) n done "".

Definition three : list Autograde.Exercise :=
  [ex "hello" false; ex "pipes" false; ex "grep" true].

(** A list that has the object [hello] twice. *)
Definition twice : list Autograde.Exercise :=
  [ex "hello" false; ex "pipes" false; ex "hello" false].

(** The module [exercises/lesson] exists when [exercises] is on the search
    path. *)
Definition env : Autograde.Env :=
  Autograde.mkEnv
    (λ path name,
       if bool_decide ("exercises" ∈ path) && String.eqb name "lesson"
       then Some "lesson" else None)
    (λ m, Some (three, "start", "end")).

(** The module [exercises/again] lists [twice]. *)
Definition env_twice : Autograde.Env :=
  Autograde.mkEnv
    (λ path name,
       if bool_decide ("exercises" ∈ path) && String.eqb name "again"
       then Some "again" else None)
    (λ m, Some (twice, "start", "end")).

End Lesson.

(** More sample inputs: a table of images. *)
Module Images.

Definition label_type : Migration.SqlType * bool :=
  (Migration.VARCHAR "utf8mb4_unicode_ci" 1024, false).

(** Two images, with an id and a label. *)
Definition before : gmap string Migration.Table :=
  {[ "theia_image" :=
       Migration.mkTable
         {[ "id" := (Migration.String_ 128, false); "label" := label_type ]}
         [ {[ "id" := Some "i1"; "label" := Some "Python" ]};
           {[ "id" := Some "i2"; "label" := Some "C++" ]} ] ]}.

(** One image, with a title, a description and an icon. *)
Definition after : gmap string Migration.Table :=
  {[ "theia_image" :=
       Migration.mkTable
         {[ "id" := (Migration.String_ 128, false);
            "title" := (Migration.String_ 1024, true);
            "description" := (Migration.Text, true);
            "icon" := (Migration.String_ 1024, true) ]}
         [ {[ "id" := Some "i1"; "title" := Some "Python";
              "description" := Some "An image for Python";
              "icon" := Some "python.png" ]} ] ]}.

End Images.

(** Runs the plumbing of the monad, leaving the stages and the conditions
    of the view in place. *)
Ltac run_view :=
  cbv [bind ret raise get_world modify_world req_assert datetime_now
       datetime_add get_config_int elapsed_since query_active_session
       query_last_session query_repo query_owned_session
       assert_theia_sessions_enabled].

(** Decides the lookups of inserts and deletes at the names of columns. *)
Ltac columns_lookup :=
  repeat (rewrite ?lookup_insert, ?lookup_delete;
          repeat case_decide; simplify_eq; try done).

(** * Properties *)

(** ** Rows and queries *)

Lemma find_by_primary_key (P : TheiaSession.t → Prop) `{∀ x, Decision (P x)}
    (table : list TheiaSession.t) (sid : string) (s : TheiaSession.t) :
  primary_key table →
  (∀ x, P x → TheiaSession.id x = sid) →
  s ∈ table → P s →
  ∃ i, table !! i = Some s ∧ list_find P table = Some (i, s).
Proof.
  intros Hkey Hid [i Hi]%list_elem_of_lookup HP.
  exists i. split; [done|].
  apply list_find_Some. split_and!; [done..|].
  intros j y Hj Hlt HPy.
  assert (j = i); [|lia].
  eapply (NoDup_lookup _ j i (TheiaSession.id y) Hkey).
  - by rewrite list_lookup_fmap, Hj.
  - rewrite list_lookup_fmap, Hi. simpl. f_equal.
    rewrite (Hid y HPy). by apply Hid.
Qed.

Lemma owned_session_by_key (request : Request) (sid : string) (w : World)
    (s : TheiaSession.t) :
  primary_key (theia_session w) →
  s ∈ theia_session w →
  TheiaSession.id s = sid →
  TheiaSession.owner_id s = current_user_id request →
  ∃ i, theia_session w !! i = Some s
       ∧ owned_session_of request sid w = Some (i, s).
Proof.
  intros Hkey Hin Hid Hown. unfold owned_session_of.
  apply (find_by_primary_key _ _ sid); [done| |done|done].
  by intros x [? _].
Qed.

Lemma owned_session_absent (request : Request) (sid : string) (w : World) :
  (∀ s, s ∈ theia_session w → TheiaSession.id s = sid →
        TheiaSession.owner_id s ≠ current_user_id request) →
  owned_session_of request sid w = None.
Proof.
  intros Hnone. unfold owned_session_of.
  apply list_find_None, Forall_forall.
  intros s Hs [Hid Hown]. by apply (Hnone s).
Qed.

(** [first_by_created_desc] takes a row of the list, and none of the list is
    more recent. *)
Lemma first_by_created_desc_spec (l : list TheiaSession.t) (m : TheiaSession.t) :
  first_by_created_desc l = Some m →
  m ∈ l ∧ ∀ s, s ∈ l → (TheiaSession.created s ≤ TheiaSession.created m)%Z.
Proof.
  revert m. induction l as [|x l IH]; intros m; simpl; [done|].
  destruct (first_by_created_desc l) as [m'|] eqn:Hm'.
  - destruct (IH m' eq_refl) as [Hin Hmax].
    case_bool_decide as Hle; intros [= <-].
    + split; [left|]. intros s [->|Hs]%elem_of_cons; [lia|].
      specialize (Hmax s Hs). lia.
    + split; [by right|]. intros s [->|Hs]%elem_of_cons; [lia|by apply Hmax].
  - intros [= <-]. destruct l as [|y l]; [|simpl in Hm'].
    + split; [left|]. intros s [->|Hs]%elem_of_cons; [lia|]. by inversion Hs.
    + destruct (first_by_created_desc l); [case_bool_decide|]; done.
Qed.

Lemma first_by_created_desc_None (l : list TheiaSession.t) :
  first_by_created_desc l = None → l = [].
Proof.
  destruct l as [|x l]; [done|]. simpl.
  destruct (first_by_created_desc l); [case_bool_decide|]; done.
Qed.

(** The last session of the view is the user's most recent inactive one. *)
Lemma last_session_most_recent (request : Request) (w : World)
    (ls : TheiaSession.t) :
  last_session_of request w = Some ls →
  ls ∈ theia_session w
  ∧ TheiaSession.owner_id ls = current_user_id request
  ∧ TheiaSession.active ls = false
  ∧ ∀ s, s ∈ theia_session w →
         TheiaSession.owner_id s = current_user_id request →
         TheiaSession.active s = false →
         (TheiaSession.created s ≤ TheiaSession.created ls)%Z.
Proof.
  unfold last_session_of. intros [Hin Hmax]%first_by_created_desc_spec.
  apply list_elem_of_filter in Hin as [[Hown Hact] Hin].
  split_and!; [done..|].
  intros s Hs Hso Hsa. apply Hmax, list_elem_of_filter. done.
Qed.

(** ** [public_ide_stop] *)

(** The response of a successful stop. *)
Lemma public_ide_stop_found (request : Request) (sid : string) (w : World)
    (i : nat) (s : TheiaSession.t) :
  owned_session_of request sid w = Some (i, s) →
  public_ide_stop request sid w =
    (Return (success_response
               [("status", VStr "Session stopped."); ("variant", VStr "warning")]),
     mkWorld (clock w) (<[i := stopped (clock w) s]> (theia_session w))
             (assignment_repo w) (config w)
             (delete (sid, current_user_id request) (memoized w))
             (backend w) (backend_calls w)
             (rpc_queue w ++ [TheiaSession.id s])).
Proof.
  intros Hfind.
  unfold public_ide_stop, query_owned_session, bind, get_world, ret.
  rewrite Hfind. reflexivity.
Qed.

Lemma public_ide_stop_not_found (request : Request) (sid : string) (w : World) :
  owned_session_of request sid w = None →
  public_ide_stop request sid w =
    (Raise (AssertError "session does not exist"), w).
Proof.
  intros Hfind.
  unfold public_ide_stop, query_owned_session, bind, get_world, ret.
  rewrite Hfind. reflexivity.
Qed.

(** A poll that finds no entry under its key asks the backend and records
    the answer. *)
Lemma theia_poll_ide_miss (ext : External) (sid uid : string) (w : World) :
  memoized w !! (sid, uid) = None →
  theia_poll_ide ext sid uid w =
    (Return (backend w sid uid),
     log_backend_call (Fetch sid uid)
       (set_memoized
          (<[(sid, uid) := (backend w sid uid, (clock w + poll_timeout ext)%Z)]>
             (memoized w)) w)).
Proof.
  intros Hmiss. unfold theia_poll_ide, bind, get_world, ret. simpl.
  rewrite Hmiss. reflexivity.
Qed.

(** A poll answered from the cache leaves the store alone. *)
Lemma theia_poll_ide_hit (ext : External) (sid uid : string) (w : World)
    (v : option SessionData) (expiry : Z) :
  memoized w !! (sid, uid) = Some (v, expiry) →
  (clock w < expiry)%Z →
  theia_poll_ide ext sid uid w = (Return v, w).
Proof.
  intros Hhit Hlt. unfold theia_poll_ide, bind, get_world, ret. simpl.
  rewrite Hhit. by rewrite bool_decide_eq_true_2.
Qed.

(** The view is the poll followed by a reading of its answer. *)
Lemma public_ide_poll_unfold (ext : External) (request : Request)
    (sid : string) (w : World) :
  public_ide_poll ext request sid w =
    match theia_poll_ide ext sid (current_user_id request) w with
    | (Return (Some d), w') => (Return (poll_response d), w')
    | (Return None, w') => (Raise (AssertError "session does not exist"), w')
    | (Raise e, w') => (Raise e, w')
    end.
Proof.
  unfold public_ide_poll, bind, poll_response.
  destruct (theia_poll_ide ext sid (current_user_id request) w) as [[[d|]|e] w'];
    try reflexivity.
  destruct (status_get status_messages (sd_state d) (VNone, VNone)) eqn:E.
  reflexivity.
Qed.

(** The view adds no backend call of its own to those of the poll. *)
Lemma public_ide_poll_store (ext : External) (request : Request) (sid : string)
    (w : World) :
  snd (public_ide_poll ext request sid w)
  = snd (theia_poll_ide ext sid (current_user_id request) w).
Proof.
  rewrite public_ide_poll_unfold.
  by destruct (theia_poll_ide ext sid (current_user_id request) w) as [[[d|]|e] w'].
Qed.

(** C6.  Stopping a session id that no row has, or that only rows of other
    users have, fails in one and the same way: the assertion error "session
    does not exist", with the store exactly as it was.  The outcome does not
    depend on which of the two cases holds. *)
Theorem stop_not_found_or_not_owned (request : Request) (sid : string)
    (w : World) :
  (∀ s, s ∈ theia_session w → TheiaSession.id s = sid →
        TheiaSession.owner_id s ≠ current_user_id request) →
  public_ide_stop request sid w
  = (Raise (AssertError "session does not exist"), w).
Proof.
  intros Hnone. by apply public_ide_stop_not_found, owned_session_absent.
Qed.

(** The session [s1] of [u1] stopped by [u2], and an id nobody has. *)
Lemma stop_not_found_or_not_owned_witness :
  public_ide_stop Sample.as_other_student "s1" Sample.one_running
  = (Raise (AssertError "session does not exist"), Sample.one_running)
  ∧ public_ide_stop Sample.as_other_student "s9" Sample.one_running
    = (Raise (AssertError "session does not exist"), Sample.one_running).
Proof.
  split; apply stop_not_found_or_not_owned.
  - intros s Hs _. apply list_elem_of_In in Hs. simpl in Hs.
    destruct Hs as [<-|[]]. vm_compute. discriminate.
  - intros s Hs Hid. apply list_elem_of_In in Hs. simpl in Hs.
    destruct Hs as [<-|[]]. vm_compute in Hid. discriminate.
Defined.

(** C5.  Stopping a session of the calling user answers "Session stopped.",
    writes the row with [active = false], [ended] the time of the call and
    [state = "Ended"] (all other columns as they were), enqueues the
    teardown, and removes the cache entry of the pair (session id, user id):
    on any later store with the cache as the stop left it, the next poll
    asks the backend again and answers with what the backend says. *)
Theorem stop_owned_session (ext : External) (request : Request) (sid : string)
    (w : World) (s : TheiaSession.t) :
  primary_key (theia_session w) →
  s ∈ theia_session w →
  TheiaSession.id s = sid →
  TheiaSession.owner_id s = current_user_id request →
  let w' := snd (public_ide_stop request sid w) in
  fst (public_ide_stop request sid w)
  = Return (success_response
              [("status", VStr "Session stopped."); ("variant", VStr "warning")])
  ∧ (∃ i, theia_session w !! i = Some s
          ∧ theia_session w' = <[i := stopped (clock w) s]> (theia_session w)
          ∧ theia_session w' !! i = Some (stopped (clock w) s))
  ∧ TheiaSession.active (stopped (clock w) s) = false
  ∧ TheiaSession.ended (stopped (clock w) s) = Some (clock w)
  ∧ TheiaSession.state (stopped (clock w) s) = "Ended"
  ∧ rpc_queue w' = (rpc_queue w ++ [sid])%list
  ∧ memoized w' = delete (sid, current_user_id request) (memoized w)
  ∧ memoized w' !! (sid, current_user_id request) = None
  ∧ ∀ w2, memoized w2 = memoized w' →
      fst (theia_poll_ide ext sid (current_user_id request) w2)
      = Return (backend w2 sid (current_user_id request))
      ∧ backend_calls (snd (public_ide_poll ext request sid w2))
        = (backend_calls w2 ++ [Fetch sid (current_user_id request)])%list.
Proof.
  intros Hkey Hin Hid Hown.
  destruct (owned_session_by_key request sid w s Hkey Hin Hid Hown)
    as (i & Hi & Hfind).
  rewrite (public_ide_stop_found _ _ _ _ _ Hfind). cbn [fst snd].
  split_and!; try reflexivity.
  - exists i. cbn [theia_session]. split_and!; [done|done|].
    apply list_lookup_insert_eq. by eapply lookup_lt_Some.
  - cbn [rpc_queue]. by rewrite Hid.
  - cbn [memoized]. apply lookup_delete_eq.
  - intros w2 Hcache. cbn [memoized] in Hcache.
    assert (memoized w2 !! (sid, current_user_id request) = None) as Hmiss.
    { rewrite Hcache. apply lookup_delete_eq. }
    rewrite public_ide_poll_store, (theia_poll_ide_miss _ _ _ _ Hmiss).
    done.
Qed.

(** [u1] stops the running session [s1], whose poll result is cached: before
    the stop a poll is answered from the cache, after it the poll goes to the
    backend. *)
Lemma stop_owned_session_witness :
  public_ide_poll Sample.ext Sample.as_student "s1" Sample.one_running
  = (Return (poll_response Sample.running_data), Sample.one_running)
  ∧ fst (public_ide_stop Sample.as_student "s1" Sample.one_running)
    = Return (success_response
                [("status", VStr "Session stopped."); ("variant", VStr "warning")])
  ∧ memoized (snd (public_ide_stop Sample.as_student "s1" Sample.one_running))
      !! ("s1", "u1") = None
  ∧ backend_calls
      (snd (public_ide_poll Sample.ext Sample.as_student "s1"
              (snd (public_ide_stop Sample.as_student "s1" Sample.one_running))))
    = [Fetch "s1" "u1"].
Proof.
  split; [vm_compute; reflexivity|].
  pose proof (stop_owned_session Sample.ext Sample.as_student "s1"
                Sample.one_running Sample.running) as Hstop.
  cbv zeta in Hstop.
  destruct Hstop as (Hanswer & _ & _ & _ & _ & _ & _ & Hgone & Hnext).
  - vm_compute. apply NoDup_cons. split; [inversion 1|apply NoDup_nil_2].
  - apply list_elem_of_In. simpl. by left.
  - reflexivity.
  - reflexivity.
  - split; [exact Hanswer|]. split; [exact Hgone|].
    destruct (Hnext (snd (public_ide_stop Sample.as_student "s1"
                            Sample.one_running)) eq_refl) as [_ Hcalls].
    exact Hcalls.
Defined.

(** Writing a stopped row keeps the primary key. *)
Lemma primary_key_stopped (table : list TheiaSession.t) (i : nat)
    (s : TheiaSession.t) (now : Z) :
  primary_key table → table !! i = Some s →
  primary_key (<[i := stopped now s]> table).
Proof.
  unfold primary_key. intros Hkey Hi.
  rewrite list_fmap_insert. cbn [stopped TheiaSession.set_state TheiaSession.id].
  rewrite list_insert_id; [done|]. by rewrite list_lookup_fmap, Hi.
Qed.

(** C7.  A session of the calling user that is already inactive is still
    found by the lookup of the stop (which filters on id and owner only): the
    stop succeeds again and writes the row with [ended] the time of this
    call, [state = "Ended"] and [active = false], whatever [ended] was
    before. *)
Theorem stop_inactive_session_again (request : Request) (sid : string)
    (w : World) (s : TheiaSession.t) :
  primary_key (theia_session w) →
  s ∈ theia_session w →
  TheiaSession.id s = sid →
  TheiaSession.owner_id s = current_user_id request →
  TheiaSession.active s = false →
  ∃ i s',
    theia_session w !! i = Some s
    ∧ fst (public_ide_stop request sid w)
      = Return (success_response
                  [("status", VStr "Session stopped."); ("variant", VStr "warning")])
    ∧ theia_session (snd (public_ide_stop request sid w)) !! i = Some s'
    ∧ TheiaSession.ended s' = Some (clock w)
    ∧ TheiaSession.state s' = "Ended"
    ∧ TheiaSession.active s' = false
    ∧ TheiaSession.id s' = sid
    ∧ TheiaSession.owner_id s' = current_user_id request.
Proof.
  intros Hkey Hin Hid Hown _.
  destruct (owned_session_by_key request sid w s Hkey Hin Hid Hown)
    as (i & Hi & Hfind).
  exists i, (stopped (clock w) s).
  rewrite (public_ide_stop_found _ _ _ _ _ Hfind). cbn [fst snd theia_session].
  split_and!; try done.
  apply list_lookup_insert_eq. by eapply lookup_lt_Some.
Qed.

(** [u1] stops, at 5s, the session that ended at 4s. *)
Lemma stop_inactive_session_again_witness :
  TheiaSession.active Sample.ended_at_4s = false
  ∧ TheiaSession.ended Sample.ended_at_4s = Some 4000000%Z
  ∧ ∃ i s',
      theia_session (snd (public_ide_stop Sample.as_student "s0" Sample.one_ended))
        !! i = Some s'
      ∧ TheiaSession.ended s' = Some 5000000%Z.
Proof.
  split; [reflexivity|]. split; [reflexivity|].
  destruct (stop_inactive_session_again Sample.as_student "s0"
              Sample.one_ended Sample.ended_at_4s)
    as (i & s' & _ & _ & Hrow & Hended & _).
  - vm_compute. apply NoDup_cons. split; [inversion 1|apply NoDup_nil_2].
  - apply list_elem_of_In. simpl. by left.
  - reflexivity.
  - reflexivity.
  - reflexivity.
  - exists i, s'. split; [exact Hrow|exact Hended].
Defined.

(** Two stops in a row: the second, at time [t], finds the row the first one
    wrote and stamps it again. *)
Lemma stop_then_stop (request : Request) (sid : string) (w : World)
    (s : TheiaSession.t) (t : Z) :
  primary_key (theia_session w) →
  s ∈ theia_session w →
  TheiaSession.id s = sid →
  TheiaSession.owner_id s = current_user_id request →
  let w1 := set_clock t (snd (public_ide_stop request sid w)) in
  ∃ i,
    fst (public_ide_stop request sid w1)
    = Return (success_response
                [("status", VStr "Session stopped."); ("variant", VStr "warning")])
    ∧ theia_session (snd (public_ide_stop request sid w1)) !! i
      = Some (stopped t (stopped (clock w) s)).
Proof.
  intros Hkey Hin Hid Hown w1.
  destruct (owned_session_by_key request sid w s Hkey Hin Hid Hown)
    as (i & Hi & Hfind).
  assert (theia_session w1 = <[i := stopped (clock w) s]> (theia_session w)
          ∧ clock w1 = t) as [Htable Hclock].
  { unfold w1. by rewrite (public_ide_stop_found _ _ _ _ _ Hfind). }
  assert (theia_session w1 !! i = Some (stopped (clock w) s)) as Hi1.
  { rewrite Htable. apply list_lookup_insert_eq. by eapply lookup_lt_Some. }
  destruct (owned_session_by_key request sid w1 (stopped (clock w) s))
    as (j & Hj & Hfind1).
  - rewrite Htable. by apply primary_key_stopped.
  - by eapply list_elem_of_lookup_2.
  - done.
  - done.
  - exists j. rewrite (public_ide_stop_found _ _ _ _ _ Hfind1).
    cbn [fst snd theia_session]. rewrite Hclock.
    split; [done|].
    apply list_lookup_insert_eq. by eapply lookup_lt_Some.
Qed.

(** ** [public_ide_poll] *)

Lemma loading_of_true (st : string) :
  loading_of st = true ↔ st ≠ "Running" ∧ st ≠ "Ended" ∧ st ≠ "Failed".
Proof.
  unfold loading_of.
  rewrite negb_true_iff, bool_decide_eq_false, !elem_of_cons, elem_of_nil.
  tauto.
Qed.

Lemma status_get_other (st : string) :
  st ≠ "Running" → st ≠ "Failed" →
  status_get status_messages st (VNone, VNone) = (VNone, VNone).
Proof.
  intros Hr Hf. unfold status_messages, status_get.
  destruct (String.eqb_spec "Running" st) as [E|_]; [by destruct Hr|].
  destruct (String.eqb_spec "Failed" st) as [E|_]; [by destruct Hf|].
  reflexivity.
Qed.

(** C4.  Whatever session the poll reports, the answer carries
    [loading = true] exactly when the phase is none of Running, Ended and
    Failed; phase Running gives the success message and [loading = false],
    phase Failed the error message and [loading = false], and every other
    phase, Ended among them, gives [None] for both status and variant. *)
Theorem poll_phase_mapping (ext : External) (request : Request) (sid : string)
    (w : World) (d : SessionData) :
  fst (theia_poll_ide ext sid (current_user_id request) w) = Return (Some d) →
  ∃ loading status variant,
    fst (public_ide_poll ext request sid w)
    = Return (success_response
                [("loading", VBool loading); ("session", VData d);
                 ("status", status); ("variant", variant)])
    ∧ (loading = true ↔
       sd_state d ≠ "Running" ∧ sd_state d ≠ "Ended" ∧ sd_state d ≠ "Failed")
    ∧ (sd_state d = "Running" →
       loading = false ∧ status = VStr "Session is now ready."
       ∧ variant = VStr "success")
    ∧ (sd_state d = "Failed" →
       loading = false
       ∧ status = VStr "Session failed to start. Please try again."
       ∧ variant = VStr "error")
    ∧ (sd_state d ≠ "Running" → sd_state d ≠ "Failed" →
       status = VNone ∧ variant = VNone)
    ∧ (sd_state d = "Ended" →
       loading = false ∧ status = VNone ∧ variant = VNone).
Proof.
  intros Hpoll. rewrite public_ide_poll_unfold.
  destruct (theia_poll_ide ext sid (current_user_id request) w) as [r w'].
  cbn [fst] in Hpoll. subst r. cbn [fst].
  exists (loading_of (sd_state d)),
         (fst (status_get status_messages (sd_state d) (VNone, VNone))),
         (snd (status_get status_messages (sd_state d) (VNone, VNone))).
  split; [reflexivity|]. split; [apply loading_of_true|].
  split_and!.
  - intros ->. by split_and!.
  - intros ->. by split_and!.
  - intros Hr Hf. by rewrite status_get_other.
  - intros ->. by split_and!.
Qed.

(** The cached poll of the running session [s1]. *)
Lemma poll_phase_mapping_witness :
  fst (theia_poll_ide Sample.ext "s1" "u1" Sample.one_running)
  = Return (Some Sample.running_data)
  ∧ ∃ loading status variant,
      fst (public_ide_poll Sample.ext Sample.as_student "s1" Sample.one_running)
      = Return (success_response
                  [("loading", VBool loading);
                   ("session", VData Sample.running_data);
                   ("status", status); ("variant", variant)])
      ∧ loading = false ∧ variant = VStr "success".
Proof.
  assert (fst (theia_poll_ide Sample.ext "s1"
                 (current_user_id Sample.as_student) Sample.one_running)
          = Return (Some Sample.running_data)) as Hpoll.
  { vm_compute. reflexivity. }
  split; [exact Hpoll|].
  destruct (poll_phase_mapping Sample.ext Sample.as_student "s1"
              Sample.one_running Sample.running_data Hpoll)
    as (loading & status & variant & Hresp & _ & Hrun & _).
  exists loading, status, variant.
  destruct (Hrun eq_refl) as (Hl & _ & Hv).
  split; [exact Hresp|]. split; [exact Hl|exact Hv].
Defined.

(** ** [public_ide_initialize] *)

(** The checks before the creation only read the store. *)
Lemma within_cooldown_store (last_session : option TheiaSession.t) (w : World) :
  within_cooldown last_session w = (fst (within_cooldown last_session w), w).
Proof.
  unfold within_cooldown.
  destruct last_session as [ls|]; [|reflexivity].
  destruct (TheiaSession.persistent_storage ls); [|reflexivity].
  run_view. destruct (TheiaSession.ended ls); reflexivity.
Qed.

Lemma student_checks_store (assignment : Assignment.t) (w : World) :
  student_checks assignment w = (fst (student_checks assignment w), w).
Proof.
  unfold student_checks. run_view.
  destruct (bool_decide (Assignment.release_date assignment < clock w)%Z);
    [|reflexivity].
  destruct (bool_decide (_ ≤ Z.max datetime_max (clock w))%Z); reflexivity.
Qed.

Lemma resolve_repo_url_store (request : Request) (assignment : Assignment.t)
    (w : World) :
  resolve_repo_url request assignment w
  = (fst (resolve_repo_url request assignment w), w).
Proof.
  unfold resolve_repo_url.
  destruct (Assignment.github_repo_required assignment); [|reflexivity].
  run_view.
  destruct (bool_decide (User.github_username (current_user request) ≠ None));
    [|reflexivity].
  destruct (repo_of request (Assignment.id assignment) w); reflexivity.
Qed.

(** The view, stage by stage. *)
Lemma public_ide_initialize_unfold (ext : External) (request : Request)
    (a : Assignment.t) (w : World) :
  public_ide_initialize ext request a w =
    if Assignment.ide_enabled a then
      match active_session_of request (Assignment.id a) w with
      | Some (_, s) => (Return (active_response ext s), w)
      | None =>
        match fst (within_cooldown (last_session_of request w) w) with
        | Raise e => (Raise e, w)
        | Return true => (Return cooldown_response, w)
        | Return false =>
          if theia_starts_enabled ext w then
            match
              (if negb (is_course_admin ext (Assignment.course_id a)
                                        (current_user_id request))
               then fst (student_checks a w) else Return false)
            with
            | Raise e => (Raise e, w)
            | Return true => (Return (error_response grace_message), w)
            | Return false =>
              match fst (resolve_repo_url request a w) with
              | Raise e => (Raise e, w)
              | Return repo_url =>
                (Return (created_response ext (new_session ext request a w repo_url)),
                 with_new_session (new_session ext request a w repo_url) w)
              end
            end
          else (Raise (AssertError (theia_starts_disabled_message ext)), w)
        end
      end
    else (Raise (AssertError "IDEs are not enabled for this assignment"), w).
Proof.
  unfold public_ide_initialize. run_view.
  destruct (Assignment.ide_enabled a); [|reflexivity].
  destruct (active_session_of request (Assignment.id a) w) as [[i s]|];
    [reflexivity|].
  cbn [fmap option_fmap option_map].
  pose proof (within_cooldown_store (last_session_of request w) w) as Hc.
  destruct (within_cooldown (last_session_of request w) w) as [oc wc].
  cbn [fst] in Hc |- *. injection Hc as ->.
  destruct oc as [[|]|e]; [reflexivity| |reflexivity].
  destruct (theia_starts_enabled ext w); [|reflexivity].
  assert (∀ b : bool,
    (if b then student_checks a else λ w0 : World, (Return false, w0)) w
    = (if b then fst (student_checks a w) else Return false, w)) as Hs.
  { intros [|]; [apply student_checks_store|reflexivity]. }
  rewrite Hs.
  destruct (if negb _ then fst (student_checks a w) else Return false)
    as [[|]|e]; [reflexivity| |reflexivity].
  pose proof (resolve_repo_url_store request a w) as Hr.
  destruct (resolve_repo_url request a w) as [or wr].
  cbn [fst] in Hr |- *. injection Hr as ->.
  destruct or as [repo_url|e]; reflexivity.
Qed.

(** *** The stages on their own *)

Lemma no_active_session_query (request : Request) (assignment_id : string)
    (w : World) :
  no_active_session request assignment_id w ↔
  active_session_of request assignment_id w = None.
Proof.
  unfold no_active_session, active_session_of.
  rewrite list_find_None, Forall_forall. split.
  - intros Hnone s Hs (Hown & Has & Hact).
    specialize (Hnone s Hs Hown Has). congruence.
  - intros Hnone s Hs Hown Has.
    destruct (TheiaSession.active s) eqn:Hact; [|done].
    by destruct (Hnone s Hs).
Qed.

(** **** The comparison of [total_seconds()] with a number of seconds *)

Lemma pow2_pos (k : Z) : (0 < pow2 k)%Z.
Proof. unfold pow2. apply Z.pow_pos_nonneg; lia. Qed.

Lemma pow2_nonneg (k : Z) :
  (0 ≤ k)%Z → pow2 k = (2 ^ k)%Z ∧ pow2 (- k) = 1%Z.
Proof.
  intros Hk. unfold pow2. split.
  - rewrite Z.max_r by lia. reflexivity.
  - rewrite Z.max_l by lia. reflexivity.
Qed.

Lemma pow2_neg (k : Z) :
  (k ≤ 0)%Z → pow2 k = 1%Z ∧ pow2 (- k) = (2 ^ (- k))%Z.
Proof.
  intros Hk. unfold pow2. split.
  - rewrite Z.max_l by lia. reflexivity.
  - rewrite Z.max_r by lia. reflexivity.
Qed.

(** The rounded quotient is the floor or the next integer, within half a
    unit of the quotient. *)
Lemma round_half_even_bounds (n d : Z) :
  (0 < d)%Z →
  (n / d ≤ round_half_even n d ≤ n / d + 1)%Z
  ∧ (2 * (round_half_even n d * d - n) ≤ d)%Z
  ∧ (2 * (n - round_half_even n d * d) ≤ d)%Z.
Proof.
  intros Hd. unfold round_half_even.
  pose proof (Z.div_mod n d ltac:(lia)) as Hdm.
  pose proof (Z.mod_pos_bound n d Hd) as Hr.
  destruct (Z.ltb_spec (2 * (n mod d)) d);
    [|destruct (Z.ltb_spec d (2 * (n mod d))); [|destruct (Z.even (n / d))]];
    nia.
Qed.

(** The quotient scaled by the exponent is at least [2 ^ 52], and the
    mantissa is its rounding. *)
Lemma true_divide_scaled (n d : Z) :
  n ≠ 0%Z → (0 < d)%Z →
  let x := true_divide n d in
  (2 ^ 52 * (d * pow2 (exponent x)) ≤ Z.abs n * pow2 (- exponent x))%Z
  ∧ mantissa x
    = (Z.sgn n
       * round_half_even (Z.abs n * pow2 (- exponent x)) (d * pow2 (exponent x)))%Z.
Proof.
  intros Hn Hd. unfold true_divide.
  destruct (Z.eqb_spec n 0) as [|_]; [contradiction|].
  set (a := Z.abs n). set (e0 := (Z.log2 a - Z.log2 d - 52)%Z).
  assert (0 < a)%Z as Ha by (unfold a; lia).
  destruct (Z.leb_spec (2 ^ 52 * (d * pow2 e0)) (a * pow2 (- e0))) as [Hle|Hgt];
    cbn [exponent mantissa]; (split; [|reflexivity]); [exact Hle|].
  pose proof (Z.log2_spec a Ha) as [Hla _].
  pose proof (Z.log2_spec d Hd) as [_ Hld].
  pose proof (Z.log2_nonneg a) as Hla0.
  pose proof (Z.log2_nonneg d) as Hld0.
  set (la := Z.log2 a) in *. set (ld := Z.log2 d) in *.
  destruct (Z.le_gt_cases 0 (e0 - 1)) as [Hs|Hs].
  - destruct (pow2_nonneg (e0 - 1) Hs) as [-> ->].
    assert (2 ^ la = 2 ^ 52 * 2 ^ (e0 - 1) * 2 ^ Z.succ ld)%Z as Hsplit.
    { rewrite <- !Z.pow_add_r by lia. f_equal. unfold e0. lia. }
    assert (0 < 2 ^ 52 * 2 ^ (e0 - 1))%Z
      by (apply Z.mul_pos_pos; apply Z.pow_pos_nonneg; lia).
    nia.
  - destruct (pow2_neg (e0 - 1) ltac:(lia)) as [-> ->].
    assert (2 ^ la * 2 ^ (- (e0 - 1)) = 2 ^ 52 * 2 ^ Z.succ ld)%Z as Hsplit.
    { rewrite <- !Z.pow_add_r by lia. f_equal. unfold e0. lia. }
    assert (0 < 2 ^ (- (e0 - 1)))%Z by (apply Z.pow_pos_nonneg; lia).
    nia.
Qed.

(** For a number of seconds from 0 to [2 ^ 34], the comparison of the float
    is the comparison of the microseconds: below [2 ^ 34] two neighbouring
    floats are less than two microseconds apart, so a duration that is a
    microsecond or more short of [c] seconds is not rounded up to [c]. *)
Lemma seconds_lt_exact (microseconds c : Z) :
  (0 ≤ c ≤ 2 ^ 34)%Z →
  seconds_lt microseconds c = bool_decide (microseconds < c * 1000000)%Z.
Proof.
  intros Hc. rename microseconds into us.
  transitivity (us <? c * 1000000)%Z;
    [|by destruct (Z.ltb_spec us (c * 1000000));
        [rewrite bool_decide_eq_true_2|rewrite bool_decide_eq_false_2; [|lia]]].
  unfold seconds_lt, total_seconds, float_lt_int.
  change (10 ^ 6)%Z with 1000000%Z.
  destruct (Z.eq_dec us 0) as [->|Hus].
  { change (true_divide 0 1000000) with (mkBinary64 0 0).
    cbn [mantissa exponent].
    change (pow2 (- 0)) with 1%Z. change (0 * pow2 0)%Z with 0%Z.
    rewrite Z.mul_1_r.
    destruct (Z.ltb_spec 0 c), (Z.ltb_spec 0 (c * 1000000)); lia || reflexivity. }
  pose proof (true_divide_scaled us 1000000 Hus ltac:(lia)) as [Hlow Hm].
  cbn zeta in Hlow, Hm.
  set (x := true_divide us 1000000) in *.
  set (e := exponent x) in *. rewrite Hm. clear Hm.
  pose proof (pow2_pos e) as Hpe. pose proof (pow2_pos (- e)) as Hpne.
  pose proof (round_half_even_bounds (Z.abs us * pow2 (- e)) (1000000 * pow2 e)
                ltac:(lia)) as (Hq & Hup & Hdown).
  set (m := round_half_even (Z.abs us * pow2 (- e)) (1000000 * pow2 e)) in *.
  assert (2 ^ 52 ≤ m)%Z as Hm52.
  { etransitivity; [|apply Hq]. apply Z.div_le_lower_bound; lia. }
  change (2 ^ 52)%Z with 4503599627370496%Z in *.
  change (2 ^ 34)%Z with 17179869184%Z in *.
  destruct (Z.lt_total us 0) as [Hneg|[?|Hpos]]; [|contradiction|].
  - (* a negative duration is below every number of seconds from 0 on *)
    rewrite Z.sgn_neg by lia.
    destruct (Z.ltb_spec (-1 * m * pow2 e) (c * pow2 (- e))),
             (Z.ltb_spec us (c * 1000000)); try reflexivity; nia.
  - rewrite Z.sgn_pos, Z.mul_1_l by lia. rewrite Z.abs_eq in * by lia.
    destruct (Z.ltb_spec us (c * 1000000)) as [Hlt|Hge].
    + (* under [c]: the exponent is at most -19, and half a unit in the last
         place is less than a microsecond *)
      apply Z.ltb_lt.
      destruct (Z.le_gt_cases 0 e) as [He|He].
      { destruct (pow2_nonneg e He) as [He1 He2]. rewrite He2 in *. nia. }
      destruct (pow2_neg e ltac:(lia)) as [He1 He2]. rewrite He1 in *.
      assert (2 ^ 18 < pow2 (- e))%Z as H18
        by (change (2 ^ 18)%Z with 262144%Z; nia).
      rewrite He2 in H18. apply Z.pow_lt_mono_r_iff in H18; [|lia|lia].
      assert (2 ^ 19 ≤ pow2 (- e))%Z as H19
        by (rewrite He2; apply Z.pow_le_mono_r; lia).
      change (2 ^ 19)%Z with 524288%Z in H19. nia.
    + (* [c] is a float: rounding does not go below it *)
      apply Z.ltb_ge.
      destruct (Z.le_gt_cases 0 e) as [He|He].
      { destruct (pow2_nonneg e He) as [He1 He2]. rewrite He2 in *. nia. }
      destruct (pow2_neg e ltac:(lia)) as [He1 He2]. rewrite He1 in *.
      rewrite Z.mul_1_r in *.
      etransitivity; [|apply Hq]. apply Z.div_le_lower_bound; nia.
Qed.

Lemma within_cooldown_persistent (ls : TheiaSession.t) (e : Z) (w : World) :
  TheiaSession.persistent_storage ls = true →
  TheiaSession.ended ls = Some e →
  fst (within_cooldown (Some ls) w)
  = Return (seconds_lt (clock w - e) (cooldown_seconds w)).
Proof.
  intros Hp He. unfold within_cooldown. rewrite Hp. run_view. rewrite He.
  reflexivity.
Qed.

(** With a cooldown from 0 to [2 ^ 34] seconds the check is on the
    microseconds. *)
Lemma within_cooldown_exact (ls : TheiaSession.t) (e : Z) (w : World) :
  TheiaSession.persistent_storage ls = true →
  TheiaSession.ended ls = Some e →
  (0 ≤ cooldown_seconds w ≤ 2 ^ 34)%Z →
  fst (within_cooldown (Some ls) w)
  = Return (bool_decide (clock w - e < cooldown_seconds w * 1000000)%Z).
Proof.
  intros Hp He Hc.
  by rewrite (within_cooldown_persistent ls e w Hp He), seconds_lt_exact.
Qed.

(** The student checks: the release, the overflow of the sum, the grace
    window. *)
Lemma student_checks_cases (a : Assignment.t) (w : World) :
  fst (student_checks a w)
  = if bool_decide (Assignment.release_date a < clock w)%Z
    then
      if bool_decide (Assignment.due_date a + timedelta_days 21
                      ≤ Z.max datetime_max (clock w))%Z
      then Return (bool_decide
                     (Assignment.due_date a + timedelta_days 21 ≤ clock w)%Z)
      else Raise OverflowError
    else Raise (AssertError "Assignment has not been released").
Proof.
  unfold student_checks. run_view.
  destruct (bool_decide (Assignment.release_date a < clock w)%Z); [|done].
  change (3 * 7)%Z with 21%Z.
  by destruct (bool_decide (_ ≤ Z.max datetime_max (clock w))%Z).
Qed.

(** Past the grace window the sum is not past the clock: no overflow. *)
Lemma student_checks_expired (a : Assignment.t) (w : World) :
  (Assignment.release_date a < clock w)%Z →
  (Assignment.due_date a + timedelta_days 21 ≤ clock w)%Z →
  fst (student_checks a w) = Return true.
Proof.
  intros Hrel Hdue. rewrite student_checks_cases.
  rewrite !bool_decide_eq_true_2; [done|lia..].
Qed.

(** Within the grace window the checks pass when its end is a datetime. *)
Lemma student_checks_within (a : Assignment.t) (w : World) :
  (Assignment.release_date a < clock w)%Z →
  (clock w < Assignment.due_date a + timedelta_days 21)%Z →
  (Assignment.due_date a + timedelta_days 21 ≤ datetime_max)%Z →
  fst (student_checks a w) = Return false.
Proof.
  intros Hrel Hdue Hmax. rewrite student_checks_cases.
  rewrite bool_decide_eq_true_2 by done.
  rewrite bool_decide_eq_true_2 by lia.
  by rewrite bool_decide_eq_false_2 by lia.
Qed.

(** When the end of the grace window is past [datetime.max] the sum raises:
    a student cannot start a session for an assignment that is due after
    10 December 9999. *)
Lemma student_checks_overflow (a : Assignment.t) (w : World) :
  (Assignment.release_date a < clock w)%Z →
  (clock w ≤ datetime_max)%Z →
  (datetime_max < Assignment.due_date a + timedelta_days 21)%Z →
  fst (student_checks a w) = Raise OverflowError.
Proof.
  intros Hrel Hclock Hmax. rewrite student_checks_cases.
  rewrite bool_decide_eq_true_2 by done.
  by rewrite bool_decide_eq_false_2 by lia.
Qed.

(** [u1] asks at 5s for [a7], due on the last day of the year 9999. *)
Lemma student_checks_overflow_example :
  public_ide_initialize Sample.ext Sample.as_student Scenario.a7
    Sample.one_ended
  = (Raise OverflowError, Sample.one_ended).
Proof. vm_compute. reflexivity. Qed.

Lemma resolve_repo_url_available (request : Request) (a : Assignment.t)
    (w : World) :
  (Assignment.github_repo_required a = true →
   User.github_username (current_user request) ≠ None
   ∧ repo_of request (Assignment.id a) w ≠ None) →
  ∃ repo_url, fst (resolve_repo_url request a w) = Return repo_url.
Proof.
  intros Hrepo. unfold resolve_repo_url.
  destruct (Assignment.github_repo_required a); [|by exists ""].
  destruct (Hrepo eq_refl) as [Hname Hsome]. run_view.
  rewrite bool_decide_eq_true_2 by done.
  destruct (repo_of request (Assignment.id a) w) as [r|]; [|done].
  by exists (AssignmentRepo.repo_url r).
Qed.

(** *** What a run of the view can do to the store *)

(** Either the store is left as it was, or the view went all the way: the
    assignment has IDEs enabled, the caller is an admin or the assignment is
    released and within its grace window, and exactly the row [new_session]
    was persisted and submitted. *)
Lemma public_ide_initialize_store (ext : External) (request : Request)
    (a : Assignment.t) (w : World) :
  snd (public_ide_initialize ext request a w) = w
  ∨ ∃ repo_url,
      public_ide_initialize ext request a w
      = (Return (created_response ext (new_session ext request a w repo_url)),
         with_new_session (new_session ext request a w repo_url) w)
      ∧ Assignment.ide_enabled a = true
      ∧ (is_course_admin ext (Assignment.course_id a) (current_user_id request)
         = true
         ∨ ((Assignment.release_date a < clock w)%Z
            ∧ (clock w < Assignment.due_date a + timedelta_days 21)%Z)).
Proof.
  rewrite public_ide_initialize_unfold.
  destruct (Assignment.ide_enabled a); [|by left].
  destruct (active_session_of request (Assignment.id a) w) as [[i s]|];
    [by left|].
  destruct (fst (within_cooldown (last_session_of request w) w)) as [[|]|e];
    [by left| |by left].
  destruct (theia_starts_enabled ext w); [|by left].
  destruct (is_course_admin ext (Assignment.course_id a)
              (current_user_id request)) eqn:Hadmin; cbn [negb].
  - destruct (fst (resolve_repo_url request a w)) as [repo_url|e]; [|by left].
    right. exists repo_url. split_and!; [done|done|by left].
  - rewrite student_checks_cases.
    case_bool_decide as Hrel; [|by left].
    case_bool_decide as Hmax; [|by left].
    case_bool_decide as Hdue; [by left|].
    destruct (fst (resolve_repo_url request a w)) as [repo_url|e]; [|by left].
    right. exists repo_url. split_and!; [done|done|right; lia].
Qed.

(** A store is not itself with one more row. *)
Lemma not_one_more_row (w : World) (s : TheiaSession.t) :
  theia_session w ≠ (theia_session w ++ [s])%list.
Proof.
  intros Heq. apply (f_equal length) in Heq.
  rewrite length_app in Heq. simpl in Heq. lia.
Qed.

(** The row a run added, if it added one. *)
Lemma public_ide_initialize_new_row (ext : External) (request : Request)
    (a : Assignment.t) (w : World) (s : TheiaSession.t) :
  theia_session (snd (public_ide_initialize ext request a w))
  = (theia_session w ++ [s])%list →
  ∃ repo_url,
    s = new_session ext request a w repo_url
    ∧ public_ide_initialize ext request a w
      = (Return (created_response ext s), with_new_session s w).
Proof.
  intros Hrow.
  destruct (public_ide_initialize_store ext request a w)
    as [Hsame|(repo_url & Hrun & _)].
  - rewrite Hsame in Hrow. by destruct (not_one_more_row w s).
  - rewrite Hrun in Hrow. cbn [snd with_new_session log_backend_call
      set_theia_session theia_session] in Hrow.
    apply app_inv_head in Hrow. injection Hrow as <-.
    by exists repo_url.
Qed.

(** *** An active session is handed back *)




(** *** The cooldown *)

(** C1, as it is written, fails for a user who also has an active session
    for the assignment, for an assignment whose IDEs are switched off, and
    for a cooldown so long that a float cannot tell the last microsecond of
    it.  At 4.5s the last inactive session of [u1] kept a volume and ended
    half a second ago, within the default cooldown of one second; yet asking
    for [a1], for which [u1] has the running session [s1], hands that
    session back without any warning, and asking for an assignment without
    IDEs raises.  With a cooldown of 2 * 10^10 seconds, one microsecond
    before it is over [total_seconds()] is rounded up to 2 * 10^10: there is
    no warning, and the session is created. *)
Lemma initialize_cooldown_counterexample :
  last_session_of Sample.as_student Sample.cooling_with_running
  = Some Sample.ended_at_4s
  ∧ last_session_of Sample.as_student Sample.cooling = Some Sample.ended_at_4s
  ∧ last_session_of Sample.as_student Scenario.long_cooldown
    = Some Sample.ended_at_4s
  ∧ TheiaSession.persistent_storage Sample.ended_at_4s = true
  ∧ TheiaSession.ended Sample.ended_at_4s = Some 4000000%Z
  ∧ (clock Sample.cooling_with_running - 4000000
     < cooldown_seconds Sample.cooling_with_running * 1000000)%Z
  ∧ (clock Sample.cooling - 4000000
     < cooldown_seconds Sample.cooling * 1000000)%Z
  ∧ (clock Scenario.long_cooldown - 4000000
     < cooldown_seconds Scenario.long_cooldown * 1000000)%Z
  ∧ public_ide_initialize Sample.ext Sample.as_student Sample.a1
      Sample.cooling_with_running
    = (Return (success_response
                 [("active", VBool true);
                  ("session", VData Sample.running_data)]),
       Sample.cooling_with_running)
  ∧ public_ide_initialize Sample.ext Sample.as_student Sample.a1_ide_disabled
      Sample.cooling
    = (Raise (AssertError "IDEs are not enabled for this assignment"),
       Sample.cooling)
  ∧ Assignment.ide_enabled Scenario.a6 = true
  ∧ active_session_of Sample.as_student "a6" Scenario.long_cooldown = None
  ∧ fst (public_ide_initialize Sample.ext Sample.as_student Scenario.a6
           Scenario.long_cooldown)
    = Return (success_response
                [("active", VBool true);
                 ("session", VData (mkSessionData "Initializing" "s-new"));
                 ("status", VStr "Session created")]).
Proof.
  split_and!; vm_compute; reflexivity.
Qed.

(** C1, amended.  Take an assignment with IDEs enabled and a user without an
    active session for it, whose most recent inactive session (the row
    [last_session_of] finds, see [last_session_most_recent]) kept a volume
    and has its [ended] stamp, and a configured
    [THEIA_VOLUME_COOLDOWN_SECONDS] (1 when not configured) from 0 to 2^34.
    While less than that many seconds have passed since the stamp, the view
    answers with the warning to wait and leaves the store as it was.  Once
    that many seconds have passed, a request that is eligible otherwise
    creates a session: the answer is "Session created", one row is added,
    active and owned by the user, and it is submitted to the backend. *)
Theorem initialize_cooldown (ext : External) (request : Request)
    (a : Assignment.t) (w : World) (ls : TheiaSession.t) (e : Z) :
  Assignment.ide_enabled a = true →
  no_active_session request (Assignment.id a) w →
  last_session_of request w = Some ls →
  TheiaSession.persistent_storage ls = true →
  TheiaSession.ended ls = Some e →
  (0 ≤ cooldown_seconds w ≤ 2 ^ 34)%Z →
  ((clock w - e < cooldown_seconds w * 1000000)%Z →
   public_ide_initialize ext request a w
   = (Return (success_response
                [("status", VStr cooldown_status); ("variant", VStr "warning")]),
      w))
  ∧ ((cooldown_seconds w * 1000000 ≤ clock w - e)%Z →
     eligible ext request a w →
     ∃ s w',
       public_ide_initialize ext request a w
       = (Return (success_response
                    [("active", VBool true); ("session", VData (data ext s));
                     ("status", VStr "Session created")]),
          w')
       ∧ theia_session w' = (theia_session w ++ [s])%list
       ∧ backend_calls w' = (backend_calls w ++ [Submit (TheiaSession.id s)])%list
       ∧ TheiaSession.active s = true
       ∧ TheiaSession.owner_id s = current_user_id request
       ∧ TheiaSession.assignment_id s = Assignment.id a).
Proof.
  intros Hide Hnone%no_active_session_query Hlast Hp He Hbound.
  pose proof (within_cooldown_exact ls e w Hp He Hbound) as Hcool.
  split.
  - intros Hlt.
    rewrite public_ide_initialize_unfold, Hide, Hnone, Hlast, Hcool.
    by rewrite bool_decide_eq_true_2.
  - intros Hge (Hstarts & Hrole & Hrepo).
    destruct (resolve_repo_url_available request a w Hrepo) as [url Hurl].
    exists (new_session ext request a w url),
           (with_new_session (new_session ext request a w url) w).
    split_and!; try reflexivity.
    rewrite public_ide_initialize_unfold, Hide, Hnone, Hlast, Hcool.
    rewrite bool_decide_eq_false_2 by lia.
    rewrite Hstarts.
    destruct Hrole as [->|(Hrel & Hdue & Hmax)]; cbn [negb].
    + by rewrite Hurl.
    + destruct (is_course_admin _ _ _); cbn [negb].
      * by rewrite Hurl.
      * rewrite (student_checks_within a w Hrel Hdue Hmax). by rewrite Hurl.
Qed.

(** [u1] asks for [a1] half a second after the session ended, and again a
    full second after it ended. *)
Lemma initialize_cooldown_witness :
  public_ide_initialize Sample.ext Sample.as_student Sample.a1 Sample.cooling
  = (Return (success_response
               [("status", VStr cooldown_status); ("variant", VStr "warning")]),
     Sample.cooling)
  ∧ ∃ s w',
      public_ide_initialize Sample.ext Sample.as_student Sample.a1
        Sample.one_ended
      = (Return (success_response
                   [("active", VBool true);
                    ("session", VData (data Sample.ext s));
                    ("status", VStr "Session created")]),
         w')
      ∧ theia_session w' = (theia_session Sample.one_ended ++ [s])%list.
Proof.
  split.
  - apply (initialize_cooldown Sample.ext Sample.as_student Sample.a1
             Sample.cooling Sample.ended_at_4s 4000000).
    + reflexivity.
    + apply no_active_session_query. vm_compute. reflexivity.
    + vm_compute. reflexivity.
    + reflexivity.
    + reflexivity.
    + split; vm_compute; discriminate.
    + vm_compute. reflexivity.
  - destruct (initialize_cooldown Sample.ext Sample.as_student Sample.a1
                Sample.one_ended Sample.ended_at_4s 4000000)
      as [_ Hcreate].
    + reflexivity.
    + apply no_active_session_query. vm_compute. reflexivity.
    + vm_compute. reflexivity.
    + reflexivity.
    + reflexivity.
    + split; vm_compute; discriminate.
    + destruct Hcreate as (s & w' & Hrun & Hrows & _).
      * vm_compute. discriminate.
      * split; [reflexivity|].
        split; [right; split_and!; vm_compute; (reflexivity || discriminate)|].
        intros Hreq. vm_compute in Hreq. discriminate.
      * exists s, w'. split; [exact Hrun|exact Hrows].
Defined.

(** *** The grace window of three weeks *)

Lemma timedelta_three_weeks : timedelta_days (3 * 7) = 1814400000000%Z.
Proof. reflexivity. Qed.

(** C3, as it is written, fails when a precondition checked before the grace
    window fails.  Some 34 days after the epoch the student [u1] asks for
    assignments that were due after one second: with IDEs switched off for
    the assignment, with IDE starts switched off, and with a release date
    still ahead, the view raises the assertion error of that check. *)
Lemma initialize_past_grace_window_counterexample :
  is_course_admin Sample.ext "c1" (current_user_id Sample.as_student) = false
  ∧ (Assignment.due_date Sample.a2 + timedelta_days 21
     ≤ clock Sample.much_later)%Z
  ∧ (Assignment.due_date Sample.a3 + timedelta_days 21
     ≤ clock Sample.much_later)%Z
  ∧ fst (public_ide_initialize Sample.ext Sample.as_student
           Sample.a2_ide_disabled Sample.much_later)
    = Raise (AssertError "IDEs are not enabled for this assignment")
  ∧ fst (public_ide_initialize Sample.ext_starts_disabled Sample.as_student
           Sample.a2 Sample.much_later)
    = Raise (AssertError "Starting new IDEs is currently disabled.")
  ∧ fst (public_ide_initialize Sample.ext Sample.as_student Sample.a3
           Sample.much_later)
    = Raise (AssertError "Assignment has not been released").
Proof.
  split_and!; try reflexivity; vm_compute; discriminate.
Qed.

(** The cooldown check answers as long as the last session, if it kept a
    volume, has its [ended] stamp. *)
Lemma within_cooldown_answers (request : Request) (w : World) :
  (∀ ls, last_session_of request w = Some ls →
         TheiaSession.persistent_storage ls = true →
         TheiaSession.ended ls ≠ None) →
  ∃ b, fst (within_cooldown (last_session_of request w) w) = Return b.
Proof.
  intros Hended.
  destruct (last_session_of request w) as [ls|]; [|by exists false].
  specialize (Hended ls eq_refl). unfold within_cooldown.
  destruct (TheiaSession.persistent_storage ls); [|by exists false].
  destruct (TheiaSession.ended ls) as [e|]; [|by destruct (Hended eq_refl)].
  run_view. eauto.
Qed.

(** C3, amended.  When a user who is not a course admin asks for an
    assignment whose due date plus 21 days is at or before the current time,
    the store is left as it was: no session is created and nothing is
    submitted.  When the preconditions checked before the grace window hold
    (IDEs enabled for the assignment, IDE starts enabled, assignment
    released) and the last inactive session, if it kept a volume, has its
    [ended] stamp, the view does not raise: it returns the user's active
    session for the assignment if there is one, the warning of the cooldown
    if that is pending, and otherwise the error response with the message
    that IDEs are disabled. *)
Theorem initialize_past_grace_window (ext : External) (request : Request)
    (a : Assignment.t) (w : World) :
  is_course_admin ext (Assignment.course_id a) (current_user_id request)
  = false →
  (Assignment.due_date a + timedelta_days 21 ≤ clock w)%Z →
  snd (public_ide_initialize ext request a w) = w
  ∧ (Assignment.ide_enabled a = true →
     theia_starts_enabled ext w = true →
     (Assignment.release_date a < clock w)%Z →
     (∀ ls, last_session_of request w = Some ls →
            TheiaSession.persistent_storage ls = true →
            TheiaSession.ended ls ≠ None) →
     (∃ s, s ∈ theia_session w
           ∧ TheiaSession.owner_id s = current_user_id request
           ∧ TheiaSession.assignment_id s = Assignment.id a
           ∧ TheiaSession.active s = true
           ∧ fst (public_ide_initialize ext request a w)
             = Return (success_response
                         [("active", VBool true);
                          ("session", VData (data ext s))]))
     ∨ (fst (within_cooldown (last_session_of request w) w) = Return true
        ∧ fst (public_ide_initialize ext request a w)
          = Return (success_response
                      [("status", VStr cooldown_status);
                       ("variant", VStr "warning")]))
     ∨ (no_active_session request (Assignment.id a) w
        ∧ fst (within_cooldown (last_session_of request w) w) = Return false
        ∧ fst (public_ide_initialize ext request a w)
          = Return (error_response
                      "Assignment due date passed over 3 weeks ago. IDEs are disabled."))).
Proof.
  intros Hadmin Hdue. split.
  - destruct (public_ide_initialize_store ext request a w)
      as [Hsame|(url & _ & _ & [Hrole|[_ Hgrace]])]; [done|congruence|lia].
  - intros Hide Hstarts Hrel Hended.
    rewrite public_ide_initialize_unfold, Hide.
    destruct (active_session_of request (Assignment.id a) w) as [[i s]|]
      eqn:Hfind.
    + left. exists s.
      apply list_find_Some in Hfind as (Hi & (Hown & Has & Hact) & _).
      split_and!; [by eapply list_elem_of_lookup_2|done..|].
      unfold active_response. by rewrite Hact.
    + right. apply no_active_session_query in Hfind.
      destruct (within_cooldown_answers request w Hended) as [[|] Hcool];
        rewrite Hcool.
      * by left.
      * right. split_and!; [done..|].
        rewrite Hstarts, Hadmin. cbn [negb].
        by rewrite (student_checks_expired a w Hrel Hdue).
Qed.

(** The student [u1] asks, some 34 days after the epoch, for [a2], which was
    due after one second. *)
Lemma initialize_past_grace_window_witness :
  snd (public_ide_initialize Sample.ext Sample.as_student Sample.a2
         Sample.much_later) = Sample.much_later
  ∧ fst (public_ide_initialize Sample.ext Sample.as_student Sample.a2
           Sample.much_later)
    = Return (error_response
                "Assignment due date passed over 3 weeks ago. IDEs are disabled.").
Proof.
  destruct (initialize_past_grace_window Sample.ext Sample.as_student
              Sample.a2 Sample.much_later) as [Hstore Hanswer].
  - reflexivity.
  - vm_compute. discriminate.
  - split; [exact Hstore|].
    destruct Hanswer as [(s & _ & _ & Has & _)|[[Hcool _]|(_ & _ & Hrun)]].
    + reflexivity.
    + reflexivity.
    + reflexivity.
    + intros ls Hls _. vm_compute in Hls. injection Hls as <-. discriminate.
    + reflexivity.
    + vm_compute in Hcool. discriminate.
    + exact Hrun.
Defined.

(** *** Course admins *)

(** C8.  For a caller who is an admin of the assignment's course the release
    date and the due date play no part: the run is the same whatever the two
    dates are.  Every row such a run adds has the network policy "admin",
    whatever the options of the assignment say.  And the run does add a row
    as soon as the checks made for everyone pass, released or not, due or
    not. *)
Theorem initialize_admin (ext : External) (request : Request)
    (a : Assignment.t) (w : World) :
  is_course_admin ext (Assignment.course_id a) (current_user_id request)
  = true →
  (∀ release due,
     public_ide_initialize ext request (Assignment.set_dates release due a) w
     = public_ide_initialize ext request a w)
  ∧ (∀ options s,
       theia_session
         (snd (public_ide_initialize ext request
                 (Assignment.set_theia_options options a) w))
       = (theia_session w ++ [s])%list →
       TheiaSession.network_policy s = "admin")
  ∧ (Assignment.ide_enabled a = true →
     no_active_session request (Assignment.id a) w →
     fst (within_cooldown (last_session_of request w) w) = Return false →
     theia_starts_enabled ext w = true →
     (Assignment.github_repo_required a = true →
      User.github_username (current_user request) ≠ None
      ∧ repo_of request (Assignment.id a) w ≠ None) →
     ∃ s w',
       public_ide_initialize ext request a w
       = (Return (success_response
                    [("active", VBool true); ("session", VData (data ext s));
                     ("status", VStr "Session created")]),
          w')
       ∧ theia_session w' = (theia_session w ++ [s])%list
       ∧ TheiaSession.network_policy s = "admin").
Proof.
  intros Hadmin. split_and!.
  - intros release due. rewrite !public_ide_initialize_unfold.
    cbn [Assignment.set_dates Assignment.id Assignment.course_id
         Assignment.ide_enabled].
    rewrite Hadmin. cbn [negb]. reflexivity.
  - intros options s Hrow.
    destruct (public_ide_initialize_new_row _ _ _ _ _ Hrow) as (url & -> & _).
    unfold new_session.
    cbn [TheiaSession.network_policy Assignment.set_theia_options
         Assignment.course_id].
    by rewrite Hadmin.
  - intros Hide Hnone%no_active_session_query Hcool Hstarts Hrepo.
    destruct (resolve_repo_url_available request a w Hrepo) as [url Hurl].
    exists (new_session ext request a w url),
           (with_new_session (new_session ext request a w url) w).
    split_and!; [|reflexivity|].
    + rewrite public_ide_initialize_unfold, Hide, Hnone, Hcool, Hstarts, Hadmin.
      cbn [negb]. by rewrite Hurl.
    + unfold new_session. cbn [TheiaSession.network_policy]. by rewrite Hadmin.
Qed.

(** The teaching assistant asks, some 34 days after the epoch, for [a3]:
    not released yet, due long ago, student policy in its options. *)
Lemma initialize_admin_witness :
  (clock Sample.much_later < Assignment.release_date Sample.a3)%Z
  ∧ (Assignment.due_date Sample.a3 + timedelta_days 21
     ≤ clock Sample.much_later)%Z
  ∧ Assignment.theia_options Sample.a3 !! "network_policy" = Some "os-student"
  ∧ ∃ s w',
      public_ide_initialize Sample.ext Sample.as_ta Sample.a3 Sample.much_later
      = (Return (success_response
                   [("active", VBool true);
                    ("session", VData (data Sample.ext s));
                    ("status", VStr "Session created")]),
         w')
      ∧ theia_session w' = (theia_session Sample.much_later ++ [s])%list
      ∧ TheiaSession.network_policy s = "admin".
Proof.
  split; [reflexivity|]. split; [vm_compute; discriminate|].
  split; [vm_compute; reflexivity|].
  destruct (initialize_admin Sample.ext Sample.as_ta Sample.a3
              Sample.much_later) as (_ & _ & Hcreate).
  - reflexivity.
  - apply Hcreate.
    + reflexivity.
    + apply no_active_session_query. vm_compute. reflexivity.
    + vm_compute. reflexivity.
    + reflexivity.
    + intros Hreq. vm_compute in Hreq. discriminate.
Defined.

(** *** The flags of the query string *)

Lemma flag_true (l : list (string * string)) (key : string) :
  String.eqb (args_get l key "true") "true" = true
  ↔ args_lookup l key = None ∨ args_lookup l key = Some "true".
Proof.
  unfold args_get. rewrite String.eqb_eq.
  destruct (args_lookup l key) as [v|]; simpl.
  - split; [intros ->; by right|]. by intros [?|[= ->]].
  - split; [by left|done].
Qed.

(** What the lookup finds, in terms of the pairs of the query string:
    nothing when no pair has the key, and otherwise the value of the first
    pair that has it. *)
Lemma args_lookup_None (l : list (string * string)) (key : string) :
  args_lookup l key = None ↔ ∀ v, (key, v) ∉ l.
Proof.
  induction l as [|[k v] l IH]; simpl.
  - split; [intros _ v Hin; inversion Hin|done].
  - destruct (String.eqb_spec k key) as [->|Hne].
    + split; [done|]. intros Hnone. destruct (Hnone v). left.
    + rewrite IH. split.
      * intros Hnone v' [[=]|Hin]%elem_of_cons; [congruence|by apply (Hnone v')].
      * intros Hnone v' Hin. apply (Hnone v'). by right.
Qed.

Lemma args_lookup_Some (l : list (string * string)) (key v : string) :
  args_lookup l key = Some v
  ↔ ∃ l1 l2, l = (l1 ++ (key, v) :: l2)%list ∧ ∀ v', (key, v') ∉ l1.
Proof.
  induction l as [|[k v0] l IH]; simpl.
  - split; [done|]. intros (l1 & l2 & Heq & _). by destruct l1.
  - destruct (String.eqb_spec k key) as [->|Hne].
    + split.
      * intros [= ->]. exists [], l. split; [done|]. intros v' Hin. inversion Hin.
      * intros (l1 & l2 & Heq & Hl1). destruct l1 as [|[k1 v1] l1].
        -- by injection Heq as ->.
        -- injection Heq as <- <- _. destruct (Hl1 v0). left.
    + rewrite IH. split.
      * intros (l1 & l2 & -> & Hl1). exists ((k, v0) :: l1), l2.
        split; [done|].
        intros v' [[=]|Hin]%elem_of_cons; [congruence|by apply (Hl1 v')].
      * intros (l1 & l2 & Heq & Hl1). destruct l1 as [|[k1 v1] l1].
        -- injection Heq as -> _. done.
        -- injection Heq as <- <- ->. exists l1, l2. split; [done|].
           intros v' Hin. apply (Hl1 v'). by right.
Qed.

(** The flag is on exactly when the query string has no pair for the key or
    the first pair for the key has the value "true". *)
Lemma flag_pairs (l : list (string * string)) (key : string) :
  String.eqb (args_get l key "true") "true" = true
  ↔ (∀ v, (key, v) ∉ l)
    ∨ ∃ l1 l2, l = (l1 ++ (key, "true") :: l2)%list ∧ ∀ v, (key, v) ∉ l1.
Proof. by rewrite flag_true, args_lookup_None, args_lookup_Some. Qed.

(** Any other first value switches the flag off. *)
Lemma flag_other (l l1 l2 : list (string * string)) (key v : string) :
  v ≠ "true" →
  l = (l1 ++ (key, v) :: l2)%list →
  (∀ v', (key, v') ∉ l1) →
  String.eqb (args_get l key "true") "true" = false.
Proof.
  intros Hv Heq Hl1. unfold args_get.
  rewrite (proj2 (args_lookup_Some l key v)) by by exists l1, l2.
  by apply String.eqb_neq.
Qed.

(** C9.  In every row the view creates, [autosave] is true exactly when the
    query string has no pair for "autosave" or the first pair it has for
    "autosave" carries the string "true", and likewise
    [persistent_storage]; any other first value ("True", "1", "yes", ...)
    makes the flag false. *)
Theorem initialize_query_flags (ext : External) (request : Request)
    (a : Assignment.t) (w : World) (s : TheiaSession.t) :
  theia_session (snd (public_ide_initialize ext request a w))
  = (theia_session w ++ [s])%list →
  (TheiaSession.autosave s = true
   ↔ (∀ v, ("autosave", v) ∉ args request)
     ∨ ∃ l1 l2, args request = (l1 ++ ("autosave", "true") :: l2)%list
                ∧ ∀ v, ("autosave", v) ∉ l1)
  ∧ (TheiaSession.persistent_storage s = true
     ↔ (∀ v, ("persistent_storage", v) ∉ args request)
       ∨ ∃ l1 l2,
           args request = (l1 ++ ("persistent_storage", "true") :: l2)%list
           ∧ ∀ v, ("persistent_storage", v) ∉ l1)
  ∧ (∀ v l1 l2,
       v ≠ "true" →
       (args request = (l1 ++ ("autosave", v) :: l2)%list →
        (∀ v', ("autosave", v') ∉ l1) →
        TheiaSession.autosave s = false)
       ∧ (args request = (l1 ++ ("persistent_storage", v) :: l2)%list →
          (∀ v', ("persistent_storage", v') ∉ l1) →
          TheiaSession.persistent_storage s = false)).
Proof.
  intros Hrow.
  destruct (public_ide_initialize_new_row _ _ _ _ _ Hrow) as (url & -> & _).
  unfold new_session.
  cbn [TheiaSession.autosave TheiaSession.persistent_storage].
  split_and!; [apply flag_pairs..|].
  intros v l1 l2 Hv. split; intros Heq Hl1; by eapply flag_other.
Qed.

(** [u1] asks for [a1] with
    [?persistent_storage=false&autosave=true&autosave=no]: the row has
    [autosave], by the first of its two values, and no persistent storage.
    With [?persistent_storage=false&autosave=false] it has neither. *)
Lemma initialize_query_flags_witness :
  (∃ s,
     theia_session
       (snd (public_ide_initialize Sample.ext Scenario.as_student_flags
               Sample.a1 Sample.one_ended))
     = (theia_session Sample.one_ended ++ [s])%list
     ∧ TheiaSession.autosave s = true
     ∧ TheiaSession.persistent_storage s = false)
  ∧ ∃ s,
      theia_session
        (snd (public_ide_initialize Sample.ext Scenario.as_student_no_flags
                Sample.a1 Sample.one_ended))
      = (theia_session Sample.one_ended ++ [s])%list
      ∧ TheiaSession.autosave s = false
      ∧ TheiaSession.persistent_storage s = false.
Proof.
  split.
  - exists (new_session Sample.ext Scenario.as_student_flags Sample.a1
              Sample.one_ended "").
    assert (theia_session
              (snd (public_ide_initialize Sample.ext Scenario.as_student_flags
                      Sample.a1 Sample.one_ended))
            = (theia_session Sample.one_ended
               ++ [new_session Sample.ext Scenario.as_student_flags
                     Sample.a1 Sample.one_ended ""])%list) as Hrow.
    { vm_compute. reflexivity. }
    destruct (initialize_query_flags Sample.ext Scenario.as_student_flags
                Sample.a1 Sample.one_ended _ Hrow) as (Hautosave & _ & Hother).
    split; [exact Hrow|]. split.
    + apply Hautosave. right.
      exists [("persistent_storage", "false")], [("autosave", "no")].
      split; [reflexivity|].
      intros v [[=]|Hin]%elem_of_cons. inversion Hin.
    + destruct (Hother "false" [] [("autosave", "true"); ("autosave", "no")])
        as [_ Hstorage]; [discriminate|].
      apply Hstorage; [reflexivity|]. intros v Hin. inversion Hin.
  - exists (new_session Sample.ext Scenario.as_student_no_flags Sample.a1
              Sample.one_ended "").
    assert (theia_session
              (snd (public_ide_initialize Sample.ext
                      Scenario.as_student_no_flags Sample.a1 Sample.one_ended))
            = (theia_session Sample.one_ended
               ++ [new_session Sample.ext Scenario.as_student_no_flags
                     Sample.a1 Sample.one_ended ""])%list) as Hrow.
    { vm_compute. reflexivity. }
    destruct (initialize_query_flags Sample.ext Scenario.as_student_no_flags
                Sample.a1 Sample.one_ended _ Hrow) as (_ & _ & Hother).
    split; [exact Hrow|]. split.
    + destruct (Hother "false" [("persistent_storage", "false")] [])
        as [Hautosave _]; [discriminate|].
      apply Hautosave; [reflexivity|].
      intros v [[=]|Hin]%elem_of_cons. inversion Hin.
    + destruct (Hother "false" [] [("autosave", "false")])
        as [_ Hstorage]; [discriminate|].
      apply Hstorage; [reflexivity|]. intros v Hin. inversion Hin.
Defined.

(** * Further properties of the views *)

(** ** [public_ide_active] *)

Lemma active_session_for_of (request : Request) (assignment_id : string)
    (w : World) :
  active_session_for request assignment_id w
  = active_session_of request assignment_id w.
Proof.
  unfold active_session_for, active_session_of.
  apply list_find_ext. intros s. tauto.
Qed.

Lemma public_ide_active_unfold (ext : External) (request : Request)
    (assignment_id : string) (w : World) :
  public_ide_active ext request assignment_id w =
    match active_session_of request assignment_id w with
    | Some (_, s) =>
      (Return (success_response
                 [("active", VBool true); ("session", VData (data ext s))]), w)
    | None => (Return (success_response [("active", VBool false)]), w)
    end.
Proof.
  unfold public_ide_active. run_view. rewrite active_session_for_of.
  by destruct (active_session_of request assignment_id w) as [[i s]|].
Qed.

(** X1.  [public_ide_active] only reads the store.  It answers
    [active = False] exactly when the user has no active session for the
    assignment, and otherwise it answers with the data of an active session
    that belongs to the user and to that assignment: never a session of
    somebody else, of another assignment, or an ended one. *)
Theorem active_reports_own_active_session (ext : External) (request : Request)
    (assignment_id : string) (w : World) :
  snd (public_ide_active ext request assignment_id w) = w
  ∧ ((no_active_session request assignment_id w
      ∧ fst (public_ide_active ext request assignment_id w)
        = Return (success_response [("active", VBool false)]))
     ∨ (∃ s, s ∈ theia_session w
             ∧ TheiaSession.owner_id s = current_user_id request
             ∧ TheiaSession.assignment_id s = assignment_id
             ∧ TheiaSession.active s = true
             ∧ fst (public_ide_active ext request assignment_id w)
               = Return (success_response
                           [("active", VBool true);
                            ("session", VData (data ext s))]))).
Proof.
  rewrite public_ide_active_unfold.
  destruct (active_session_of request assignment_id w) as [[i s]|] eqn:Hfind.
  - split; [done|]. right. exists s.
    apply list_find_Some in Hfind as (Hi & (Hown & Has & Hact) & _).
    split_and!; [by eapply list_elem_of_lookup_2|done..].
  - split; [done|]. left. by rewrite no_active_session_query.
Qed.

(** X2.  On an assignment with IDEs enabled, whenever [public_ide_active]
    reports an active session, [public_ide_initialize] gives the very same
    answer and leaves the store as it was. *)
Theorem initialize_agrees_with_active (ext : External) (request : Request)
    (a : Assignment.t) (w : World) :
  Assignment.ide_enabled a = true →
  fst (public_ide_active ext request (Assignment.id a) w)
  ≠ Return (success_response [("active", VBool false)]) →
  public_ide_initialize ext request a w
  = public_ide_active ext request (Assignment.id a) w.
Proof.
  intros Hide Hactive. revert Hactive.
  rewrite public_ide_initialize_unfold, public_ide_active_unfold, Hide.
  destruct (active_session_of request (Assignment.id a) w) as [[i s]|] eqn:Hfind;
    [|done].
  intros _. apply list_find_Some in Hfind as (_ & (_ & _ & Hact) & _).
  unfold active_response. by rewrite Hact.
Qed.

(** [u1], with the running session [s1] for [a1]. *)
Lemma initialize_agrees_with_active_witness :
  public_ide_initialize Sample.ext Sample.as_student Sample.a1
    Sample.one_running
  = public_ide_active Sample.ext Sample.as_student "a1" Sample.one_running
  ∧ fst (public_ide_active Sample.ext Sample.as_student "a1" Sample.one_running)
    = Return (success_response
                [("active", VBool true);
                 ("session", VData Sample.running_data)]).
Proof.
  split; [|reflexivity].
  apply (initialize_agrees_with_active Sample.ext Sample.as_student Sample.a1
           Sample.one_running).
  - reflexivity.
  - vm_compute. discriminate.
Defined.

(** What it takes for a run of [public_ide_initialize] to add a row. *)
Lemma public_ide_initialize_new_row_checks (ext : External) (request : Request)
    (a : Assignment.t) (w : World) (s : TheiaSession.t) :
  theia_session (snd (public_ide_initialize ext request a w))
  = (theia_session w ++ [s])%list →
  passes_common_checks ext request a w
  ∧ passes_role_checks ext request a w
  ∧ ∃ repo_url,
      fst (resolve_repo_url request a w) = Return repo_url
      ∧ s = new_session ext request a w repo_url.
Proof.
  unfold passes_common_checks, passes_role_checks.
  rewrite public_ide_initialize_unfold, no_active_session_query.
  destruct (Assignment.ide_enabled a);
    [|intros Hrow; by destruct (not_one_more_row w s)].
  destruct (active_session_of request (Assignment.id a) w) as [[i s0]|];
    [intros Hrow; by destruct (not_one_more_row w s)|].
  destruct (fst (within_cooldown (last_session_of request w) w)) as [[|]|e];
    try (intros Hrow; by destruct (not_one_more_row w s)).
  destruct (theia_starts_enabled ext w);
    [|intros Hrow; by destruct (not_one_more_row w s)].
  assert (∀ url,
    theia_session (with_new_session (new_session ext request a w url) w)
    = (theia_session w ++ [s])%list →
    s = new_session ext request a w url) as Hnew.
  { intros url Hrow. cbn [with_new_session log_backend_call
      set_theia_session theia_session] in Hrow.
    apply app_inv_head in Hrow. by injection Hrow. }
  destruct (is_course_admin ext (Assignment.course_id a)
              (current_user_id request)); cbn [negb].
  - destruct (fst (resolve_repo_url request a w)) as [url|e];
      [|intros Hrow; by destruct (not_one_more_row w s)].
    intros Hrow%Hnew. split_and!; try done; [by left|by exists url].
  - rewrite student_checks_cases.
    case_bool_decide as Hrel;
      [|intros Hrow; by destruct (not_one_more_row w s)].
    case_bool_decide as Hmax;
      [|intros Hrow; by destruct (not_one_more_row w s)].
    case_bool_decide as Hdue;
      [intros Hrow; by destruct (not_one_more_row w s)|].
    destruct (fst (resolve_repo_url request a w)) as [url|e];
      [|intros Hrow; by destruct (not_one_more_row w s)].
    intros Hrow%Hnew. split_and!; try done; [right; lia|by exists url].
Qed.

(** X3.  Once [public_ide_initialize] has created a session,
    [public_ide_active] for the same assignment reports exactly that
    session, on the store the creation left. *)
Theorem active_after_initialize (ext : External) (request : Request)
    (a : Assignment.t) (w : World) (s : TheiaSession.t) :
  theia_session (snd (public_ide_initialize ext request a w))
  = (theia_session w ++ [s])%list →
  public_ide_active ext request (Assignment.id a)
    (snd (public_ide_initialize ext request a w))
  = (Return (success_response
               [("active", VBool true); ("session", VData (data ext s))]),
     snd (public_ide_initialize ext request a w)).
Proof.
  intros Hrow.
  destruct (public_ide_initialize_new_row_checks _ _ _ _ _ Hrow)
    as ((_ & Hnone%no_active_session_query & _) & _ & url & _ & Hs).
  rewrite public_ide_active_unfold. unfold active_session_of in *.
  rewrite Hrow, (list_find_app_r _ _ _ Hnone). simpl.
  rewrite decide_True; [done|]. by rewrite Hs.
Qed.

(** [u1] creates a session for [a1] and asks whether one is active. *)
Lemma active_after_initialize_witness :
  ∃ s,
    theia_session
      (snd (public_ide_initialize Sample.ext Sample.as_student Sample.a1
              Sample.one_ended))
    = (theia_session Sample.one_ended ++ [s])%list
    ∧ fst (public_ide_active Sample.ext Sample.as_student "a1"
             (snd (public_ide_initialize Sample.ext Sample.as_student
                     Sample.a1 Sample.one_ended)))
      = Return (success_response
                  [("active", VBool true);
                   ("session", VData (data Sample.ext s))]).
Proof.
  exists (new_session Sample.ext Sample.as_student Sample.a1 Sample.one_ended "").
  assert (theia_session
            (snd (public_ide_initialize Sample.ext Sample.as_student Sample.a1
                    Sample.one_ended))
          = (theia_session Sample.one_ended
             ++ [new_session Sample.ext Sample.as_student Sample.a1
                   Sample.one_ended ""])%list) as Hrow.
  { vm_compute. reflexivity. }
  split; [exact Hrow|].
  exact (f_equal fst
           (active_after_initialize Sample.ext Sample.as_student Sample.a1
              Sample.one_ended _ Hrow)).
Defined.

(** ** [public_ide_stop], [public_ide_redirect_url] and the table *)

(** The store a stop leaves: unchanged when the session is not found. *)
Lemma public_ide_stop_table (request : Request) (sid : string) (w : World) :
  match owned_session_of request sid w with
  | Some (i, s) =>
    theia_session (snd (public_ide_stop request sid w))
    = <[i := stopped (clock w) s]> (theia_session w)
  | None => snd (public_ide_stop request sid w) = w
  end.
Proof.
  destruct (owned_session_of request sid w) as [[i s]|] eqn:Hfind.
  - by rewrite (public_ide_stop_found _ _ _ _ _ Hfind).
  - by rewrite (public_ide_stop_not_found _ _ _ Hfind).
Qed.

(** The stop succeeds exactly when its lookup finds a row. *)
Lemma public_ide_stop_returns (request : Request) (sid : string) (w : World)
    (r : Response) :
  fst (public_ide_stop request sid w) = Return r →
  ∃ i s, owned_session_of request sid w = Some (i, s).
Proof.
  destruct (owned_session_of request sid w) as [[i s]|] eqn:Hfind; [eauto|].
  by rewrite (public_ide_stop_not_found _ _ _ Hfind).
Qed.

(** The row a stop wrote is the one its lookup finds afterwards. *)
Lemma owned_session_after_stop (request : Request) (sid : string) (w : World)
    (i : nat) (s : TheiaSession.t) :
  owned_session_of request sid w = Some (i, s) →
  owned_session_of request sid (snd (public_ide_stop request sid w))
  = Some (i, stopped (clock w) s).
Proof.
  intros Hfind. pose proof (public_ide_stop_table request sid w) as Htable.
  rewrite Hfind in Htable. unfold owned_session_of in *. rewrite Htable.
  apply list_find_Some in Hfind as (Hi & HP & Hleast).
  apply list_find_Some. split; [|split].
  - apply list_lookup_insert_eq. by eapply lookup_lt_Some.
  - exact HP.
  - intros j y Hj Hlt. rewrite list_lookup_insert_ne in Hj by lia.
    by apply (Hleast j).
Qed.

Lemma public_ide_redirect_url_unfold (f : string → string → string)
    (request : Request) (sid : string) (w : World) :
  public_ide_redirect_url request f sid w =
    match owned_session_of request sid w with
    | Some (_, s) =>
      (Return (success_response
                 [("redirect",
                   VStr (f (TheiaSession.id s)
                           (User.netid (current_user request))))]), w)
    | None => (Raise (AssertError "session does not exist"), w)
    end.
Proof.
  unfold public_ide_redirect_url. run_view.
  by destruct (owned_session_of request sid w) as [[i s]|].
Qed.

(** X4.  After a user stopped the active session they had for an assignment
    (the table keeping its key and at most one active session per user and
    assignment), [public_ide_active] for that assignment answers
    [active = False]. *)
Theorem active_after_stop (ext : External) (request : Request) (sid : string)
    (w : World) (s : TheiaSession.t) :
  primary_key (theia_session w) →
  unique_active (theia_session w) →
  s ∈ theia_session w →
  TheiaSession.id s = sid →
  TheiaSession.owner_id s = current_user_id request →
  TheiaSession.active s = true →
  fst (public_ide_active ext request (TheiaSession.assignment_id s)
         (snd (public_ide_stop request sid w)))
  = Return (success_response [("active", VBool false)]).
Proof.
  intros Hkey Huniq Hin Hid Hown Hact.
  destruct (owned_session_by_key request sid w s Hkey Hin Hid Hown)
    as (i & Hi & Hfind).
  pose proof (public_ide_stop_table request sid w) as Htable.
  rewrite Hfind in Htable.
  rewrite public_ide_active_unfold.
  assert (active_session_of request (TheiaSession.assignment_id s)
            (snd (public_ide_stop request sid w)) = None) as ->; [|done].
  unfold active_session_of. rewrite Htable.
  apply list_find_None, Forall_lookup. intros j t Hj (Hto & Hta & Htact).
  apply list_lookup_insert_Some in Hj as [(_ & <- & _)|[Hne Hj]].
  - done.
  - apply Hne. apply (Huniq i j s t); congruence.
Qed.

(** [u1] stops the running session [s1] and asks about [a1]. *)
Lemma active_after_stop_witness :
  fst (public_ide_active Sample.ext Sample.as_student "a1" Sample.one_running)
  = Return (success_response
              [("active", VBool true); ("session", VData Sample.running_data)])
  ∧ fst (public_ide_active Sample.ext Sample.as_student "a1"
           (snd (public_ide_stop Sample.as_student "s1" Sample.one_running)))
    = Return (success_response [("active", VBool false)]).
Proof.
  split; [reflexivity|].
  apply (active_after_stop Sample.ext Sample.as_student "s1"
           Sample.one_running Sample.running).
  - vm_compute. apply NoDup_cons. split; [inversion 1|apply NoDup_nil_2].
  - intros [|[|i]] [|[|j]] s t Hs Ht; try discriminate Hs; try discriminate Ht.
    reflexivity.
  - apply list_elem_of_In. simpl. by left.
  - reflexivity.
  - reflexivity.
  - reflexivity.
Defined.

(** X5.  [public_ide_redirect_url] only reads the store.  It fails with
    "session does not exist" exactly when no row has both the id asked for
    and the user as owner, and otherwise answers with the url built from
    that id and the netid of the user; it accepts exactly the requests that
    [public_ide_stop] accepts. *)
Theorem redirect_url_own_session_only (f : string → string → string)
    (request : Request) (sid : string) (w : World) :
  snd (public_ide_redirect_url request f sid w) = w
  ∧ (((∀ s, s ∈ theia_session w → TheiaSession.id s = sid →
            TheiaSession.owner_id s ≠ current_user_id request)
      ∧ fst (public_ide_redirect_url request f sid w)
        = Raise (AssertError "session does not exist"))
     ∨ ((∃ s, s ∈ theia_session w ∧ TheiaSession.id s = sid
              ∧ TheiaSession.owner_id s = current_user_id request)
        ∧ fst (public_ide_redirect_url request f sid w)
          = Return (success_response
                      [("redirect",
                        VStr (f sid (User.netid (current_user request))))])))
  ∧ ((∃ r, fst (public_ide_redirect_url request f sid w) = Return r)
     ↔ (∃ r, fst (public_ide_stop request sid w) = Return r)).
Proof.
  rewrite public_ide_redirect_url_unfold.
  destruct (owned_session_of request sid w) as [[i s]|] eqn:Hfind.
  - rewrite (public_ide_stop_found _ _ _ _ _ Hfind).
    apply list_find_Some in Hfind as (Hi & (Hid & Hown) & _).
    split_and!; [done| |split; eauto].
    right. split; [|cbn [fst]; by rewrite Hid].
    exists s. split_and!; [by eapply list_elem_of_lookup_2|done..].
  - rewrite (public_ide_stop_not_found _ _ _ Hfind).
    split_and!; [done| |split; intros [r [=]]].
    left. split; [|done].
    apply list_find_None in Hfind. rewrite Forall_forall in Hfind.
    intros s Hs Hid Hown. by apply (Hfind s Hs).
Qed.

(** X6.  A session the user has just stopped can still be redirected to:
    the lookup of [public_ide_redirect_url] does not look at [active]. *)
Theorem redirect_url_after_stop (f : string → string → string)
    (request : Request) (sid : string) (w : World) (r : Response) :
  fst (public_ide_stop request sid w) = Return r →
  fst (public_ide_redirect_url request f sid
         (snd (public_ide_stop request sid w)))
  = Return (success_response
              [("redirect", VStr (f sid (User.netid (current_user request))))]).
Proof.
  intros (i & s & Hfind)%public_ide_stop_returns.
  rewrite public_ide_redirect_url_unfold,
    (owned_session_after_stop _ _ _ _ _ Hfind).
  apply list_find_Some in Hfind as (_ & (Hid & _) & _).
  cbn [fst stopped TheiaSession.set_state TheiaSession.set_ended
       TheiaSession.set_active TheiaSession.id].
  by rewrite Hid.
Qed.

(** [u1] stops [s1] and asks for its url. *)
Lemma redirect_url_after_stop_witness :
  fst (public_ide_redirect_url Sample.as_student (λ sid netid, sid ++ "@" ++ netid)
         "s1" (snd (public_ide_stop Sample.as_student "s1" Sample.one_running)))
  = Return (success_response [("redirect", VStr "s1@jd1")]).
Proof.
  apply (redirect_url_after_stop (λ sid netid, sid ++ "@" ++ netid)
           Sample.as_student "s1" Sample.one_running
           (success_response
              [("status", VStr "Session stopped."); ("variant", VStr "warning")])).
  reflexivity.
Defined.

(** X7.  A successful stop writes one row and nothing else: that row keeps
    its id, its owner, its creation time and its whole configuration, every
    other row is as it was, no row is added or removed, and the clock, the
    configuration, the repositories and the calls to the backend are
    untouched. *)
Theorem stop_touches_one_row (request : Request) (sid : string) (w : World)
    (r : Response) :
  fst (public_ide_stop request sid w) = Return r →
  let w' := snd (public_ide_stop request sid w) in
  ∃ i s s',
    theia_session w !! i = Some s
    ∧ theia_session w' !! i = Some s'
    ∧ TheiaSession.id s = sid
    ∧ TheiaSession.owner_id s = current_user_id request
    ∧ TheiaSession.set_state (TheiaSession.state s)
        (TheiaSession.set_ended (TheiaSession.ended s)
           (TheiaSession.set_active (TheiaSession.active s) s'))
      = s
    ∧ (∀ j, j ≠ i → theia_session w' !! j = theia_session w !! j)
    ∧ length (theia_session w') = length (theia_session w)
    ∧ clock w' = clock w
    ∧ config w' = config w
    ∧ assignment_repo w' = assignment_repo w
    ∧ backend_calls w' = backend_calls w.
Proof.
  intros (i & s & Hfind)%public_ide_stop_returns w'. subst w'.
  rewrite (public_ide_stop_found _ _ _ _ _ Hfind). cbn [snd theia_session
    clock config assignment_repo backend_calls].
  apply list_find_Some in Hfind as (Hi & (Hid & Hown) & _).
  exists i, s, (stopped (clock w) s).
  split_and!; try done.
  - apply list_lookup_insert_eq. by eapply lookup_lt_Some.
  - by destruct s.
  - intros j Hne. by apply list_lookup_insert_ne.
  - apply length_insert.
Qed.

(** [u1] stops [s1]. *)
Lemma stop_touches_one_row_witness :
  length (theia_session
            (snd (public_ide_stop Sample.as_student "s1"
                    Sample.cooling_with_running)))
  = 2%nat
  ∧ theia_session
      (snd (public_ide_stop Sample.as_student "s1" Sample.cooling_with_running))
      !! 0%nat
    = Some Sample.ended_at_4s.
Proof.
  destruct (stop_touches_one_row Sample.as_student "s1"
              Sample.cooling_with_running
              (success_response
                 [("status", VStr "Session stopped.");
                  ("variant", VStr "warning")]) eq_refl)
    as (i & s & s' & Hi & _ & Hid & _ & _ & Hothers & Hlen & _).
  split; [exact Hlen|].
  destruct i as [|[|i]].
  - vm_compute in Hi. injection Hi as <-. vm_compute in Hid. discriminate.
  - apply (Hothers 0%nat). discriminate.
  - vm_compute in Hi. discriminate.
Defined.

(** Writing a row that is not active keeps the table free of double active
    sessions. *)
Lemma unique_active_insert_inactive (table : list TheiaSession.t) (i : nat)
    (s : TheiaSession.t) :
  TheiaSession.active s = false →
  unique_active table → unique_active (<[i := s]> table).
Proof.
  intros Hinactive Huniq j k x y Hj Hk Hx Hy Hown Has.
  apply list_lookup_insert_Some in Hj as [(_ & <- & _)|[_ Hj]]; [congruence|].
  apply list_lookup_insert_Some in Hk as [(_ & <- & _)|[_ Hk]]; [congruence|].
  by apply (Huniq j k x y).
Qed.

(** X8.  [public_ide_stop] keeps the table well formed, whether it finds the
    session or not: ids stay unique, and a table with at most one active
    session per user and assignment stays so. *)
Theorem stop_keeps_table_invariants (request : Request) (sid : string)
    (w : World) :
  (primary_key (theia_session w) →
   primary_key (theia_session (snd (public_ide_stop request sid w))))
  ∧ (unique_active (theia_session w) →
     unique_active (theia_session (snd (public_ide_stop request sid w)))).
Proof.
  pose proof (public_ide_stop_table request sid w) as Htable.
  destruct (owned_session_of request sid w) as [[i s]|] eqn:Hfind;
    rewrite Htable; [|done].
  apply list_find_Some in Hfind as (Hi & _ & _).
  split; intros Hinv.
  - by apply primary_key_stopped.
  - by apply unique_active_insert_inactive.
Qed.

(** The two sessions of [u1], one of them active. *)
Lemma stop_keeps_table_invariants_witness :
  primary_key (theia_session Sample.cooling_with_running)
  ∧ primary_key
      (theia_session
         (snd (public_ide_stop Sample.as_student "s1"
                 Sample.cooling_with_running))).
Proof.
  assert (primary_key (theia_session Sample.cooling_with_running)) as Hkey.
  { vm_compute. apply NoDup_cons. split.
    - intros [H|H]%elem_of_cons; [discriminate H|inversion H].
    - apply NoDup_cons. split; [inversion 1|apply NoDup_nil_2]. }
  split; [exact Hkey|].
  by apply (stop_keeps_table_invariants Sample.as_student "s1"
              Sample.cooling_with_running).
Defined.

(** X9.  [public_ide_initialize] never gives a user a second active session
    for an assignment: a table with at most one active session per user and
    assignment is still such a table after the run.  Ids stay unique as long
    as the id given to a new session is not in use. *)
Theorem initialize_keeps_table_invariants (ext : External) (request : Request)
    (a : Assignment.t) (w : World) :
  (unique_active (theia_session w) →
   unique_active (theia_session (snd (public_ide_initialize ext request a w))))
  ∧ (primary_key (theia_session w) →
     fresh_session_id ext (theia_session w)
       ∉ TheiaSession.id <$> theia_session w →
     primary_key (theia_session (snd (public_ide_initialize ext request a w)))).
Proof.
  destruct (public_ide_initialize_store ext request a w)
    as [->|(url & Hrun & _)]; [done|].
  assert (theia_session (snd (public_ide_initialize ext request a w))
          = (theia_session w ++ [new_session ext request a w url])%list)
    as Hrow by by rewrite Hrun.
  destruct (public_ide_initialize_new_row_checks _ _ _ _ _ Hrow)
    as ((_ & Hnone & _) & _).
  rewrite Hrow. split.
  - intros Huniq i j s t Hi Hj Hs Ht Hown Has.
    apply lookup_snoc_Some in Hi as [[_ Hi]|[-> <-]];
      apply lookup_snoc_Some in Hj as [[_ Hj]|[-> <-]].
    + by apply (Huniq i j s t).
    + apply list_elem_of_lookup_2 in Hi.
      rewrite (Hnone s Hi) in Hs; [done|by rewrite Hown|by rewrite Has].
    + apply list_elem_of_lookup_2 in Hj.
      rewrite (Hnone t Hj) in Ht; [done|by rewrite <- Hown|by rewrite <- Has].
    + done.
  - unfold primary_key. intros Hkey Hfresh.
    rewrite fmap_app. apply NoDup_app. split_and!; [done| |].
    + intros x Hx [->|Hin]%elem_of_cons; [done|inversion Hin].
    + apply NoDup_singleton.
Qed.

(** [u1] creates a session for [a1] next to the one that ended. *)
Lemma initialize_keeps_table_invariants_witness :
  length (theia_session
            (snd (public_ide_initialize Sample.ext Sample.as_student Sample.a1
                    Sample.one_ended))) = 2%nat
  ∧ primary_key
      (theia_session
         (snd (public_ide_initialize Sample.ext Sample.as_student Sample.a1
                 Sample.one_ended))).
Proof.
  split; [reflexivity|].
  apply (initialize_keeps_table_invariants Sample.ext Sample.as_student
           Sample.a1 Sample.one_ended).
  - vm_compute. apply NoDup_cons. split; [inversion 1|apply NoDup_nil_2].
  - vm_compute. intros [H|H]%elem_of_cons; [discriminate H|inversion H].
Defined.

(** ** Stop, then initialize *)

(** A row that is strictly more recent than all others is the one
    [first_by_created_desc] takes. *)
Lemma first_by_created_desc_latest (l : list TheiaSession.t)
    (m : TheiaSession.t) :
  m ∈ l →
  (∀ x, x ∈ l → x = m ∨ (TheiaSession.created x < TheiaSession.created m)%Z) →
  first_by_created_desc l = Some m.
Proof.
  induction l as [|x l IH]; intros Hin Hlatest; [by inversion Hin|].
  simpl. destruct (first_by_created_desc l) as [m'|] eqn:Hm'.
  - destruct (first_by_created_desc_spec l m' Hm') as [Hm'in _].
    apply elem_of_cons in Hin as [->|Hin].
    + rewrite bool_decide_eq_true_2; [done|].
      destruct (Hlatest m') as [->|Hlt]; [by right|lia|lia].
    + assert (Some m' = Some m) as [= ->].
      { apply IH; [done|]. intros y Hy. apply Hlatest. by right. }
      destruct (Hlatest x) as [->|Hlt]; [by left| |].
      * by rewrite bool_decide_eq_true_2 by lia.
      * by rewrite bool_decide_eq_false_2 by lia.
  - apply first_by_created_desc_None in Hm' as ->.
    apply elem_of_cons in Hin as [->|Hin]; [done|by inversion Hin].
Qed.

(** X10.  Stopping a session that kept a volume starts the cooldown, as long
    as that session is the most recently created one of the user: with a
    configured cooldown from 0 to 2^34 seconds, a request of the same user
    that arrives less than that many seconds after the stop, for an
    assignment with IDEs enabled and no active session, gets the warning to
    wait and creates nothing. *)
Theorem cooldown_after_stop (ext : External) (request : Request) (sid : string)
    (w : World) (s : TheiaSession.t) (a : Assignment.t) (t : Z) :
  primary_key (theia_session w) →
  s ∈ theia_session w →
  TheiaSession.id s = sid →
  TheiaSession.owner_id s = current_user_id request →
  TheiaSession.persistent_storage s = true →
  (∀ x, x ∈ theia_session w →
        TheiaSession.owner_id x = current_user_id request →
        TheiaSession.id x ≠ sid →
        (TheiaSession.created x < TheiaSession.created s)%Z) →
  Assignment.ide_enabled a = true →
  no_active_session request (Assignment.id a)
    (set_clock t (snd (public_ide_stop request sid w))) →
  (0 ≤ cooldown_seconds w ≤ 2 ^ 34)%Z →
  (t - clock w < cooldown_seconds w * 1000000)%Z →
  public_ide_initialize ext request a
    (set_clock t (snd (public_ide_stop request sid w)))
  = (Return (success_response
               [("status", VStr cooldown_status); ("variant", VStr "warning")]),
     set_clock t (snd (public_ide_stop request sid w))).
Proof.
  intros Hkey Hin Hid Hown Hpers Hlatest Hide Hnone%no_active_session_query
    Hbound Hlt.
  destruct (owned_session_by_key request sid w s Hkey Hin Hid Hown)
    as (i & Hi & Hfind).
  set (w1 := set_clock t (snd (public_ide_stop request sid w))) in *.
  assert (theia_session w1 = <[i := stopped (clock w) s]> (theia_session w)
          ∧ clock w1 = t ∧ config w1 = config w) as (Htable & Hclock & Hconfig).
  { unfold w1. by rewrite (public_ide_stop_found _ _ _ _ _ Hfind). }
  assert (last_session_of request w1 = Some (stopped (clock w) s)) as Hlast.
  { unfold last_session_of. rewrite Htable.
    apply first_by_created_desc_latest.
    - apply list_elem_of_filter. split; [by split|].
      apply list_elem_of_insert. by eapply lookup_lt_Some.
    - intros x [[Hxo _] [j Hj]%list_elem_of_lookup]%list_elem_of_filter.
      apply list_lookup_insert_Some in Hj as [(_ & <- & _)|[Hne Hj]];
        [by left|right].
      apply (Hlatest x); [by eapply list_elem_of_lookup_2|done|].
      intros Hxid. apply Hne.
      eapply (NoDup_lookup _ i j sid Hkey).
      + by rewrite list_lookup_fmap, Hi, <- Hid.
      + by rewrite list_lookup_fmap, Hj, <- Hxid. }
  assert (cooldown_seconds w1 = cooldown_seconds w) as Hcooldown
    by (unfold cooldown_seconds; by rewrite Hconfig).
  rewrite public_ide_initialize_unfold, Hide, Hnone, Hlast.
  rewrite (within_cooldown_exact (stopped (clock w) s) (clock w) w1);
    [|done|done|by rewrite Hcooldown].
  rewrite Hclock, Hcooldown.
  by rewrite bool_decide_eq_true_2.
Qed.

(** [u1] stops the running session [s1] at 5s and asks for another
    assignment at 5.4s. *)
Lemma cooldown_after_stop_witness :
  public_ide_initialize Sample.ext Sample.as_student Sample.a2
    (set_clock 5400000 (snd (public_ide_stop Sample.as_student "s1"
                               Sample.one_running)))
  = (Return (success_response
               [("status", VStr cooldown_status); ("variant", VStr "warning")]),
     set_clock 5400000 (snd (public_ide_stop Sample.as_student "s1"
                               Sample.one_running))).
Proof.
  apply (cooldown_after_stop Sample.ext Sample.as_student "s1"
           Sample.one_running Sample.running Sample.a2 5400000).
  - vm_compute. apply NoDup_cons. split; [inversion 1|apply NoDup_nil_2].
  - apply list_elem_of_In. simpl. by left.
  - reflexivity.
  - reflexivity.
  - reflexivity.
  - intros x Hx _ Hne. apply list_elem_of_In in Hx. simpl in Hx.
    destruct Hx as [<-|[]]. by destruct Hne.
  - reflexivity.
  - apply no_active_session_query. vm_compute. reflexivity.
  - split; vm_compute; discriminate.
  - vm_compute. reflexivity.
Defined.

(** ** The checks of [public_ide_initialize], one by one *)

(** The run up to the role of the caller. *)
Lemma public_ide_initialize_common (ext : External) (request : Request)
    (a : Assignment.t) (w : World) :
  passes_common_checks ext request a w →
  public_ide_initialize ext request a w =
    match
      (if negb (is_course_admin ext (Assignment.course_id a)
                                (current_user_id request))
       then fst (student_checks a w) else Return false)
    with
    | Raise e => (Raise e, w)
    | Return true => (Return (error_response grace_message), w)
    | Return false =>
      match fst (resolve_repo_url request a w) with
      | Raise e => (Raise e, w)
      | Return repo_url =>
        (Return (created_response ext (new_session ext request a w repo_url)),
         with_new_session (new_session ext request a w repo_url) w)
      end
    end.
Proof.
  intros (Hide & Hnone%no_active_session_query & Hcool & Hstarts).
  by rewrite public_ide_initialize_unfold, Hide, Hnone, Hcool, Hstarts.
Qed.

(** The run up to the repository. *)
Lemma public_ide_initialize_role (ext : External) (request : Request)
    (a : Assignment.t) (w : World) :
  passes_common_checks ext request a w →
  passes_role_checks ext request a w →
  public_ide_initialize ext request a w =
    match fst (resolve_repo_url request a w) with
    | Raise e => (Raise e, w)
    | Return repo_url =>
      (Return (created_response ext (new_session ext request a w repo_url)),
       with_new_session (new_session ext request a w repo_url) w)
    end.
Proof.
  intros Hcommon Hrole. rewrite (public_ide_initialize_common _ _ _ _ Hcommon).
  destruct (is_course_admin ext (Assignment.course_id a)
              (current_user_id request)) eqn:Hadmin; cbn [negb]; [done|].
  destruct Hrole as [Hrole|(Hrel & Hdue & Hmax)]; [congruence|].
  by rewrite (student_checks_within a w Hrel Hdue Hmax).
Qed.

(** X11.  A student (not a course admin) who passes the checks made for
    everyone but asks at or before the release date is turned away with the
    assertion error "Assignment has not been released", the store untouched;
    the release date itself does not count as released. *)
Theorem initialize_unreleased (ext : External) (request : Request)
    (a : Assignment.t) (w : World) :
  passes_common_checks ext request a w →
  is_course_admin ext (Assignment.course_id a) (current_user_id request)
  = false →
  (clock w ≤ Assignment.release_date a)%Z →
  public_ide_initialize ext request a w
  = (Raise (AssertError "Assignment has not been released"), w).
Proof.
  intros Hcommon Hadmin Hrel.
  rewrite (public_ide_initialize_common _ _ _ _ Hcommon), Hadmin. cbn [negb].
  rewrite student_checks_cases.
  by rewrite bool_decide_eq_false_2 by lia.
Qed.

(** [u1] asks at 5s for [a5], released after 40 days. *)
Lemma initialize_unreleased_witness :
  public_ide_initialize Sample.ext Sample.as_student Scenario.a5
    Sample.one_ended
  = (Raise (AssertError "Assignment has not been released"), Sample.one_ended).
Proof.
  apply initialize_unreleased.
  - split_and!; [reflexivity| |vm_compute; reflexivity|reflexivity].
    apply no_active_session_query. vm_compute. reflexivity.
  - reflexivity.
  - vm_compute. discriminate.
Defined.

Lemma repo_of_None (request : Request) (assignment_id : string) (w : World) :
  repo_of request assignment_id w = None ↔
  ∀ r, r ∈ assignment_repo w →
       AssignmentRepo.owner_id r = current_user_id request →
       AssignmentRepo.assignment_id r ≠ assignment_id.
Proof.
  unfold repo_of. rewrite fmap_None, list_find_None, Forall_forall.
  split; intros H r Hr; [intros Ho Ha|intros [Ho Ha]]; by apply (H r).
Qed.

(** X12.  When the assignment requires a repository and the request has
    passed the checks before (for a student: the assignment is released and
    within its grace window of three weeks, whose end is a datetime), a user
    without a linked github account is turned away with the assertion error
    asking to link one, and a user with an account but without a repository
    for the assignment with the assertion error that the repository cannot
    be found; the store is untouched in both cases. *)
Theorem initialize_repo_missing (ext : External) (request : Request)
    (a : Assignment.t) (w : World) :
  passes_common_checks ext request a w →
  passes_role_checks ext request a w →
  Assignment.github_repo_required a = true →
  (User.github_username (current_user request) = None →
   public_ide_initialize ext request a w
   = (Raise (AssertError
        "Please link your github account github account on profile page."), w))
  ∧ (User.github_username (current_user request) ≠ None →
     (∀ r, r ∈ assignment_repo w →
           AssignmentRepo.owner_id r = current_user_id request →
           AssignmentRepo.assignment_id r ≠ Assignment.id a) →
     public_ide_initialize ext request a w
     = (Raise (AssertError
          "Anubis can not find your assignment repo. Please make sure your github username is set and is correct."),
        w)).
Proof.
  intros Hcommon Hrole Hreq.
  rewrite (public_ide_initialize_role _ _ _ _ Hcommon Hrole).
  unfold resolve_repo_url. rewrite Hreq. run_view. split.
  - intros ->. reflexivity.
  - intros Hname Hnone%repo_of_None.
    rewrite bool_decide_eq_true_2 by done. by rewrite Hnone.
Qed.

(** [u1] without a github account, and [u1] with an account but in a store
    without repositories, ask for [a4]. *)
Lemma initialize_repo_missing_witness :
  fst (public_ide_initialize Sample.ext Sample.as_student Scenario.a4
         Sample.one_ended)
  = Raise (AssertError
      "Please link your github account github account on profile page.")
  ∧ fst (public_ide_initialize Sample.ext Scenario.as_student_linked
           Scenario.a4 Sample.one_ended)
    = Raise (AssertError
        "Anubis can not find your assignment repo. Please make sure your github username is set and is correct.").
Proof.
  split.
  - destruct (initialize_repo_missing Sample.ext Sample.as_student Scenario.a4
                Sample.one_ended) as [Hname _].
    + split_and!; [reflexivity| |vm_compute; reflexivity|reflexivity].
      apply no_active_session_query. vm_compute. reflexivity.
    + right. split_and!; vm_compute; (reflexivity || discriminate).
    + reflexivity.
    + by rewrite Hname.
  - destruct (initialize_repo_missing Sample.ext Scenario.as_student_linked
                Scenario.a4 Sample.one_ended) as [_ Hrepo].
    + split_and!; [reflexivity| |vm_compute; reflexivity|reflexivity].
      apply no_active_session_query. vm_compute. reflexivity.
    + right. split_and!; vm_compute; (reflexivity || discriminate).
    + reflexivity.
    + rewrite Hrepo; [reflexivity|discriminate|].
      intros r Hr. vm_compute in Hr. inversion Hr.
Defined.

(** ** The row that is created *)

(** Where a resolved repository url comes from. *)
Lemma resolve_repo_url_returns (request : Request) (a : Assignment.t)
    (w : World) (url : string) :
  fst (resolve_repo_url request a w) = Return url →
  (Assignment.github_repo_required a = false ∧ url = "")
  ∨ (Assignment.github_repo_required a = true
     ∧ User.github_username (current_user request) ≠ None
     ∧ ∃ r, r ∈ assignment_repo w
            ∧ AssignmentRepo.owner_id r = current_user_id request
            ∧ AssignmentRepo.assignment_id r = Assignment.id a
            ∧ url = AssignmentRepo.repo_url r).
Proof.
  unfold resolve_repo_url.
  destruct (Assignment.github_repo_required a);
    [|intros [= <-]; by left].
  run_view. case_bool_decide as Hname; [|done].
  unfold repo_of.
  destruct (list_find _ (assignment_repo w)) as [[i r]|] eqn:Hfind; [|done].
  intros [= <-]. right.
  apply list_find_Some in Hfind as (Hi & (Hown & Has) & _).
  split_and!; [done..|]. exists r.
  split_and!; [by eapply list_elem_of_lookup_2|done..].
Qed.

(** X13.  A session created for an assignment that requires no repository
    has the empty repository url.  One created for an assignment that
    requires a repository belongs to a user with a linked github account and
    carries the url of a repository of that user for that assignment. *)
Theorem created_session_repo_url (ext : External) (request : Request)
    (a : Assignment.t) (w : World) (s : TheiaSession.t) :
  theia_session (snd (public_ide_initialize ext request a w))
  = (theia_session w ++ [s])%list →
  (Assignment.github_repo_required a = false → TheiaSession.repo_url s = "")
  ∧ (Assignment.github_repo_required a = true →
     User.github_username (current_user request) ≠ None
     ∧ ∃ r, r ∈ assignment_repo w
            ∧ AssignmentRepo.owner_id r = current_user_id request
            ∧ AssignmentRepo.assignment_id r = Assignment.id a
            ∧ TheiaSession.repo_url s = AssignmentRepo.repo_url r).
Proof.
  intros Hrow.
  destruct (public_ide_initialize_new_row_checks _ _ _ _ _ Hrow)
    as (_ & _ & url & Hurl & ->).
  unfold new_session. cbn [TheiaSession.repo_url].
  destruct (resolve_repo_url_returns _ _ _ _ Hurl)
    as [[Hreq ->]|(Hreq & Hname & r & Hr)].
  - split; [done|congruence].
  - split; [congruence|]. intros _. split; [done|]. by exists r.
Qed.

(** [u1], with a github account and a repository for [a4], asks for [a4]. *)
Lemma created_session_repo_url_witness :
  ∃ s,
    theia_session
      (snd (public_ide_initialize Sample.ext Scenario.as_student_linked
              Scenario.a4 Scenario.with_repo))
    = (theia_session Scenario.with_repo ++ [s])%list
    ∧ TheiaSession.repo_url s = "https://github.com/org/a4-jd1".
Proof.
  exists (new_session Sample.ext Scenario.as_student_linked Scenario.a4
            Scenario.with_repo "https://github.com/org/a4-jd1").
  assert (theia_session
            (snd (public_ide_initialize Sample.ext Scenario.as_student_linked
                    Scenario.a4 Scenario.with_repo))
          = (theia_session Scenario.with_repo
             ++ [new_session Sample.ext Scenario.as_student_linked Scenario.a4
                   Scenario.with_repo "https://github.com/org/a4-jd1"])%list)
    as Hrow.
  { vm_compute. reflexivity. }
  split; [exact Hrow|].
  destruct (created_session_repo_url Sample.ext Scenario.as_student_linked
              Scenario.a4 Scenario.with_repo _ Hrow) as [_ Hreq].
  destruct (Hreq eq_refl) as (_ & r & Hr & _ & _ & ->).
  apply list_elem_of_In in Hr. simpl in Hr. by destruct Hr as [<-|[]].
Defined.

(** X14.  Every session the view creates is for the assignment, the course
    and the image of the request, is never a playground and never
    privileged, takes its resources from the options of the assignment or
    else the default ones, and has the admin and credentials flags exactly
    for course admins, who alone are not network locked.  A session of a
    user who is not a course admin has the network policy of the options of
    the assignment, or "os-student" when the options name none. *)
Theorem created_session_configuration (ext : External) (request : Request)
    (a : Assignment.t) (w : World) (s : TheiaSession.t) :
  theia_session (snd (public_ide_initialize ext request a w))
  = (theia_session w ++ [s])%list →
  TheiaSession.assignment_id s = Assignment.id a
  ∧ TheiaSession.course_id s = Assignment.course_id a
  ∧ TheiaSession.image_id s = Assignment.theia_image_id a
  ∧ TheiaSession.playground s = false
  ∧ TheiaSession.privileged s = false
  ∧ TheiaSession.resources s
    = default (default_resources ext)
              (Assignment.theia_options a !! "resources")
  ∧ TheiaSession.admin s
    = is_course_admin ext (Assignment.course_id a) (current_user_id request)
  ∧ TheiaSession.credentials s
    = is_course_admin ext (Assignment.course_id a) (current_user_id request)
  ∧ TheiaSession.network_locked s
    = negb (is_course_admin ext (Assignment.course_id a)
                            (current_user_id request))
  ∧ (is_course_admin ext (Assignment.course_id a) (current_user_id request)
     = false →
     TheiaSession.network_policy s
     = default "os-student" (Assignment.theia_options a !! "network_policy")).
Proof.
  intros Hrow.
  destruct (public_ide_initialize_new_row _ _ _ _ _ Hrow) as (url & -> & _).
  unfold new_session. cbn -[default].
  split_and!; try reflexivity.
  by intros ->.
Qed.

(** [u1] asks for [a4], whose options name a policy and resources. *)
Lemma created_session_configuration_witness :
  ∃ s,
    theia_session
      (snd (public_ide_initialize Sample.ext Scenario.as_student_linked
              Scenario.a4 Scenario.with_repo))
    = (theia_session Scenario.with_repo ++ [s])%list
    ∧ TheiaSession.network_policy s = "os-web"
    ∧ TheiaSession.resources s = "big"
    ∧ TheiaSession.admin s = false.
Proof.
  exists (new_session Sample.ext Scenario.as_student_linked Scenario.a4
            Scenario.with_repo "https://github.com/org/a4-jd1").
  assert (theia_session
            (snd (public_ide_initialize Sample.ext Scenario.as_student_linked
                    Scenario.a4 Scenario.with_repo))
          = (theia_session Scenario.with_repo
             ++ [new_session Sample.ext Scenario.as_student_linked Scenario.a4
                   Scenario.with_repo "https://github.com/org/a4-jd1"])%list)
    as Hrow.
  { vm_compute. reflexivity. }
  split; [exact Hrow|].
  destruct (created_session_configuration Sample.ext Scenario.as_student_linked
              Scenario.a4 Scenario.with_repo _ Hrow)
    as (_ & _ & _ & _ & _ & Hres & Hadmin & _ & _ & Hpolicy).
  split; [|split].
  - rewrite Hpolicy; reflexivity.
  - rewrite Hres. reflexivity.
  - rewrite Hadmin. reflexivity.
Defined.

(** ** The cooldown, exactly *)

Lemma within_cooldown_true (o : option TheiaSession.t) (w : World) :
  (0 ≤ cooldown_seconds w ≤ 2 ^ 34)%Z →
  fst (within_cooldown o w) = Return true ↔
  ∃ ls e, o = Some ls
          ∧ TheiaSession.persistent_storage ls = true
          ∧ TheiaSession.ended ls = Some e
          ∧ (clock w - e < cooldown_seconds w * 1000000)%Z.
Proof.
  intros Hbound. split.
  - destruct o as [ls|]; [|done].
    destruct (TheiaSession.persistent_storage ls) eqn:Hp;
      [|unfold within_cooldown; by rewrite Hp].
    destruct (TheiaSession.ended ls) as [e|] eqn:He;
      [|unfold within_cooldown; rewrite Hp; run_view; by rewrite He].
    rewrite (within_cooldown_exact ls e w Hp He Hbound).
    intros [= Hlt%bool_decide_eq_true]. by exists ls, e.
  - intros (ls & e & -> & Hp & He & Hlt).
    rewrite (within_cooldown_exact ls e w Hp He Hbound).
    by rewrite bool_decide_eq_true_2.
Qed.

(** X15.  With a configured cooldown from 0 to 2^34 seconds, the warning to
    wait is the answer of [public_ide_initialize] in exactly one situation:
    IDEs are enabled for the assignment, the user has no active session for
    it, and the most recently created inactive session of the user kept a
    volume and ended less than the configured number of seconds ago.  A last
    session without a volume, or no earlier session at all, never delays a
    request. *)
Theorem cooldown_warning_iff (ext : External) (request : Request)
    (a : Assignment.t) (w : World) :
  (0 ≤ cooldown_seconds w ≤ 2 ^ 34)%Z →
  fst (public_ide_initialize ext request a w)
  = Return (success_response
              [("status", VStr cooldown_status); ("variant", VStr "warning")])
  ↔ Assignment.ide_enabled a = true
    ∧ no_active_session request (Assignment.id a) w
    ∧ ∃ ls e, last_session_of request w = Some ls
              ∧ TheiaSession.persistent_storage ls = true
              ∧ TheiaSession.ended ls = Some e
              ∧ (clock w - e < cooldown_seconds w * 1000000)%Z.
Proof.
  intros Hbound.
  rewrite public_ide_initialize_unfold, no_active_session_query,
    <- (within_cooldown_true _ _ Hbound).
  destruct (Assignment.ide_enabled a); [|split; [done|by intros [? _]]].
  destruct (active_session_of request (Assignment.id a) w) as [[i s]|];
    [split; [done|by intros (_ & ? & _)]|].
  destruct (fst (within_cooldown (last_session_of request w) w)) as [[|]|e].
  - done.
  - split; [|by intros (_ & _ & ?)].
    destruct (theia_starts_enabled ext w); [|done].
    destruct (if negb _ then fst (student_checks a w) else Return false)
      as [[|]|e]; [done| |done].
    by destruct (fst (resolve_repo_url request a w)).
  - split; [done|by intros (_ & _ & ?)].
Qed.

(** [u1] asks for [a1] half a second after the last session ended, and
    again a full second after it ended: the warning, then no warning. *)
Lemma cooldown_warning_iff_witness :
  fst (public_ide_initialize Sample.ext Sample.as_student Sample.a1
         Sample.cooling)
  = Return (success_response
              [("status", VStr cooldown_status); ("variant", VStr "warning")])
  ∧ fst (public_ide_initialize Sample.ext Sample.as_student Sample.a1
           Sample.one_ended)
    ≠ Return (success_response
                [("status", VStr cooldown_status); ("variant", VStr "warning")]).
Proof.
  split.
  - apply (cooldown_warning_iff Sample.ext Sample.as_student Sample.a1
             Sample.cooling).
    + split; vm_compute; discriminate.
    + split; [reflexivity|]. split.
      * apply no_active_session_query. vm_compute. reflexivity.
      * exists Sample.ended_at_4s, 4000000%Z.
        split_and!; vm_compute; reflexivity.
  - intros Hwarning.
    apply (cooldown_warning_iff Sample.ext Sample.as_student Sample.a1
             Sample.one_ended) in Hwarning;
      [|split; vm_compute; discriminate].
    destruct Hwarning as (_ & _ & ls & e & Hlast & _ & He & Hlt).
    vm_compute in Hlast. injection Hlast as <-.
    vm_compute in He. injection He as <-.
    vm_compute in Hlt. discriminate.
Defined.

(** X16.  A user whose most recently created inactive session kept a volume
    but has no [ended] stamp cannot start a session on any assignment with
    IDEs enabled for which they have no active session: the subtraction of
    the missing stamp raises a [TypeError] before any other check, and the
    store is untouched. *)
Theorem initialize_last_session_without_end (ext : External)
    (request : Request) (a : Assignment.t) (w : World) (ls : TheiaSession.t) :
  Assignment.ide_enabled a = true →
  no_active_session request (Assignment.id a) w →
  last_session_of request w = Some ls →
  TheiaSession.persistent_storage ls = true →
  TheiaSession.ended ls = None →
  public_ide_initialize ext request a w = (Raise TypeError, w).
Proof.
  intros Hide Hnone%no_active_session_query Hlast Hp He.
  rewrite public_ide_initialize_unfold, Hide, Hnone, Hlast.
  unfold within_cooldown. rewrite Hp. run_view. by rewrite He.
Qed.

(** [u1], whose only session is inactive without an [ended] stamp, asks for
    [a1]. *)
Lemma initialize_last_session_without_end_witness :
  public_ide_initialize Sample.ext Sample.as_student Sample.a1
    Scenario.one_without_end
  = (Raise TypeError, Scenario.one_without_end).
Proof.
  apply (initialize_last_session_without_end Sample.ext Sample.as_student
           Sample.a1 Scenario.one_without_end Scenario.inactive_without_end).
  - reflexivity.
  - apply no_active_session_query. vm_compute. reflexivity.
  - vm_compute. reflexivity.
  - reflexivity.
  - reflexivity.
Defined.

(** * Properties of the exercise loader *)

(** ** Resuming *)

Lemma contains_resume_false (r : string) (l : list Autograde.Exercise) :
  Autograde.contains_resume r l = false ↔
  ∀ e, e ∈ l → Autograde.name e ≠ r.
Proof.
  unfold Autograde.contains_resume. induction l as [|x l IH]; simpl.
  - split; [intros _ e He; inversion He|done].
  - rewrite orb_false_iff, IH, String.eqb_neq. split.
    + intros [Hx Hl] e [->|He]%elem_of_cons; auto.
    + intros H. split; [apply H; left|intros e He; apply H; by right].
Qed.

(** The loop visits the exercises before the first one with the name, and
    that one: every entry that is one of these objects is complete after
    it. *)
Lemma complete_until_visits (r : string) (l1 l2 l : list Autograde.Exercise)
    (e : Autograde.Exercise) :
  (∀ x, x ∈ l1 → Autograde.name x ≠ r) →
  Autograde.name e = r →
  Autograde.complete_until r (l1 ++ e :: l2)%list l
  = after_visit (l1 ++ [e])%list <$> l.
Proof.
  intros Hl1 He. revert l. induction l1 as [|x l1 IH]; intros l; simpl.
  - rewrite (proj2 (String.eqb_eq _ _) He).
    apply list_fmap_ext. intros i y _. unfold after_visit. simpl.
    destruct (decide (Autograde.ref y = Autograde.ref e)) as [Heq|Hne].
    + rewrite !bool_decide_eq_true_2; [done| |done]. rewrite Heq. by left.
    + rewrite !bool_decide_eq_false_2; [done| |done].
      intros [?|Hin]%elem_of_cons; [done|inversion Hin].
  - rewrite (proj2 (String.eqb_neq _ _)) by (apply Hl1; left).
    rewrite IH by (intros y Hy; apply Hl1; by right).
    unfold Autograde.complete_object. rewrite <- list_fmap_compose.
    apply list_fmap_ext. intros i y _. unfold after_visit. simpl.
    destruct (decide (Autograde.ref y = Autograde.ref x)) as [Heq|Hne].
    + rewrite (bool_decide_eq_true_2 (Autograde.ref y = _)) by done.
      rewrite (bool_decide_eq_true_2 (_ ∈ _ :: _)) by (rewrite Heq; by left).
      by case_bool_decide.
    + rewrite (bool_decide_eq_false_2 (Autograde.ref y = _)) by done.
      destruct (decide (Autograde.ref y
                        ∈ Autograde.ref <$> (l1 ++ [e])%list)) as [Hin|Hout].
      * rewrite !bool_decide_eq_true_2; [done|by right|done].
      * rewrite !bool_decide_eq_false_2; [done| |done].
        by intros [?|?]%elem_of_cons.
Qed.

(** Without an object listed twice the visited entries are a prefix. *)
Lemma after_visit_prefix (l1 l2 : list Autograde.Exercise) :
  (∀ x, x ∈ l2 → Autograde.ref x ∉ Autograde.ref <$> l1) →
  after_visit l1 <$> (l1 ++ l2)%list
  = ((Autograde.set_complete <$> l1) ++ l2)%list.
Proof.
  intros Hl2. rewrite fmap_app. f_equal.
  - apply list_fmap_ext. intros i x Hx. unfold after_visit.
    rewrite bool_decide_eq_true_2; [done|].
    apply list_elem_of_fmap_2. by eapply list_elem_of_lookup_2.
  - rewrite <- (list_fmap_id l2) at 2.
    apply list_fmap_ext. intros i x Hx. unfold after_visit.
    rewrite bool_decide_eq_false_2; [done|].
    apply Hl2. by eapply list_elem_of_lookup_2.
Qed.

(** Setting [complete] on an object keeps the places, the names and the
    details, and takes [complete] from no entry. *)
Lemma complete_object_lookup (r : nat) (l : list Autograde.Exercise) (i : nat) :
  match Autograde.complete_object r l !! i, l !! i with
  | Some e', Some e =>
    Autograde.name e' = Autograde.name e
    ∧ Autograde.detail e' = Autograde.detail e
    ∧ (Autograde.complete e = true → Autograde.complete e' = true)
  | None, None => True
  | _, _ => False
  end.
Proof.
  unfold Autograde.complete_object. rewrite list_lookup_fmap.
  destruct (l !! i) as [e|]; simpl; [|done].
  by case_bool_decide.
Qed.

(** The loop keeps the length, the names and the details, and only ever
    sets [complete]. *)
Lemma complete_until_lookup (r : string) (todo l : list Autograde.Exercise)
    (i : nat) :
  match Autograde.complete_until r todo l !! i, l !! i with
  | Some e', Some e =>
    Autograde.name e' = Autograde.name e
    ∧ Autograde.detail e' = Autograde.detail e
    ∧ (Autograde.complete e = true → Autograde.complete e' = true)
  | None, None => True
  | _, _ => False
  end.
Proof.
  revert l. induction todo as [|x todo IH]; intros l; simpl.
  - by destruct (l !! i).
  - pose proof (complete_object_lookup (Autograde.ref x) l i) as Hstep.
    destruct (String.eqb (Autograde.name x) r); [exact Hstep|].
    specialize (IH (Autograde.complete_object (Autograde.ref x) l)).
    destruct (Autograde.complete_until r todo _ !! i) as [e''|],
             (Autograde.complete_object (Autograde.ref x) l !! i) as [e'|],
             (l !! i) as [e|]; try done.
    destruct IH as (-> & -> & IH), Hstep as (-> & -> & Hstep). auto.
Qed.

Lemma complete_until_length (r : string) (todo l : list Autograde.Exercise) :
  length (Autograde.complete_until r todo l) = length l.
Proof.
  revert l. induction todo as [|x todo IH]; intros l; simpl; [done|].
  destruct (String.eqb (Autograde.name x) r); rewrite ?IH;
    apply length_fmap.
Qed.

(** X17.  Without a name to resume at ([None] or the empty string), or with
    a name that no loaded exercise has, the loader returns normally and
    leaves every exercise exactly as [set_exercises] gave it; in the second
    case, and only then, it logs the warning that the name is missing. *)
Theorem resume_absent_or_unknown (env : Autograde.Env) (args : Autograde.Args)
    (path : list string) (m : string) (l : list Autograde.Exercise)
    (start_message end_message : string) :
  Autograde.import_ env (path ++ [Autograde.module_directory args])
    (Autograde.module_name args) = Some m →
  Autograde.set_exercises env m = Some (l, start_message, end_message) →
  Autograde.truthy (Autograde.resume args) = false
  ∨ (∀ e, e ∈ l → Some (Autograde.name e) ≠ Autograde.resume args) →
  let out := Autograde.init_exercises env args path in
  Autograde.exit_code out = None
  ∧ Autograde.exercises out = l
  ∧ (Autograde.truthy (Autograde.resume args) = true
     ↔ ∃ r, Autograde.log_warning (Autograde.MissingResume r)
            ∈ Autograde.log out).
Proof.
  intros Himport Hset Hcase. unfold Autograde.init_exercises.
  rewrite Himport, Hset.
  destruct (Autograde.truthy (Autograde.resume args)) eqn:Htruthy; cbv zeta.
  - destruct Hcase as [|Hunknown]; [done|].
    destruct (Autograde.resume args) as [r|]; [|done].
    cbn [from_option id].
    rewrite (proj2 (contains_resume_false r l)).
    + cbn. split_and!; [done..|]. split; [|done]. intros _. exists r.
      rewrite !elem_of_cons. auto 10.
    + intros e He Heq. apply (Hunknown e He). by rewrite Heq.
  - cbn. split_and!; [done..|]. split; [done|].
    intros [r Hr]. rewrite !elem_of_cons, elem_of_nil in Hr.
    by destruct Hr as [|[|[|]]].
Qed.

(** The lesson is resumed at an exercise it does not have. *)
Lemma resume_absent_or_unknown_witness :
  Autograde.exercises
    (Autograde.init_exercises Lesson.env
       (Autograde.mkArgs "exercises/lesson.py" (Some "sed")) [])
  = Lesson.three.
Proof.
  apply (resume_absent_or_unknown Lesson.env
           (Autograde.mkArgs "exercises/lesson.py" (Some "sed")) []
           "lesson" Lesson.three "start" "end").
  - reflexivity.
  - reflexivity.
  - right. intros e He. apply list_elem_of_In in He. simpl in He.
    destruct He as [<-|[<-|[<-|[]]]]; discriminate.
Defined.

(** X18.  When the name to resume at is the name of a loaded exercise, the
    loader visits the exercises before the first one of that name and that
    one, and sets [complete] on these objects: after it, every entry of the
    list that is one of the visited objects is complete (also an entry
    further down, when an object is listed twice) and every other entry is
    as it was.  When no entry after the first one of that name is one of
    the visited objects, this is: the exercises up to that one are
    complete, and those after it are as they were. *)
Theorem resume_completes_prefix (env : Autograde.Env) (args : Autograde.Args)
    (path : list string) (m r : string) (l1 l2 : list Autograde.Exercise)
    (e : Autograde.Exercise) (start_message end_message : string) :
  Autograde.import_ env (path ++ [Autograde.module_directory args])
    (Autograde.module_name args) = Some m →
  Autograde.set_exercises env m
  = Some ((l1 ++ e :: l2)%list, start_message, end_message) →
  Autograde.resume args = Some r →
  r ≠ "" →
  Autograde.name e = r →
  (∀ x, x ∈ l1 → Autograde.name x ≠ r) →
  let out := Autograde.init_exercises env args path in
  Autograde.exit_code out = None
  ∧ Autograde.exercises out
    = after_visit (l1 ++ [e])%list <$> (l1 ++ e :: l2)%list
  ∧ ((∀ x, x ∈ l2 → Autograde.ref x ∉ Autograde.ref <$> (l1 ++ [e])%list) →
     Autograde.exercises out
     = ((Autograde.set_complete <$> l1) ++ Autograde.set_complete e :: l2)%list).
Proof.
  intros Himport Hset Hresume Hr He Hl1. unfold Autograde.init_exercises.
  rewrite Himport, Hset, Hresume.
  destruct r as [|c r]; [done|]. cbn [Autograde.truthy from_option id].
  assert (Autograde.contains_resume (String c r) (l1 ++ e :: l2) = true) as ->.
  { apply not_false_iff_true. rewrite contains_resume_false.
    intros H. apply (H e); [|done]. apply elem_of_app. right. left. }
  cbn [negb Autograde.exit_code Autograde.exercises].
  rewrite (complete_until_visits _ l1 l2 _ e Hl1 He).
  split; [done|]. split; [done|].
  intros Hl2. rewrite (cons_middle e l1 l2), app_assoc.
  rewrite (after_visit_prefix _ _ Hl2).
  by rewrite fmap_app, <- app_assoc.
Qed.

(** The lesson is resumed at its second exercise: the first two exercises
    are complete.  The module that lists the object [hello] first and last
    is resumed at [hello]: the loop stops at the first entry, and the last
    entry, the same object, is complete as well. *)
Lemma resume_completes_prefix_witness :
  Autograde.exercises
    (Autograde.init_exercises Lesson.env
       (Autograde.mkArgs "exercises/lesson.py" (Some "pipes")) [])
  = [Lesson.ex "hello" true; Lesson.ex "pipes" true; Lesson.ex "grep" true]
  ∧ Autograde.exercises
      (Autograde.init_exercises Lesson.env_twice
         (Autograde.mkArgs "exercises/again.py" (Some "hello")) [])
    = [Lesson.ex "hello" true; Lesson.ex "pipes" false; Lesson.ex "hello" true].
Proof.
  split.
  - apply (resume_completes_prefix Lesson.env
             (Autograde.mkArgs "exercises/lesson.py" (Some "pipes")) []
             "lesson" "pipes" [Lesson.ex "hello" false] [Lesson.ex "grep" true]
             (Lesson.ex "pipes" false) "start" "end").
    + reflexivity.
    + reflexivity.
    + reflexivity.
    + discriminate.
    + reflexivity.
    + intros x Hx. apply list_elem_of_In in Hx. simpl in Hx.
      destruct Hx as [<-|[]]. discriminate.
    + intros x Hx. apply list_elem_of_In in Hx. simpl in Hx.
      destruct Hx as [<-|[]]. vm_compute.
      intros H. apply list_elem_of_In in H. simpl in H.
      destruct H as [H|[H|[]]]; discriminate H.
  - destruct (resume_completes_prefix Lesson.env_twice
                (Autograde.mkArgs "exercises/again.py" (Some "hello")) []
                "again" "hello" []
                [Lesson.ex "pipes" false; Lesson.ex "hello" false]
                (Lesson.ex "hello" false) "start" "end")
      as (_ & Hout & _).
    + reflexivity.
    + reflexivity.
    + reflexivity.
    + discriminate.
    + reflexivity.
    + intros x Hx. inversion Hx.
    + rewrite Hout. vm_compute. reflexivity.
Defined.

(** X19.  Whatever the name to resume at, the loader never removes, adds,
    reorders or renames an exercise and never takes [complete] away from
    one: position by position the exercises it leaves have the names and the
    details of the loaded ones, and those that were complete still are. *)
Theorem resume_only_completes (env : Autograde.Env) (args : Autograde.Args)
    (path : list string) (m : string) (l : list Autograde.Exercise)
    (start_message end_message : string) :
  Autograde.import_ env (path ++ [Autograde.module_directory args])
    (Autograde.module_name args) = Some m →
  Autograde.set_exercises env m = Some (l, start_message, end_message) →
  let out := Autograde.init_exercises env args path in
  length (Autograde.exercises out) = length l
  ∧ ∀ i e', Autograde.exercises out !! i = Some e' →
      ∃ e, l !! i = Some e
           ∧ Autograde.name e' = Autograde.name e
           ∧ Autograde.detail e' = Autograde.detail e
           ∧ (Autograde.complete e = true → Autograde.complete e' = true).
Proof.
  intros Himport Hset.
  assert (∀ r i e', Autograde.complete_until r l l !! i = Some e' →
            ∃ e, l !! i = Some e
                 ∧ Autograde.name e' = Autograde.name e
                 ∧ Autograde.detail e' = Autograde.detail e
                 ∧ (Autograde.complete e = true →
                    Autograde.complete e' = true)) as Hloop.
  { intros r i e' Hi. pose proof (complete_until_lookup r l l i) as H.
    rewrite Hi in H. destruct (l !! i) as [e|]; [eauto|done]. }
  pose proof (λ r, complete_until_length r l l) as Hlen.
  unfold Autograde.init_exercises. rewrite Himport, Hset.
  destruct (Autograde.truthy (Autograde.resume args));
    [destruct (negb _)|]; cbn [Autograde.exercises]; eauto 10.
Qed.

(** The lesson is resumed at its first exercise: the third one, complete
    before, still is. *)
Lemma resume_only_completes_witness :
  Autograde.exercises
    (Autograde.init_exercises Lesson.env
       (Autograde.mkArgs "exercises/lesson.py" (Some "hello")) []) !! 2%nat
  = Some (Lesson.ex "grep" true)
  ∧ length (Autograde.exercises
              (Autograde.init_exercises Lesson.env
                 (Autograde.mkArgs "exercises/lesson.py" (Some "hello")) []))
    = 3%nat.
Proof.
  split; [reflexivity|].
  apply (resume_only_completes Lesson.env
           (Autograde.mkArgs "exercises/lesson.py" (Some "hello")) []
           "lesson" Lesson.three "start" "end"); reflexivity.
Defined.

(** ** The module that is imported *)

Lemma string_app_cons (c : ascii) (s t : string) :
  String c s ++ t = String c (s ++ t).
Proof. reflexivity. Qed.

Lemma string_app_nil_r (s : string) : s ++ "" = s.
Proof.
  induction s as [|c s IH]; [done|]. by rewrite string_app_cons, IH.
Qed.

Lemma string_take_drop (n : nat) (s : string) :
  Autograde.string_take n s ++ Autograde.string_drop n s = s.
Proof.
  revert s. induction n as [|n IH]; intros [|c s]; try done.
  cbn [Autograde.string_take Autograde.string_drop].
  by rewrite string_app_cons, IH.
Qed.

Lemma string_take_app (n : nat) (q t : string) :
  (n ≤ String.length q)%nat →
  Autograde.string_take n (q ++ t) = Autograde.string_take n q.
Proof.
  revert q. induction n as [|n IH]; intros [|c q] Hn.
  - by destruct t.
  - done.
  - simpl in Hn. lia.
  - rewrite string_app_cons. cbn [Autograde.string_take].
    rewrite IH; [done|]. simpl in Hn. lia.
Qed.

Lemma string_drop_app (n : nat) (q t : string) :
  (n ≤ String.length q)%nat →
  Autograde.string_drop n (q ++ t) = Autograde.string_drop n q ++ t.
Proof.
  revert q. induction n as [|n IH]; intros [|c q] Hn.
  - by destruct t.
  - done.
  - simpl in Hn. lia.
  - rewrite string_app_cons. cbn [Autograde.string_drop].
    apply IH. simpl in Hn. lia.
Qed.

Lemma endswith_split (s suffix : string) :
  Autograde.endswith s suffix = true →
  s = Autograde.drop_last (String.length suffix) s ++ suffix.
Proof.
  unfold Autograde.endswith, Autograde.drop_last.
  intros [_ Hsuffix%String.eqb_eq]%andb_true_iff.
  rewrite <- (string_take_drop (String.length s - String.length suffix) s)
    at 1.
  by rewrite Hsuffix.
Qed.

Lemma after_last_sep_le (p : string) :
  (Autograde.after_last_sep p ≤ String.length p)%nat.
Proof.
  induction p as [|c p IH]; simpl; [done|].
  destruct (Autograde.after_last_sep p); [destruct (Autograde.is_sep c)|]; lia.
Qed.

Lemma after_last_sep_app (q t : string) :
  Autograde.after_last_sep t = 0%nat →
  Autograde.after_last_sep (q ++ t) = Autograde.after_last_sep q.
Proof.
  intros Ht. induction q as [|c q IH]; [done|].
  rewrite string_app_cons. cbn [Autograde.after_last_sep]. by rewrite IH.
Qed.

(** The base name has no separator left in it. *)
Lemma basename_after_last_sep (p : string) :
  Autograde.after_last_sep (Autograde.basename p) = 0%nat.
Proof.
  unfold Autograde.basename. induction p as [|c p IH]; [done|].
  cbn [Autograde.after_last_sep].
  destruct (Autograde.after_last_sep p) as [|i] eqn:Hi.
  - destruct (Autograde.is_sep c) eqn:Hc; cbn [Autograde.string_drop];
      [done|].
    cbn [Autograde.after_last_sep]. by rewrite Hi, Hc.
  - done.
Qed.

Lemma after_last_sep_middle (a b : string) :
  Autograde.after_last_sep (a ++ "/" ++ b) ≠ 0%nat.
Proof.
  induction a as [|c a IH].
  - change ("" ++ "/" ++ b) with (String "/" b).
    cbn [Autograde.after_last_sep].
    by destruct (Autograde.after_last_sep b).
  - rewrite string_app_cons. cbn [Autograde.after_last_sep].
    by destruct (Autograde.after_last_sep (a ++ "/" ++ b)).
Qed.

(** X20.  The name the loader imports never contains a path separator.
    The directory it puts on the search path is the directory of the path
    given on the command line, with or without the suffix [.py]; and the
    name is the base name of that path, less one trailing [.py] when there
    is one. *)
Theorem module_name_and_directory (args : Autograde.Args) :
  (∀ a b, Autograde.module_name args ≠ a ++ "/" ++ b)
  ∧ Autograde.module_directory args
    = Autograde.dirname (Autograde.exercise_module args)
  ∧ Autograde.basename (Autograde.exercise_module args)
    = Autograde.module_name args
      ++ (if Autograde.endswith (Autograde.exercise_module args) ".py"
          then ".py" else "").
Proof.
  split.
  { intros a b Heq.
    apply (after_last_sep_middle a b).
    rewrite <- Heq. apply basename_after_last_sep. }
  unfold Autograde.module_directory, Autograde.module_name,
    Autograde.module_path.
  destruct (Autograde.endswith (Autograde.exercise_module args) ".py")
    eqn:Hpy; [|by rewrite string_app_nil_r].
  apply endswith_split in Hpy.
  set (q := Autograde.drop_last (String.length ".py")
              (Autograde.exercise_module args)) in *.
  change (Autograde.drop_last 3 (Autograde.exercise_module args)) with q.
  rewrite Hpy. unfold Autograde.dirname, Autograde.basename.
  rewrite (after_last_sep_app q ".py") by done.
  pose proof (after_last_sep_le q).
  by rewrite string_take_app, string_drop_app.
Qed.

(** * Properties of the migration *)

(** Each statement of the migration is its effect on the table it names. *)
Lemma add_column_on_table (tn : string) (c : Migration.Column)
    (db : gmap string Migration.Table) :
  Migration.add_column tn c db = on_table tn (add_column_to c) db.
Proof.
  unfold Migration.add_column, on_table, add_column_to.
  destruct (db !! tn) as [t|]; [|done]. simpl.
  by destruct (Migration.columns t !! Migration.name c).
Qed.

Lemma drop_column_on_table (tn cn : string) (db : gmap string Migration.Table) :
  Migration.drop_column tn cn db = on_table tn (drop_column_from cn) db.
Proof.
  unfold Migration.drop_column, on_table, drop_column_from.
  destruct (db !! tn) as [t|]; [|done]. simpl.
  by destruct (Migration.columns t !! cn).
Qed.

Lemma update_set_on_table (tn target source : string)
    (db : gmap string Migration.Table) :
  Migration.update_set tn target source db
  = on_table tn (update_table target source) db.
Proof.
  unfold Migration.update_set, on_table, update_table.
  destruct (db !! tn) as [t|]; [|done]. simpl.
  destruct (Migration.columns t !! target) as [[ty b]|]; [|done]. simpl.
  destruct (Migration.columns t !! source); [|done]. simpl.
  by destruct (negb b && _).
Qed.

(** Two statements on one table, one after the other. *)
Lemma on_table_bind (tn : string)
    (f g : Migration.Table → option Migration.Table)
    (db : gmap string Migration.Table) :
  on_table tn f db ≫= on_table tn g = on_table tn (λ t, f t ≫= g) db.
Proof.
  unfold on_table. destruct (db !! tn) as [t|]; [|done]. simpl.
  destruct (f t) as [t'|]; [|done]. simpl.
  rewrite lookup_insert_eq. simpl.
  destruct (g t') as [t''|]; [|done]. simpl.
  by rewrite insert_insert_eq.
Qed.

Lemma on_table_then (tn : string)
    (f g : Migration.Table → option Migration.Table)
    (k : gmap string Migration.Table → option (gmap string Migration.Table))
    (db : gmap string Migration.Table) :
  (∀ db', k db' = on_table tn g db') →
  on_table tn f db ≫= k = on_table tn (λ t, f t ≫= g) db.
Proof.
  intros Hk. rewrite <- on_table_bind.
  destruct (on_table tn f db); [apply Hk|done].
Qed.

Lemma upgrade_on_table (db : gmap string Migration.Table) :
  Migration.upgrade db = on_table "theia_image" upgrade_table db.
Proof.
  unfold Migration.upgrade, upgrade_table.
  rewrite add_column_on_table. apply on_table_then. intros db1.
  rewrite add_column_on_table. apply on_table_then. intros db2.
  rewrite add_column_on_table. apply on_table_then. intros db3.
  rewrite update_set_on_table. apply on_table_then. intros db4.
  rewrite update_set_on_table. apply on_table_then. intros db5.
  apply drop_column_on_table.
Qed.

Lemma downgrade_on_table (db : gmap string Migration.Table) :
  Migration.downgrade db = on_table "theia_image" downgrade_table db.
Proof.
  unfold Migration.downgrade, downgrade_table.
  rewrite add_column_on_table. apply on_table_then. intros db1.
  rewrite update_set_on_table. apply on_table_then. intros db2.
  rewrite drop_column_on_table. apply on_table_then. intros db3.
  rewrite drop_column_on_table. apply on_table_then. intros db4.
  apply drop_column_on_table.
Qed.

(** When a statement goes through, and what it leaves. *)
Lemma add_column_to_Some (c : Migration.Column) (t t' : Migration.Table) :
  add_column_to c t = Some t' ↔
  Migration.columns t !! Migration.name c = None
  ∧ t' = Migration.mkTable
           (<[Migration.name c :=
                (Migration.type_ c, Migration.nullable c)]>
              (Migration.columns t))
           ((λ r, <[Migration.name c :=
                      if Migration.nullable c then None else Some ""]> r)
              <$> Migration.rows t).
Proof.
  unfold add_column_to.
  destruct (Migration.columns t !! Migration.name c).
  - split; [done|by intros [? _]].
  - split; [by intros [= <-]|by intros [_ ->]].
Qed.

Lemma drop_column_from_Some (cn : string) (t t' : Migration.Table) :
  drop_column_from cn t = Some t' ↔
  is_Some (Migration.columns t !! cn)
  ∧ t' = Migration.mkTable (delete cn (Migration.columns t))
                           (delete cn <$> Migration.rows t).
Proof.
  unfold drop_column_from.
  destruct (Migration.columns t !! cn).
  - split; [intros [= <-]; by eauto|by intros [_ ->]].
  - split; [done|]. by intros [[? ?] _].
Qed.

Lemma update_table_Some (target source : string) (t t' : Migration.Table) :
  update_table target source t = Some t' ↔
  (∃ ty b, Migration.columns t !! target = Some (ty, b)
           ∧ (b = false →
              ∀ r, r ∈ Migration.rows t → Migration.cell r source ≠ None))
  ∧ is_Some (Migration.columns t !! source)
  ∧ t' = Migration.mkTable (Migration.columns t)
           ((λ r, <[target := Migration.cell r source]> r)
              <$> Migration.rows t).
Proof.
  unfold update_table.
  destruct (Migration.columns t !! target) as [[ty b]|]; simpl;
    [|split; [done|by intros [(? & ? & ? & _) _]]].
  destruct (Migration.columns t !! source) as [s|]; simpl;
    [|split; [done|by intros (_ & [? ?] & _)]].
  destruct b; simpl.
  - split; [intros [= <-]|intros (_ & _ & ->)]; [|done].
    split_and!; [|done..]. exists ty, true. done.
  - destruct (existsb _ _) eqn:Hex.
    + split; [done|]. intros ((ty' & b' & [= <- <-] & Hnn) & _).
      apply existsb_exists in Hex as (r & Hr%list_elem_of_In & Hnull).
      apply bool_decide_eq_true in Hnull. by destruct (Hnn eq_refl r Hr).
    + split; [intros [= <-]|intros (_ & _ & ->)]; [|done].
      split_and!; [|done..]. exists ty, false. split; [done|].
      intros _ r Hr%list_elem_of_In Hnull.
      assert (existsb (λ r, bool_decide (Migration.cell r source = None))
                (Migration.rows t) = true); [|congruence].
      apply existsb_exists. exists r. split; [done|].
      by apply bool_decide_eq_true.
Qed.

(** The six statements of the upgrade, seen from one row. *)
Lemma upgrade_row_steps (r : gmap string (option string)) :
  delete "label"
    ((λ r, <["description" := Migration.cell r "label"]> r)
       ((λ r, <["title" := Migration.cell r "label"]> r)
          (<["icon" := None]> (<["description" := None]> (<["title" := None]> r)))))
  = upgrade_row r.
Proof.
  unfold upgrade_row, Migration.cell. apply map_eq. intros k.
  columns_lookup.
Qed.

(** The upgrade of one table: when it goes through, and what it leaves. *)
Lemma upgrade_table_Some (t t' : Migration.Table) :
  upgrade_table t = Some t' ↔
  Migration.columns t !! "title" = None
  ∧ Migration.columns t !! "description" = None
  ∧ Migration.columns t !! "icon" = None
  ∧ is_Some (Migration.columns t !! "label")
  ∧ t' = Migration.mkTable (upgrade_columns (Migration.columns t))
                           (upgrade_row <$> Migration.rows t).
Proof.
  assert (Migration.mkTable (upgrade_columns (Migration.columns t))
            (delete "label"
               <$> ((λ r, <["description" := Migration.cell r "label"]> r)
               <$> ((λ r, <["title" := Migration.cell r "label"]> r)
               <$> ((λ r, <["icon" := None]> r)
               <$> ((λ r, <["description" := None]> r)
               <$> ((λ r, <["title" := None]> r) <$> Migration.rows t))))))
          = Migration.mkTable (upgrade_columns (Migration.columns t))
              (upgrade_row <$> Migration.rows t)) as Hrows.
  { f_equal. rewrite <- !list_fmap_compose. apply list_fmap_ext.
    intros i r _. apply upgrade_row_steps. }
  unfold upgrade_table. split.
  - intros H.
    apply bind_Some in H as (t1 & [H1 ->]%add_column_to_Some & H).
    apply bind_Some in H as (t2 & [H2 ->]%add_column_to_Some & H).
    apply bind_Some in H as (t3 & [H3 ->]%add_column_to_Some & H).
    apply bind_Some in H as (t4 & (_ & Hs1 & ->)%update_table_Some & H).
    apply bind_Some in H as (t5 & (_ & _ & ->)%update_table_Some & H).
    apply drop_column_from_Some in H as [_ ->].
    cbn [Migration.name Migration.type_ Migration.nullable
         Migration.columns Migration.rows] in *.
    rewrite lookup_insert_ne in H2 by done.
    rewrite !lookup_insert_ne in H3 by done.
    rewrite !lookup_insert_ne in Hs1 by done.
    split_and!; [done..|]. by rewrite <- Hrows.
  - intros (H1 & H2 & H3 & Hl & ->). rewrite <- Hrows.
    apply bind_Some. eexists. split.
    { apply add_column_to_Some. split; [exact H1|reflexivity]. }
    apply bind_Some. eexists. split.
    { apply add_column_to_Some. split; [|reflexivity].
      cbn. by rewrite lookup_insert_ne. }
    apply bind_Some. eexists. split.
    { apply add_column_to_Some. split; [|reflexivity].
      cbn. by rewrite !lookup_insert_ne. }
    apply bind_Some. eexists. split.
    { apply update_table_Some. split_and!; [| |reflexivity].
      - cbn. eexists _, true. split; [|done]. by columns_lookup.
      - cbn. by rewrite !lookup_insert_ne. }
    apply bind_Some. eexists. split.
    { apply update_table_Some. split_and!; [| |reflexivity].
      - cbn. eexists _, true. split; [|done]. by columns_lookup.
      - cbn. by rewrite !lookup_insert_ne. }
    apply drop_column_from_Some. split; [|reflexivity].
    cbn. by rewrite !lookup_insert_ne.
Qed.

(** The five statements of the downgrade, seen from one row. *)
Lemma downgrade_row_steps (r : gmap string (option string)) :
  delete "title"
    (delete "description"
       (delete "icon"
          ((λ r, <["label" := Migration.cell r "title"]> r)
             (<["label" := Some ""]> r))))
  = downgrade_row r.
Proof.
  unfold downgrade_row, Migration.cell. apply map_eq. intros k.
  columns_lookup.
Qed.

(** The downgrade of one table: when it goes through, and what it leaves. *)
Lemma downgrade_table_Some (t t' : Migration.Table) :
  downgrade_table t = Some t' ↔
  Migration.columns t !! "label" = None
  ∧ is_Some (Migration.columns t !! "title")
  ∧ is_Some (Migration.columns t !! "description")
  ∧ is_Some (Migration.columns t !! "icon")
  ∧ (∀ r, r ∈ Migration.rows t → Migration.cell r "title" ≠ None)
  ∧ t' = Migration.mkTable (downgrade_columns (Migration.columns t))
                           (downgrade_row <$> Migration.rows t).
Proof.
  assert (Migration.mkTable (downgrade_columns (Migration.columns t))
            (delete "title"
               <$> (delete "description"
               <$> (delete "icon"
               <$> ((λ r, <["label" := Migration.cell r "title"]> r)
               <$> ((λ r, <["label" := Some ""]> r) <$> Migration.rows t)))))
          = Migration.mkTable (downgrade_columns (Migration.columns t))
              (downgrade_row <$> Migration.rows t)) as Hrows.
  { f_equal. rewrite <- !list_fmap_compose. apply list_fmap_ext.
    intros i r _. apply downgrade_row_steps. }
  assert (∀ r : gmap string (option string),
            Migration.cell (<["label" := Some ""]> r) "title"
            = Migration.cell r "title") as Hcell.
  { intros r. unfold Migration.cell. by rewrite lookup_insert_ne. }
  unfold downgrade_table. split.
  - intros H.
    apply bind_Some in H as (t1 & [H1 ->]%add_column_to_Some & H).
    apply bind_Some in H
      as (t2 & ((ty & b & Hty & Hnn) & Hs & ->)%update_table_Some & H).
    apply bind_Some in H as (t3 & [Hi ->]%drop_column_from_Some & H).
    apply bind_Some in H as (t4 & [Hd ->]%drop_column_from_Some & H).
    apply drop_column_from_Some in H as [Ht ->].
    cbn [Migration.name Migration.type_ Migration.nullable
         Migration.columns Migration.rows] in *.
    rewrite lookup_insert_eq in Hty. injection Hty as <- <-.
    rewrite lookup_insert_ne in Hs, Hi by done.
    rewrite lookup_delete_ne, lookup_insert_ne in Hd by done.
    split_and!; [done..| |by rewrite <- Hrows].
    intros r Hr. rewrite <- Hcell. apply (Hnn eq_refl).
    by apply list_elem_of_fmap_2.
  - intros (H1 & Ht & Hd & Hi & Hnn & ->). rewrite <- Hrows.
    apply bind_Some. eexists. split.
    { apply add_column_to_Some. split; [exact H1|reflexivity]. }
    apply bind_Some. eexists. split.
    { apply update_table_Some. split_and!; [| |reflexivity].
      - cbn. eexists _, false. split; [by rewrite lookup_insert_eq|].
        intros _ r' (r & -> & Hr)%list_elem_of_fmap.
        rewrite Hcell. by apply Hnn.
      - cbn. by rewrite lookup_insert_ne. }
    apply bind_Some. eexists. split.
    { apply drop_column_from_Some. split; [|reflexivity].
      cbn. by rewrite lookup_insert_ne. }
    apply bind_Some. eexists. split.
    { apply drop_column_from_Some. split; [|reflexivity].
      cbn. by rewrite lookup_delete_ne, lookup_insert_ne. }
    apply drop_column_from_Some. split; [|reflexivity].
    cbn. by rewrite !lookup_delete_ne, lookup_insert_ne.
Qed.

Lemma on_table_Some (tn : string) (f : Migration.Table → option Migration.Table)
    (db db' : gmap string Migration.Table) :
  on_table tn f db = Some db' ↔
  ∃ t t', db !! tn = Some t ∧ f t = Some t' ∧ db' = <[tn := t']> db.
Proof.
  unfold on_table. split.
  - intros (t & Ht & (t' & Hf & [= <-])%bind_Some)%bind_Some. by exists t, t'.
  - intros (t & t' & Ht & Hf & ->). rewrite Ht. simpl. by rewrite Hf.
Qed.

(** The two migrations on a database. *)
Lemma upgrade_Some (db db' : gmap string Migration.Table) :
  Migration.upgrade db = Some db' ↔
  ∃ t, db !! "theia_image" = Some t
       ∧ Migration.columns t !! "title" = None
       ∧ Migration.columns t !! "description" = None
       ∧ Migration.columns t !! "icon" = None
       ∧ is_Some (Migration.columns t !! "label")
       ∧ db' = <["theia_image" :=
                   Migration.mkTable (upgrade_columns (Migration.columns t))
                     (upgrade_row <$> Migration.rows t)]> db.
Proof.
  rewrite upgrade_on_table, on_table_Some. split.
  - intros (t & t' & Ht & (? & ? & ? & ? & ->)%upgrade_table_Some & ->).
    by exists t.
  - intros (t & Ht & ? & ? & ? & ? & ->). eexists t, _.
    split; [done|]. split; [|done]. by apply upgrade_table_Some.
Qed.

Lemma downgrade_Some (db db' : gmap string Migration.Table) :
  Migration.downgrade db = Some db' ↔
  ∃ t, db !! "theia_image" = Some t
       ∧ Migration.columns t !! "label" = None
       ∧ is_Some (Migration.columns t !! "title")
       ∧ is_Some (Migration.columns t !! "description")
       ∧ is_Some (Migration.columns t !! "icon")
       ∧ (∀ r, r ∈ Migration.rows t → Migration.cell r "title" ≠ None)
       ∧ db' = <["theia_image" :=
                   Migration.mkTable (downgrade_columns (Migration.columns t))
                     (downgrade_row <$> Migration.rows t)]> db.
Proof.
  rewrite downgrade_on_table, on_table_Some. split.
  - intros (t & t' & Ht & (? & ? & ? & ? & ? & ->)%downgrade_table_Some & ->).
    by exists t.
  - intros (t & Ht & ? & ? & ? & ? & ? & ->). eexists t, _.
    split; [done|]. split; [|done]. by apply downgrade_table_Some.
Qed.

(** The cells of a migrated row. *)
Lemma upgrade_row_lookup (r : gmap string (option string)) (c : string) :
  upgrade_row r !! c =
    if decide (c = "label") then None
    else if decide (c = "description") then Some (Migration.cell r "label")
    else if decide (c = "title") then Some (Migration.cell r "label")
    else if decide (c = "icon") then Some None
    else r !! c.
Proof. unfold upgrade_row. columns_lookup. Qed.

Lemma downgrade_row_lookup (r : gmap string (option string)) (c : string) :
  downgrade_row r !! c =
    if decide (c = "title") then None
    else if decide (c = "description") then None
    else if decide (c = "icon") then None
    else if decide (c = "label") then Some (Migration.cell r "title")
    else r !! c.
Proof. unfold downgrade_row. columns_lookup. Qed.

(** X21.  The upgrade goes through exactly on a database that has the table
    [theia_image] with a column [label] and without columns [title],
    [description] and [icon].  In particular it cannot be applied twice in a
    row: on the database it leaves, it fails. *)
Theorem upgrade_applies_iff (db : gmap string Migration.Table) :
  (is_Some (Migration.upgrade db) ↔
   ∃ t, db !! "theia_image" = Some t
        ∧ is_Some (Migration.columns t !! "label")
        ∧ Migration.columns t !! "title" = None
        ∧ Migration.columns t !! "description" = None
        ∧ Migration.columns t !! "icon" = None)
  ∧ (∀ db', Migration.upgrade db = Some db' → Migration.upgrade db' = None).
Proof.
  split.
  - split.
    + intros [db' (t & ? & ? & ? & ? & ? & _)%upgrade_Some]. by exists t.
    + intros (t & ? & ? & ? & ? & ?). eexists. apply upgrade_Some.
      by exists t.
  - intros db' (t & _ & _ & _ & _ & _ & ->)%upgrade_Some.
    destruct (Migration.upgrade _) as [db''|] eqn:Hagain; [|done].
    apply upgrade_Some in Hagain as (t' & Ht' & Htitle & _).
    rewrite lookup_insert_eq in Ht'. injection Ht' as <-.
    cbn in Htitle. unfold upgrade_columns in Htitle.
    revert Htitle. by columns_lookup.
Qed.

(** The two images with an id and a label. *)
Lemma upgrade_applies_iff_witness :
  is_Some (Migration.upgrade Images.before)
  ∧ Migration.upgrade Images.after = None.
Proof.
  split.
  - apply (upgrade_applies_iff Images.before). eexists.
    split; [reflexivity|]. split; [by eexists|]. by split_and!.
  - destruct (Migration.upgrade Images.after) as [db'|] eqn:Hup; [|done].
    assert (is_Some (Migration.upgrade Images.after)) as Hsome by by eexists.
    apply (upgrade_applies_iff Images.after) in Hsome
      as (t & [= <-] & [x Hlabel] & _).
    vm_compute in Hlabel. discriminate.
Defined.

(** X22.  An upgrade that goes through touches the table [theia_image]
    only.  It replaces the column [label] by the nullable columns [title],
    [description] and [icon] and keeps all other columns; it keeps the rows
    in number and order, and in every row the title and the description are
    the former label, the icon is NULL, and the cells of the other columns
    are as they were. *)
Theorem upgrade_carries_labels (db db' : gmap string Migration.Table) :
  Migration.upgrade db = Some db' →
  ∃ t t',
    db !! "theia_image" = Some t
    ∧ db' !! "theia_image" = Some t'
    ∧ (∀ k, k ≠ "theia_image" → db' !! k = db !! k)
    ∧ Migration.columns t' !! "title" = Some (Migration.String_ 1024, true)
    ∧ Migration.columns t' !! "description" = Some (Migration.Text, true)
    ∧ Migration.columns t' !! "icon" = Some (Migration.String_ 1024, true)
    ∧ Migration.columns t' !! "label" = None
    ∧ (∀ c, c ∉ ["title"; "description"; "icon"; "label"] →
            Migration.columns t' !! c = Migration.columns t !! c)
    ∧ length (Migration.rows t') = length (Migration.rows t)
    ∧ ∀ i r, Migration.rows t !! i = Some r →
        ∃ r', Migration.rows t' !! i = Some r'
              ∧ Migration.cell r' "title" = Migration.cell r "label"
              ∧ Migration.cell r' "description" = Migration.cell r "label"
              ∧ Migration.cell r' "icon" = None
              ∧ r' !! "label" = None
              ∧ ∀ c, c ∉ ["title"; "description"; "icon"; "label"] →
                     r' !! c = r !! c.
Proof.
  intros (t & Ht & _ & _ & _ & _ & ->)%upgrade_Some.
  eexists t, _. split; [done|]. split; [apply lookup_insert_eq|].
  split; [intros k Hk; by apply lookup_insert_ne|].
  cbn [Migration.columns Migration.rows]. unfold upgrade_columns.
  do 4 (split; [by columns_lookup|]).
  split; [|split].
  - intros c Hc. rewrite !elem_of_cons, elem_of_nil in Hc.
    repeat (rewrite ?lookup_insert, ?lookup_delete; repeat case_decide;
            try done; try (exfalso; apply Hc; auto 6; fail)).
  - by rewrite length_fmap.
  - intros i r Hr. exists (upgrade_row r).
    rewrite list_lookup_fmap, Hr. unfold Migration.cell.
    do 5 (split; [by rewrite ?upgrade_row_lookup|]).
    intros c Hc. rewrite !elem_of_cons, elem_of_nil in Hc.
    rewrite upgrade_row_lookup.
    repeat case_decide; try done; exfalso; apply Hc; auto 6.
Qed.

(** The two images are upgraded. *)
Lemma upgrade_carries_labels_witness :
  ∃ db' t' r',
    Migration.upgrade Images.before = Some db'
    ∧ db' !! "theia_image" = Some t'
    ∧ Migration.rows t' !! 1%nat = Some r'
    ∧ Migration.cell r' "title" = Some "C++"
    ∧ length (Migration.rows t') = 2%nat.
Proof.
  destruct (Migration.upgrade Images.before) as [db'|] eqn:Hup;
    [|vm_compute in Hup; discriminate].
  destruct (upgrade_carries_labels Images.before db' Hup)
    as (t & t' & [= <-] & Ht' & _ & _ & _ & _ & _ & _ & Hlen & Hrows).
  destruct (Hrows 1%nat {[ "id" := Some "i2"; "label" := Some "C++" ]} eq_refl)
    as (r' & Hr' & Htitle & _).
  exists db', t', r'. do 3 (split; [done|]). split; [exact Htitle|exact Hlen].
Defined.

(** X23.  Upgrade, then downgrade, gives the database back: on a consistent
    table [theia_image] whose [label] is the NOT NULL column the downgrade
    recreates and which has none of the three new columns, both migrations
    go through and every table, column and cell is as before. *)
Theorem downgrade_after_upgrade (db : gmap string Migration.Table)
    (t : Migration.Table) :
  db !! "theia_image" = Some t →
  consistent t →
  Migration.columns t !! "label"
  = Some (Migration.VARCHAR "utf8mb4_unicode_ci" 1024, false) →
  Migration.columns t !! "title" = None →
  Migration.columns t !! "description" = None →
  Migration.columns t !! "icon" = None →
  Migration.upgrade db ≫= Migration.downgrade = Some db.
Proof.
  intros Ht Hcons Hlabel Htitle Hdesc Hicon.
  assert (Migration.upgrade db
          = Some (<["theia_image" :=
                      Migration.mkTable (upgrade_columns (Migration.columns t))
                        (upgrade_row <$> Migration.rows t)]> db)) as ->.
  { apply upgrade_Some. exists t. by rewrite Hlabel. }
  simpl. apply downgrade_Some. eexists.
  split; [apply lookup_insert_eq|].
  cbn [Migration.columns Migration.rows].
  assert (∀ r, r ∈ Migration.rows t →
               Migration.cell (upgrade_row r) "title" ≠ None) as Hnn.
  { intros r Hr. unfold Migration.cell at 1. rewrite upgrade_row_lookup.
    destruct (Hcons r Hr) as [_ Hnotnull]. by apply (Hnotnull _ _ Hlabel). }
  unfold upgrade_columns at 1 2 3 4.
  do 4 (split; [by columns_lookup|]).
  split.
  { intros r' (r & -> & Hr)%list_elem_of_fmap. by apply Hnn. }
  rewrite insert_insert_eq. symmetry. apply insert_id. rewrite Ht. f_equal.
  destruct t as [cols rows]. cbn [Migration.columns Migration.rows] in *.
  f_equal.
  - apply map_eq. intros c. unfold downgrade_columns, upgrade_columns.
    columns_lookup.
  - rewrite <- list_fmap_compose.
    rewrite <- (list_fmap_id rows) at 1. apply list_fmap_ext.
    intros i r Hr%list_elem_of_lookup_2.
    destruct (Hcons r Hr) as [Hdom Hnotnull]. cbn in Hdom, Hnotnull.
    apply map_eq. intros c. simpl. rewrite downgrade_row_lookup.
    assert (∀ c, cols !! c = None → r !! c = None) as Hno.
    { intros c' Hc'. apply eq_None_not_Some. rewrite Hdom, Hc'.
      by intros [? ?]. }
    repeat case_decide; subst; rewrite ?Hno by done; try done.
    + unfold Migration.cell at 1. rewrite upgrade_row_lookup.
      repeat case_decide; try done.
      unfold Migration.cell.
      destruct (r !! "label") as [v|] eqn:Hv; [done|].
      assert (is_Some (r !! "label")) as [? ?]; [|congruence].
      rewrite Hdom, Hlabel. eauto.
    + rewrite upgrade_row_lookup. by repeat case_decide.
Qed.

(** The two images are upgraded and downgraded again. *)
Lemma downgrade_after_upgrade_witness :
  Migration.upgrade Images.before ≫= Migration.downgrade = Some Images.before.
Proof.
  eapply downgrade_after_upgrade; [reflexivity| |reflexivity..].
  intros r Hr. apply list_elem_of_In in Hr. simpl in Hr.
  cbn [Migration.columns].
  destruct Hr as [<-|[<-|[]]]; split.
  - intros c. rewrite <- !elem_of_dom.
    by rewrite !dom_insert_L, !dom_singleton_L.
  - intros c ty Hc.
    assert (c ∈ dom ({[ "id" := (Migration.String_ 128, false);
                        "label" := Images.label_type ]}
                     : gmap string (Migration.SqlType * bool))) as Hin
      by (apply elem_of_dom; by eexists).
    rewrite dom_insert_L, dom_singleton_L in Hin.
    apply elem_of_union in Hin
      as [->%elem_of_singleton| ->%elem_of_singleton]; by vm_compute.
  - intros c. rewrite <- !elem_of_dom.
    by rewrite !dom_insert_L, !dom_singleton_L.
  - intros c ty Hc.
    assert (c ∈ dom ({[ "id" := (Migration.String_ 128, false);
                        "label" := Images.label_type ]}
                     : gmap string (Migration.SqlType * bool))) as Hin
      by (apply elem_of_dom; by eexists).
    rewrite dom_insert_L, dom_singleton_L in Hin.
    apply elem_of_union in Hin
      as [->%elem_of_singleton| ->%elem_of_singleton]; by vm_compute.
Defined.

(** X24.  Downgrade, then upgrade, does not give the database back: when the
    downgrade goes through, so does the upgrade after it, and the rows keep
    their titles and their other cells, but every description has become
    the title and every icon NULL. *)
Theorem upgrade_after_downgrade (db db1 : gmap string Migration.Table) :
  Migration.downgrade db = Some db1 →
  ∃ db2 t t2,
    Migration.upgrade db1 = Some db2
    ∧ db !! "theia_image" = Some t
    ∧ db2 !! "theia_image" = Some t2
    ∧ length (Migration.rows t2) = length (Migration.rows t)
    ∧ ∀ i r, Migration.rows t !! i = Some r →
        ∃ r2, Migration.rows t2 !! i = Some r2
              ∧ Migration.cell r2 "title" = Migration.cell r "title"
              ∧ Migration.cell r2 "description" = Migration.cell r "title"
              ∧ Migration.cell r2 "icon" = None
              ∧ ∀ c, c ∉ ["title"; "description"; "icon"; "label"] →
                     r2 !! c = r !! c.
Proof.
  intros (t & Ht & Hlabel & _ & _ & _ & _ & ->)%downgrade_Some.
  set (t2 := Migration.mkTable
               (upgrade_columns (downgrade_columns (Migration.columns t)))
               (upgrade_row <$> (downgrade_row <$> Migration.rows t))).
  exists (<["theia_image" := t2]> db), t, t2.
  split; [|split; [done|split; [apply lookup_insert_eq|]]].
  - apply upgrade_Some. eexists. split; [apply lookup_insert_eq|].
    cbn [Migration.columns Migration.rows]. unfold downgrade_columns.
    do 3 (split; [by columns_lookup|]).
    split; [by columns_lookup|].
    by rewrite insert_insert_eq.
  - unfold t2. cbn [Migration.rows]. split; [by rewrite !length_fmap|].
    intros i r Hr. exists (upgrade_row (downgrade_row r)).
    rewrite !list_lookup_fmap, Hr.
    split; [done|].
    do 3 (split; [unfold Migration.cell at 1; rewrite upgrade_row_lookup;
                  simpl; unfold Migration.cell;
                  by rewrite ?downgrade_row_lookup|]).
    intros c Hc. rewrite !elem_of_cons, elem_of_nil in Hc.
    rewrite upgrade_row_lookup.
    repeat case_decide; try (exfalso; apply Hc; auto 6; fail).
    rewrite downgrade_row_lookup.
    repeat case_decide; try done; exfalso; apply Hc; auto 6.
Qed.

(** The image with a description and an icon is downgraded and upgraded
    again. *)
Lemma upgrade_after_downgrade_witness :
  ∃ db1 db2 t2 r2,
    Migration.downgrade Images.after = Some db1
    ∧ Migration.upgrade db1 = Some db2
    ∧ db2 !! "theia_image" = Some t2
    ∧ Migration.rows t2 !! 0%nat = Some r2
    ∧ Migration.cell r2 "description" = Some "Python"
    ∧ Migration.cell r2 "icon" = None.
Proof.
  destruct (Migration.downgrade Images.after) as [db1|] eqn:Hdown;
    [|vm_compute in Hdown; discriminate].
  destruct (upgrade_after_downgrade Images.after db1 Hdown)
    as (db2 & t & t2 & Hup & [= <-] & Ht2 & _ & Hrows).
  destruct (Hrows 0%nat
              {[ "id" := Some "i1"; "title" := Some "Python";
                 "description" := Some "An image for Python";
                 "icon" := Some "python.png" ]} eq_refl)
    as (r2 & Hr2 & _ & Hdesc & Hicon & _).
  exists db1, db2, t2, r2. do 4 (split; [done|]).
  split; [exact Hdesc|exact Hicon].
Defined.
